(** * CarbonLens browser extension: activity capture and delivery pipeline

    A shallow embedding of the extension's background service worker
    ([src/extension/background.js]), of its content script (the version
    with retry, offline queue and attachment-size scan) and of the part of
    its popup script that talks to the service worker, followed by the
    properties of the pipeline proved on that embedding.

    Conventions of the embedding.
    - JavaScript values that cross a context boundary (message payloads,
      storage contents, queue items) are values of [Js.value]; numbers are
      the integers a counter or a millisecond clock holds.
    - The sizes the content script reads off the page are doubles: a size
      is the rational it denotes and every arithmetic step on sizes rounds
      as IEEE 754 binary64 does ([Double]).
    - A text is a sequence of code units below 256. White space is what
      [trim] and [\s] take for white space in that range, the no-break
      space U+00A0 included; case is converted for the letters of ASCII
      only, and a letter above U+007F is carried along as it is.
    - Every [async] operation of the coordinator is run to completion before
      the next one starts; what the outside world answers (clock readings,
      the backend's replies, channel failures) is an explicit argument.
    - Reads and writes of [chrome.storage.local] succeed.
    - An exception is a [Throw]; a [try]/[catch] of the source is
      [try_catch]. *)

From Stdlib Require Import ZArith QArith Qround Qpower String Ascii List Lia Bool.
From stdpp Require Import base gmap strings list pretty.
From Equations Require Import Equations.

Set Warnings "-register-all".
Open Scope Z_scope.

(** ** JavaScript values *)

Module Js.

(** [Num] carries the integers on which the arithmetic of the language
    is exact; [NaN] is the one other number the program can produce. *)
Inductive value : Type :=
| Undefined
| Null
| NaN
| Bool (b : bool)
| Num (n : Z)
| Str (s : string)
| Arr (xs : list value)
| Obj (fields : list (string * value)).

(** [!v] is [negb (truthy v)]. *)
Definition truthy (v : value) : bool :=
  match v with
  | Undefined | Null | NaN => false
  | Bool b => b
  | Num n => negb (n =? 0)
  | Str s => negb (String.eqb s "")
  | Arr _ | Obj _ => true
  end.

(** [a || b] *)
Definition or (a b : value) : value := if truthy a then a else b.

Definition join_with (f : value -> string) (sep : string) : list value -> string :=
  fix go (l : list value) : string :=
    match l with
    | [] => ""
    | [x] => f x
    | x :: rest => f x +:+ sep +:+ go rest
    end.

(** String conversion, as a template literal or [String(v)] performs it.
    Array elements that are [null] or [undefined] print as the empty
    string, as [Array.prototype.join] prescribes. *)
Fixpoint ToString (v : value) : string :=
  match v with
  | Undefined => "undefined"
  | Null => "null"
  | NaN => "NaN"
  | Bool true => "true"
  | Bool false => "false"
  | Num n => pretty n
  | Str s => s
  | Arr xs =>
      join_with (fun x => match x with
                          | Undefined | Null => ""
                          | _ => ToString x
                          end) "," xs
  | Obj _ => "[object Object]"
  end.

(** [xs.join(sep)] *)
Definition join (sep : string) (xs : list value) : string :=
  join_with (fun x => match x with
                      | Undefined | Null => ""
                      | _ => ToString x
                      end) sep xs.

(** [v === 'literal'] *)
Definition is_str (v : value) (lit : string) : bool :=
  match v with Str s => String.eqb s lit | _ => false end.

Fixpoint lookup_field (k : string) (fs : list (string * value)) : value :=
  match fs with
  | [] => Undefined
  | (k', v) :: rest => if String.eqb k k' then v else lookup_field k rest
  end.

(** Assignment to a property: an existing key keeps its position. *)
Fixpoint set_field (k : string) (v : value) (fs : list (string * value))
  : list (string * value) :=
  match fs with
  | [] => [(k, v)]
  | (k', v') :: rest =>
      if String.eqb k k' then (k, v) :: rest else (k', v') :: set_field k v rest
  end.

Fixpoint indexed (i : nat) (xs : list value) : list (string * value) :=
  match xs with
  | [] => []
  | x :: rest => (pretty i, x) :: indexed (S i) rest
  end.

Fixpoint chars (s : string) : list value :=
  match s with
  | EmptyString => []
  | String c rest => Str (String c EmptyString) :: chars rest
  end.

(** Own enumerable properties, what [{...v}] copies. *)
Definition own_props (v : value) : list (string * value) :=
  match v with
  | Obj fs => fs
  | Arr xs => indexed 0 xs
  | Str s => indexed 0 (chars s)
  | _ => []
  end.

(** [v + 1], the effect of [v += 1]. *)
Definition add_one (v : value) : value :=
  match v with
  | Num n => Num (n + 1)
  | Bool true => Num 2
  | Bool false | Null => Num 1
  | Undefined | NaN => NaN
  | Str _ | Arr _ | Obj _ => Str (ToString v +:+ "1")
  end.

End Js.

(** ** Results and exceptions *)

Inductive result (A : Type) : Type :=
| Ok (a : A)
| Throw (message : string).
Arguments Ok {A} a.
Arguments Throw {A} message.

(** Property read [v.k]: a [TypeError] on [null] and [undefined]. The
    program reads only names that no string, number, boolean or array
    carries, so every other primitive answers [undefined]. *)
Definition member (v : Js.value) (k : string) : result Js.value :=
  match v with
  | Js.Undefined | Js.Null => Throw "Cannot read properties of null or undefined"
  | Js.Obj fs => Ok (Js.lookup_field k fs)
  | _ => Ok Js.Undefined
  end.

(** Optional chaining [v?.k]. *)
Definition member_opt (v : Js.value) (k : string) : Js.value :=
  match member v k with Ok x => x | Throw _ => Js.Undefined end.

(** ** String helpers of the standard library of the language *)

Module Text.

(** White space and line terminators, as [trim] and [\s] know them:
    U+0009 to U+000D, the space and the no-break space U+00A0. *)
Definition is_space (c : ascii) : bool :=
  let n := nat_of_ascii c in
  ((9 <=? n) && (n <=? 13))%nat || (n =? 32)%nat || (n =? 160)%nat.

Fixpoint trim_start (s : string) : string :=
  match s with
  | String c rest => if is_space c then trim_start rest else s
  | EmptyString => EmptyString
  end.

Fixpoint rev_onto (s acc : string) : string :=
  match s with
  | EmptyString => acc
  | String c rest => rev_onto rest (String c acc)
  end.

Definition rev (s : string) : string := rev_onto s EmptyString.

(** [s.trim()] *)
Definition trim (s : string) : string := rev (trim_start (rev (trim_start s))).

(** [s.replace(/\/$/, '')]: one trailing slash is removed. *)
Definition strip_trailing_slash (s : string) : string :=
  match rev s with
  | String "/"%char rest => rev rest
  | _ => s
  end.

(** The longest prefix of characters satisfying [p], and what follows. *)
Fixpoint span (p : ascii -> bool) (s : string) : string * string :=
  match s with
  | String c rest =>
      if p c then let (a, b) := span p rest in (String c a, b) else (EmptyString, s)
  | EmptyString => (EmptyString, EmptyString)
  end.

Definition upper (c : ascii) : ascii :=
  let n := nat_of_ascii c in
  if ((97 <=? n) && (n <=? 122))%nat then ascii_of_nat (n - 32) else c.

Fixpoint toUpperCase (s : string) : string :=
  match s with
  | EmptyString => EmptyString
  | String c rest => String (upper c) (toUpperCase rest)
  end.

End Text.

(** ** Numbers with a fraction

    The arithmetic of the language on numbers that are not whole: IEEE 754
    binary64. A finite double that is not negative is written as the
    rational it denotes, and every operation rounds its exact result to
    the nearest such rational, a tie going to the even significand, with
    gradual underflow below [2^-1022]. Only the sizes of attachments are
    computed in this arithmetic; none of them is negative, and a size
    beyond [Number.MAX_VALUE] (a figure of more than 308 digits) is not
    provided for. *)

Module Double.

(** [floor (log2 q)] for a positive [q]. *)
Definition ilog2 (q : Q) : Z :=
  let k := Z.log2 (Qnum q) - Z.log2 (Zpos (Qden q)) in
  if Qle_bool (2 ^ k) q then k else k - 1.

(** The nearest integer, a tie going to the even one. *)
Definition nearest_even (q : Q) : Z :=
  let f := Qfloor q in
  match (q - inject_Z f ?= 1 # 2)%Q with
  | Lt => f
  | Gt => f + 1
  | Eq => if Z.even f then f else f + 1
  end.

(** The double nearest to [q]: a significand of 53 bits above [2^-1022],
    multiples of [2^-1074] below. *)
Definition round (q : Q) : Q :=
  if Qle_bool q 0 then 0%Q
  else
    let e := Z.max (ilog2 q - 52) (-1074) in
    Qred (inject_Z (nearest_even (q / 2 ^ e)) * 2 ^ e).

Definition add (a b : Q) : Q := round (a + b).
Definition mul (a b : Q) : Q := round (a * b).
Definition div (a b : Q) : Q := round (a / b).

End Double.

(** ** The host runtime

    What the browser provides and the repository does not define: the URL
    parser and the version recorded in the extension's manifest. [URL_new s]
    is [new URL(s)] and [URL_new_base p b] is [new URL(p, b)]; [None] stands
    for the [TypeError] the constructor throws. *)

Class Host : Type := {
  URL : Type;
  URL_new : string -> option URL;
  URL_new_base : string -> string -> option URL;
  URL_clear_hash : URL -> URL;
  URL_toString : URL -> string;
  manifest_version : string
}.

(** ** Coordinator state ([background.js]) *)

Definition DEFAULT_BACKEND_BASE_URL : string := "http://127.0.0.1:5000".

Module API_ENDPOINTS.
Definition health : string := "/api/health".
Definition activity : string := "/api/activities/log".
End API_ENDPOINTS.

(** The [STATE] object. [lastSyncStatus], [lastSyncAt] and
    [totalActivitiesTracked] are rehydrated from storage with [x || default]
    and therefore hold whatever truthy value storage held;
    [lastSyncAttemptAt] is absent until the first activity. *)
Record State : Type := mkState {
  mode : string;
  backendBaseUrl : string;
  isBackendReachable : bool;
  lastHealthCheck : option Z;
  lastSyncStatus : Js.value;
  lastSyncAt : Js.value;
  totalActivitiesTracked : Js.value;
  lastSyncAttemptAt : option string
}.

Definition initial_STATE : State :=
  {| mode := "awareness";
     backendBaseUrl := DEFAULT_BACKEND_BASE_URL;
     isBackendReachable := true;
     lastHealthCheck := None;
     lastSyncStatus := Js.Str "idle";
     lastSyncAt := Js.Null;
     totalActivitiesTracked := Js.Num 0;
     lastSyncAttemptAt := None |}.

Definition set_mode (v : string) (s : State) : State :=
  mkState v (backendBaseUrl s) (isBackendReachable s) (lastHealthCheck s)
          (lastSyncStatus s) (lastSyncAt s) (totalActivitiesTracked s)
          (lastSyncAttemptAt s).
Definition set_backendBaseUrl (v : string) (s : State) : State :=
  mkState (mode s) v (isBackendReachable s) (lastHealthCheck s)
          (lastSyncStatus s) (lastSyncAt s) (totalActivitiesTracked s)
          (lastSyncAttemptAt s).
Definition set_isBackendReachable (v : bool) (s : State) : State :=
  mkState (mode s) (backendBaseUrl s) v (lastHealthCheck s)
          (lastSyncStatus s) (lastSyncAt s) (totalActivitiesTracked s)
          (lastSyncAttemptAt s).
Definition set_lastHealthCheck (v : option Z) (s : State) : State :=
  mkState (mode s) (backendBaseUrl s) (isBackendReachable s) v
          (lastSyncStatus s) (lastSyncAt s) (totalActivitiesTracked s)
          (lastSyncAttemptAt s).
Definition set_lastSyncStatus (v : Js.value) (s : State) : State :=
  mkState (mode s) (backendBaseUrl s) (isBackendReachable s) (lastHealthCheck s)
          v (lastSyncAt s) (totalActivitiesTracked s) (lastSyncAttemptAt s).
Definition set_lastSyncAt (v : Js.value) (s : State) : State :=
  mkState (mode s) (backendBaseUrl s) (isBackendReachable s) (lastHealthCheck s)
          (lastSyncStatus s) v (totalActivitiesTracked s) (lastSyncAttemptAt s).
Definition set_totalActivitiesTracked (v : Js.value) (s : State) : State :=
  mkState (mode s) (backendBaseUrl s) (isBackendReachable s) (lastHealthCheck s)
          (lastSyncStatus s) (lastSyncAt s) v (lastSyncAttemptAt s).
Definition set_lastSyncAttemptAt (v : option string) (s : State) : State :=
  mkState (mode s) (backendBaseUrl s) (isBackendReachable s) (lastHealthCheck s)
          (lastSyncStatus s) (lastSyncAt s) (totalActivitiesTracked s) v.

(** The properties of [STATE] in insertion order. *)
Definition STATE_entries (s : State) : list (string * Js.value) :=
  [ ("mode", Js.Str (mode s));
    ("backendBaseUrl", Js.Str (backendBaseUrl s));
    ("isBackendReachable", Js.Bool (isBackendReachable s));
    ("lastHealthCheck", match lastHealthCheck s with
                        | Some t => Js.Num t
                        | None => Js.Null
                        end);
    ("lastSyncStatus", lastSyncStatus s);
    ("lastSyncAt", lastSyncAt s);
    ("totalActivitiesTracked", totalActivitiesTracked s) ]
  ++ match lastSyncAttemptAt s with
     | Some t => [("lastSyncAttemptAt", Js.Str t)]
     | None => []
     end.

(** [STATE[key]] *)
Definition STATE_get (s : State) (key : string) : Js.value :=
  Js.lookup_field key (STATE_entries s).

(** What the coordinator does to the outside, in the order it does it.
    The completion callback of a [StorageSet] broadcasts [STATE_UPDATED]
    once more; that deferred broadcast is part of the [StorageSet] entry. *)
Inductive effect : Type :=
| StorageSet (items : list (string * Js.value))
| SendMessage (message : Js.value)
| TabsSendMessage (message : Js.value)
| Notification (title message : string)
| SetIcon (mode : string)
| Fetch (method url : string) (body : option Js.value).

(** The coordinator's context: [STATE], the module-level dedupe variables,
    whether the [stateReady] promise has resolved, the Durable State Store
    and the trace of effects. *)
Record World : Type := mkWorld {
  STATE : State;
  _lastActivityFingerprint : option string;
  _lastActivityAt : Z;
  stateReady : bool;
  storage : gmap string Js.value;
  effects : list effect
}.

Definition with_STATE (f : State -> State) (w : World) : World :=
  mkWorld (f (STATE w)) (_lastActivityFingerprint w) (_lastActivityAt w)
          (stateReady w) (storage w) (effects w).
Definition with_dedupe (fp : string) (at_ : Z) (w : World) : World :=
  mkWorld (STATE w) (Some fp) at_ (stateReady w) (storage w) (effects w).
Definition with_stateReady (w : World) : World :=
  mkWorld (STATE w) (_lastActivityFingerprint w) (_lastActivityAt w)
          true (storage w) (effects w).
Definition with_storage (f : gmap string Js.value -> gmap string Js.value)
    (w : World) : World :=
  mkWorld (STATE w) (_lastActivityFingerprint w) (_lastActivityAt w)
          (stateReady w) (f (storage w)) (effects w).
Definition with_effect (e : effect) (w : World) : World :=
  mkWorld (STATE w) (_lastActivityFingerprint w) (_lastActivityAt w)
          (stateReady w) (storage w) (effects w ++ [e]).

(** A freshly started service worker over a given store. *)
Definition cold_start (store : gmap string Js.value) : World :=
  {| STATE := initial_STATE;
     _lastActivityFingerprint := None;
     _lastActivityAt := 0;
     stateReady := false;
     storage := store;
     effects := [] |}.

(** ** A state-and-exception monad for the coordinator's code *)

Definition M (A : Type) : Type := World -> result A * World.

#[export] Instance M_ret : MRet M := fun A a w => (Ok a, w).
#[export] Instance M_bind : MBind M := fun A B f c w =>
  match c w with
  | (Ok a, w') => f a w'
  | (Throw e, w') => (Throw e, w')
  end.

Definition throw {A : Type} (e : string) : M A := fun w => (Throw e, w).
Definition try_catch {A : Type} (body : M A) (handler : string -> M A) : M A :=
  fun w =>
    match body w with
    | (Ok a, w') => (Ok a, w')
    | (Throw e, w') => handler e w'
    end.
Definition get : M World := fun w => (Ok w, w).
Definition gets {A : Type} (f : World -> A) : M A := fun w => (Ok (f w), w).
Definition modify (f : World -> World) : M unit := fun w => (Ok tt, f w).
Definition emit (e : effect) : M unit := modify (with_effect e).
Definition assign (f : State -> State) : M unit := modify (with_STATE f).

(** The world an operation leaves behind. *)
Definition exec {A : Type} (c : M A) (w : World) : World := snd (c w).

Definition lift {A : Type} (r : result A) : M A :=
  match r with
  | Ok a => mret a
  | Throw e => throw e
  end.

(** ** Coordinator operations *)

Section Coordinator.
Context `{Host}.

(** [chrome.storage.local.set(items)] on the store. *)
Definition storage_set (items : list (string * Js.value))
    (store : gmap string Js.value) : gmap string Js.value :=
  foldl (fun m kv => <[kv.1 := kv.2]> m) store items.

(** [data.key] in the callback of [chrome.storage.local.get]. *)
Definition stored (store : gmap string Js.value) (key : string) : Js.value :=
  default Js.Undefined (store !! key).

Definition getSerializableState (s : State) : Js.value :=
  Js.Obj (Js.set_field "version" (Js.Str manifest_version) (STATE_entries s)).

(** The object [persistState] writes: [STATE[key]] for every requested key
    that is not [undefined]. *)
Definition persist_payload (s : State) (fields : list string)
  : list (string * Js.value) :=
  foldl (fun acc key =>
           match STATE_get s key with
           | Js.Undefined => acc
           | v => Js.set_field key v acc
           end) [] fields.

Definition persistState (fields : list string) : M unit :=
  s ← gets STATE;
  let fields :=
    match fields with
    | [] => ["mode"; "backendBaseUrl"; "totalActivitiesTracked";
             "lastSyncStatus"; "lastSyncAt"]
    | _ => fields
    end in
  let payload := persist_payload s fields in
  match payload with
  | [] => mret tt
  | _ => modify (with_storage (storage_set payload));; emit (StorageSet payload)
  end.

(** [chrome.runtime.sendMessage({source, type: 'STATE_UPDATED', state})] *)
Definition broadcast_STATE_UPDATED : M unit :=
  s ← gets STATE;
  emit (SendMessage (Js.Obj [("source", Js.Str "carbonlens-background");
                             ("type", Js.Str "STATE_UPDATED");
                             ("state", getSerializableState s)])).

Definition updateExtensionIcon : M unit :=
  s ← gets STATE;
  emit (SetIcon (if String.eqb (mode s) "silent" then "silent" else "awareness")).

Definition broadcastMode : M unit :=
  s ← gets STATE;
  emit (TabsSendMessage
          (Js.Obj [("source", Js.Str "carbonlens-background");
                   ("type", Js.Str "UPDATE_MODE");
                   ("payload", Js.Obj [("mode", Js.Str (mode s))])])).

Definition setMode (nextMode : Js.value) (showNotification : bool) : M unit :=
  let validatedMode := if Js.is_str nextMode "silent" then "silent" else "awareness" in
  s ← gets STATE;
  if String.eqb (mode s) validatedMode then mret tt
  else
    assign (set_mode validatedMode);;
    persistState ["mode"];;
    updateExtensionIcon;;
    broadcastMode;;
    (if String.eqb validatedMode "awareness" && showNotification
     then emit (Notification "CarbonLens Awareness Mode"
                             "Real-time tips and notifications are active.")
     else mret tt);;
    (if String.eqb validatedMode "silent" && showNotification
     then emit (Notification "CarbonLens Silent Mode"
                             "Tracking continues quietly without pop-up nudges.")
     else mret tt).

(** [url.hash = ''; return url.toString().replace(/\/$/, '')] *)
Definition normalized (u : URL) : string :=
  Text.strip_trailing_slash (URL_toString (URL_clear_hash u)).

(** [None] is the [null] the function returns; a truthy value that is not
    a string has no [trim] method, and the call throws outside the [try]. *)
Definition sanitizeBaseUrl (value : Js.value) : result (option string) :=
  if negb (Js.truthy value) then Ok None
  else
    match value with
    | Js.Str raw =>
        let trimmed := Text.trim raw in
        if String.eqb trimmed "" then Ok None
        else
          match URL_new trimmed with
          | Some url => Ok (Some (normalized url))
          | None =>
              match URL_new ("https://" +:+ trimmed) with
              | Some withProtocol => Ok (Some (normalized withProtocol))
              | None => Ok None
              end
          end
    | _ => Throw "value.trim is not a function"
    end.

(** [!sanitized] for the [string | null] that [sanitizeBaseUrl] returns. *)
Definition usable (sanitized : option string) : option string :=
  match sanitized with
  | Some s => if String.eqb s "" then None else Some s
  | None => None
  end.

Definition setBackendBaseUrl (rawUrl : Js.value) : M unit :=
  sanitized ← lift (sanitizeBaseUrl rawUrl);
  match usable sanitized with
  | None =>
      throw "Please provide a valid backend URL (e.g., https://api.yourdomain.com)."
  | Some url =>
      assign (set_backendBaseUrl url);;
      persistState ["backendBaseUrl"]
  end.

Definition clearStats : M unit :=
  assign (fun s => set_lastSyncAt Js.Null
                     (set_lastSyncStatus (Js.Str "synced")
                        (set_totalActivitiesTracked (Js.Num 0) s)));;
  persistState ["totalActivitiesTracked"; "lastSyncStatus"; "lastSyncAt"].

(** One health probe as the outside answers it: the clock reading taken by
    [Date.now()] and the outcome of [fetch] ([None]: the fetch rejects,
    [Some ok]: a response with that [response.ok]). *)
Record ProbeEnv : Type := {
  probe_now : Z;
  probe_reply : option bool
}.

(** [STATE.lastHealthCheck && now - STATE.lastHealthCheck < limit] and its
    [>] twin. *)
Definition checked_within (last : option Z) (now limit : Z) : bool :=
  match last with
  | Some t => negb (t =? 0) && (now - t <? limit)
  | None => false
  end.
Definition checked_before (last : option Z) (now limit : Z) : bool :=
  match last with
  | Some t => negb (t =? 0) && (limit <? now - t)
  | None => false
  end.

Definition performHealthCheck (force : bool) (env : ProbeEnv) : M bool :=
  s ← gets STATE;
  if negb force && checked_within (lastHealthCheck s) (probe_now env) 60000
  then mret (isBackendReachable s)
  else
    match URL_new_base API_ENDPOINTS.health (backendBaseUrl s) with
    | None => throw "Invalid URL"
    | Some url =>
        emit (Fetch "GET" (URL_toString url) None);;
        assign (set_isBackendReachable (default false (probe_reply env)));;
        assign (set_lastHealthCheck (Some (probe_now env)));;
        gets (fun w => isBackendReachable (STATE w))
    end.

(** What the backend answers to the POST. *)
Inductive post_reply : Type :=
| PostRejects
| PostUnparseable (status : Z)
| PostJson (ok : bool) (status : Z) (statusText : string) (data : Js.value).

(** Everything the outside contributes to one run of [handleActivityEvent]:
    clock readings in the order the code takes them, the health probe (when
    one is performed) and the backend's reply. *)
Record ActivityEnv : Type := {
  now_detect : Z;
  iso_attempt : string;
  now_send : Z;
  probe : ProbeEnv;
  post : post_reply;
  iso_done : string
}.

Definition sendActivityToBackend (activityPayload : list (string * Js.value))
    (env : ActivityEnv) : M Js.value :=
  s ← gets STATE;
  if String.eqb (backendBaseUrl s) "" then throw "Backend base URL is not configured."
  else
    (if negb (isBackendReachable s)
        || checked_before (lastHealthCheck s) (now_send env) (5 * 60 * 1000)
     then
       reachable ← performHealthCheck true (probe env);
       if (reachable : bool) then mret tt else throw "Backend API is not reachable."
     else mret tt);;
    s ← gets STATE;
    match URL_new_base API_ENDPOINTS.activity (backendBaseUrl s) with
    | None => throw "Invalid URL"
    | Some url =>
        emit (Fetch "POST" (URL_toString url) (Some (Js.Obj activityPayload)));;
        match post env with
        | PostRejects => throw "Failed to fetch"
        | PostUnparseable status =>
            throw ("Backend response could not be parsed (" +:+ pretty status +:+ ")")
        | PostJson ok status statusText data =>
            if negb ok || match member_opt data "success" with
                          | Js.Bool false => true
                          | _ => false
                          end
            then
              let errorMessage :=
                Js.or (member_opt data "error")
                      (Js.or (Js.Str statusText) (Js.Str "Unknown error")) in
              throw ("Backend error (" +:+ pretty status +:+ "): "
                     +:+ Js.ToString errorMessage)
            else mret data
        end
    end.

(** [{...payload, platform, mode, extensionVersion}] *)
Definition activityPayload_of (payload platform mode : Js.value)
  : list (string * Js.value) :=
  Js.set_field "extensionVersion" (Js.Str manifest_version)
    (Js.set_field "mode" mode
       (Js.set_field "platform" platform (Js.own_props payload))).

Definition fingerprint_of (activityPayload : list (string * Js.value)) : string :=
  let recipients := Js.lookup_field "recipients" activityPayload in
  let recipientsKey :=
    match recipients with
    | Js.Arr xs => Js.join "," xs
    | _ => Js.ToString (Js.or recipients (Js.Str ""))
    end in
  Js.ToString (Js.lookup_field "provider" activityPayload) +:+ "::"
  +:+ Js.ToString (Js.or (Js.lookup_field "subject" activityPayload) (Js.Str "")) +:+ "::"
  +:+ Js.ToString (Js.or (Js.lookup_field "sender" activityPayload) (Js.Str "")) +:+ "::"
  +:+ recipientsKey.

(** The dedupe test
    [_lastActivityFingerprint && fingerprint === _lastActivityFingerprint
     && now - _lastActivityAt < 2000]. *)
Definition is_duplicate (w : World) (fingerprint : string) (now : Z) : bool :=
  match _lastActivityFingerprint w with
  | Some last =>
      negb (String.eqb last "") && String.eqb fingerprint last
      && (now - _lastActivityAt w <? 2000)
  | None => false
  end.

(** [handleActivityEvent], in the three phases its comments mark. First
    phase: "Increment counter immediately when activity is detected". *)
Definition count_detected : M unit :=
  assign (fun s => set_totalActivitiesTracked
                     (Js.add_one (totalActivitiesTracked s)) s);;
  persistState ["totalActivitiesTracked"].

(** Second phase: "Mark that a sync attempt is starting", then the
    awareness notification. [platform.toUpperCase()] throws unless
    [platform] is a string; the surrounding [try] then skips the
    notification. *)
Definition mark_syncing (payload platform : Js.value) (env : ActivityEnv) : M unit :=
  assign (fun s => set_lastSyncAttemptAt (Some (iso_attempt env))
                     (set_lastSyncStatus (Js.Str "syncing") s));;
  persistState ["lastSyncStatus"; "lastSyncAt"; "lastSyncAttemptAt"];;
  broadcast_STATE_UPDATED;;
  s ← gets STATE;
  if String.eqb (mode s) "awareness"
  then
    match platform with
    | Js.Str p =>
        let subject := member_opt payload "subject" in
        emit (Notification "CarbonLens Activity Detected"
                (Text.toUpperCase p +:+ " email sent"
                 +:+ (if Js.truthy subject
                      then ": " +:+ Js.ToString subject else "")))
    | _ => mret tt
    end
  else mret tt.

(** Third phase: the delivery and its two endings. The [catch] does not
    rethrow. *)
Definition deliver (activityPayload : list (string * Js.value))
    (env : ActivityEnv) : M unit :=
  try_catch
    (sendActivityToBackend activityPayload env;;
     assign (fun s => set_lastSyncAt (Js.Str (iso_done env))
                        (set_lastSyncStatus (Js.Str "success") s));;
     persistState ["lastSyncStatus"; "lastSyncAt"];;
     broadcast_STATE_UPDATED)
    (fun _ =>
       assign (fun s => set_lastSyncAt (Js.Str (iso_done env))
                          (set_lastSyncStatus (Js.Str "error") s));;
       persistState ["lastSyncStatus"; "lastSyncAt"];;
       broadcast_STATE_UPDATED;;
       emit (Notification "CarbonLens Sync Error"
               "We could not sync the latest activity with CarbonLens backend.")).

Definition handleActivityEvent (payload platform mode' : Js.value)
    (env : ActivityEnv) : M unit :=
  if negb (Js.truthy payload) then mret tt
  else
    let activityPayload := activityPayload_of payload platform mode' in
    let fingerprint := fingerprint_of activityPayload in
    let now := now_detect env in
    w ← get;
    if is_duplicate w fingerprint now then mret tt
    else
      modify (with_dedupe fingerprint now);;
      count_detected;;
      mark_syncing payload platform env;;
      deliver activityPayload env.

(** [getPendingActivities]: the stored list, or [[]] when the key is absent
    or does not hold an array. *)
Definition getPendingActivities (store : gmap string Js.value) : list Js.value :=
  match store !! "pendingActivities" with
  | Some (Js.Arr items) => items
  | _ => []
  end.

Definition setPendingActivities (items : list Js.value) : M unit :=
  modify (with_storage (storage_set [("pendingActivities", Js.Arr items)]));;
  emit (StorageSet [("pendingActivities", Js.Arr items)]).

(** [await handleActivityEvent(item.payload, item.platform, STATE.mode)]
    for one queued item. *)
Definition handle_item (item : Js.value) (env : ActivityEnv) : M unit :=
  payload ← lift (member item "payload");
  platform ← lift (member item "platform");
  s ← gets STATE;
  handleActivityEvent payload platform (Js.Str (mode s)) env.

(** The [while (list.length)] loop of [processPendingActivities]. The
    [i]-th iteration runs under [envs i]; the result of an iteration tells
    whether the loop goes on ([break] in the [catch]). *)
Fixpoint drain (envs : nat -> ActivityEnv) (items : list Js.value) : M unit :=
  match items with
  | [] => mret tt
  | item :: rest =>
      continue ←
        try_catch
          (handle_item item (envs O);;
           setPendingActivities rest;;
           mret true)
          (fun _ => mret false);
      if (continue : bool) then drain (fun i => envs (S i)) rest else mret tt
  end.

Definition processPendingActivities (envs : nat -> ActivityEnv) : M unit :=
  w ← get;
  drain envs (getPendingActivities (storage w)).

(** The callback of [chrome.storage.local.get] in [initializeState]. An
    exception inside it ends the callback where it is raised. *)
Definition initializeState (boot : ProbeEnv) (envs : nat -> ActivityEnv) : M unit :=
  w ← get;
  let data := stored (storage w) in
  assign (set_mode (if Js.is_str (data "mode") "silent" then "silent" else "awareness"));;
  sanitized ← lift (sanitizeBaseUrl (data "backendBaseUrl"));
  assign (set_backendBaseUrl (default DEFAULT_BACKEND_BASE_URL (usable sanitized)));;
  assign (set_totalActivitiesTracked (Js.or (data "totalActivitiesTracked") (Js.Num 0)));;
  assign (set_lastSyncStatus (Js.or (data "lastSyncStatus") (Js.Str "idle")));;
  assign (set_lastSyncAt (Js.or (data "lastSyncAt") Js.Null));;
  performHealthCheck false boot;;
  updateExtensionIcon;;
  broadcastMode;;
  modify with_stateReady;;
  processPendingActivities envs.

(** [handlePopupMessage]. The function first awaits [stateReady]; while
    that promise is unresolved no reply is produced ([None]). The scan of
    open mail tabs made for [GET_STATE] touches neither [STATE] nor the
    store and is left out. *)
Definition reply (success : bool) (error : option string) (s : State)
    (extra : list (string * Js.value)) : Js.value :=
  Js.Obj ([("success", Js.Bool success)]
          ++ match error with Some e => [("error", Js.Str e)] | None => [] end
          ++ [("state", getSerializableState s)] ++ extra).

Definition popup_switch (message : Js.value) (env : ProbeEnv) : M Js.value :=
  let type := member_opt message "type" in
  let payload := member_opt message "payload" in
  if Js.is_str type "GET_STATE" then
    s ← gets STATE; mret (reply true None s [])
  else if Js.is_str type "SET_MODE" then
    setMode (member_opt payload "mode") false;;
    s ← gets STATE; mret (reply true None s [])
  else if Js.is_str type "SET_BACKEND_URL" then
    setBackendBaseUrl (member_opt payload "backendBaseUrl");;
    performHealthCheck false env;;
    s ← gets STATE; mret (reply true None s [])
  else if Js.is_str type "REFRESH_HEALTH" then
    try_catch
      (reachable ← performHealthCheck true env;
       s ← gets STATE;
       mret (reply true None s
               [("healthCheck", Js.Obj [("reachable", Js.Bool reachable)])]))
      (fun e => s ← gets STATE; mret (reply false (Some e) s []))
  else if Js.is_str type "CLEAR_STATS" then
    clearStats;;
    s ← gets STATE; mret (reply true None s [])
  else
    s ← gets STATE; mret (reply false (Some "Unknown message type") s []).

Definition handlePopupMessage (message : Js.value) (env : ProbeEnv) (w : World)
  : option (result Js.value * World) :=
  if stateReady w then Some (popup_switch message env w) else None.

(** The [chrome.runtime.onMessage] listener: the response handed to
    [sendResponse], if any, and the world afterwards. *)
Definition onMessage (message : Js.value) (env : ActivityEnv) (w : World)
  : option Js.value * World :=
  if negb (Js.truthy message) then (None, w)
  else if Js.is_str (member_opt message "source") "carbonlens-content" then
    if Js.is_str (member_opt message "type") "ACTIVITY_DETECTED" then
      match handleActivityEvent (member_opt message "payload")
              (member_opt message "platform") (member_opt message "mode") env w with
      | (Ok _, w') => (Some (Js.Obj [("acknowledged", Js.Bool true)]), w')
      | (Throw e, w') =>
          (Some (Js.Obj [("acknowledged", Js.Bool false); ("error", Js.Str e)]), w')
      end
    else (None, w)
  else if Js.is_str (member_opt message "source") "carbonlens-popup" then
    match handlePopupMessage message (probe env) w with
    | Some (Ok response, w') => (Some response, w')
    | Some (Throw e, w') => (Some (reply false (Some e) (STATE w') []), w')
    | None => (None, w)
    end
  else (None, w).

(** [chrome.action.onClicked]: the toolbar button toggles the mode. *)
Definition onClicked : M unit :=
  s ← gets STATE;
  setMode (Js.Str (if String.eqb (mode s) "awareness" then "silent" else "awareness"))
          true.

End Coordinator.

(** ** A reference host

    A small URL parser, enough to run the model on the inputs the
    properties name: [scheme://host/path?query#fragment] with a non-empty
    host free of spaces and delimiters, serialised with [/] for an empty
    path. *)

Module RefHost.

Record url : Type := {
  scheme : string;
  host : string;
  path : string;
  fragment : option string
}.

Definition is_alpha (c : ascii) : bool :=
  let n := nat_of_ascii c in
  (((65 <=? n) && (n <=? 90)) || ((97 <=? n) && (n <=? 122)))%nat.
Definition is_digit (c : ascii) : bool :=
  let n := nat_of_ascii c in ((48 <=? n) && (n <=? 57))%nat.
Definition is_scheme_char (c : ascii) : bool :=
  is_alpha c || is_digit c || Ascii.eqb c "+" || Ascii.eqb c "-" || Ascii.eqb c ".".
Definition is_host_char (c : ascii) : bool :=
  is_alpha c || is_digit c || Ascii.eqb c "." || Ascii.eqb c "-" || Ascii.eqb c ":".

Definition parse (s : string) : option url :=
  match s with
  | String c _ =>
      if is_alpha c then
        let (sch, after) := Text.span is_scheme_char s in
        match after with
        | String ":" (String "/" (String "/" rest)) =>
            let (h, after_host) := Text.span is_host_char rest in
            let (p, after_path) := Text.span (fun c => negb (Ascii.eqb c "#")) after_host in
            let ok_path :=
              match p with
              | EmptyString | String "/" _ | String "?" _ => true
              | _ => false
              end in
            if negb (String.eqb h "") && ok_path then
              Some {| scheme := sch; host := h; path := p;
                      fragment := match after_path with
                                  | String _ f => Some f
                                  | EmptyString => None
                                  end |}
            else None
        | _ => None
        end
      else None
  | EmptyString => None
  end.

Definition serialize (u : url) : string :=
  scheme u +:+ "://" +:+ host u
  +:+ match path u with
      | String "/" _ => path u
      | _ => "/" +:+ path u
      end
  +:+ match fragment u with
      | Some f => "#" +:+ f
      | None => ""
      end.

Definition resolve (p base : string) : option url :=
  match parse base with
  | Some b => Some {| scheme := scheme b; host := host b; path := p; fragment := None |}
  | None => None
  end.

#[global] Instance ref_host : Host := {|
  URL := url;
  URL_new := parse;
  URL_new_base := resolve;
  URL_clear_hash := fun u =>
    {| scheme := scheme u; host := host u; path := path u; fragment := None |};
  URL_toString := serialize;
  manifest_version := "1.0.0"
|}.

End RefHost.

(** ** The content script: event extractor *)

Module Extractor.

(** What the script reads of one element. A property the element lacks
    reads as the empty text: every read in the source is followed by
    [|| ...]. *)
Inductive tag_name : Type := DIV | SPAN | LI | OTHER.

Record Element : Type := {
  tag : tag_name;
  aria_label : option string;
  innerText : string;
  textContent : string;
  value : string
}.

(** The compose region as the extractor queries it: the answer to each
    [querySelector] of the platform's selectors, the number of list items
    of the attachment container when there is one, and the [div], [span]
    and [li] elements below the region in document order, which is what
    [querySelectorAll('div[aria-label], span, div, li')] returns. *)
Record ComposeRoot : Type := {
  toField : option Element;
  subjectField : option Element;
  bodyField : option Element;
  attachmentItems : option nat;
  candidates : list Element
}.

(** What the page contributes besides the compose region: the account
    address found by [getGmailAccountEmail]/[getOutlookAccountEmail],
    [window.location.href] and the clock. *)
Record Page : Type := {
  accountEmail : option string;
  href : string;
  nowISO : string
}.

Definition is_digit (c : ascii) : bool :=
  let n := nat_of_ascii c in ((48 <=? n) && (n <=? 57))%nat.
Definition is_word (c : ascii) : bool :=
  let n := nat_of_ascii c in
  (((48 <=? n) && (n <=? 57)) || ((65 <=? n) && (n <=? 90))
   || ((97 <=? n) && (n <=? 122)) || (n =? 95))%nat.
(** Equality of letters under the [i] flag. *)
Definition ci (c letter : ascii) : bool := Ascii.eqb (Text.upper c) letter.

(** [(KB|MB|B)] at the head of the text: the letters matched and the text
    after them. *)
Definition unit_at (s : string) : option (string * string) :=
  match s with
  | String a rest =>
      match rest with
      | String b rest' =>
          if ci a "K" && ci b "B" then Some (String a (String b ""), rest')
          else if ci a "M" && ci b "B" then Some (String a (String b ""), rest')
          else if ci a "B" then Some (String a "", rest)
          else None
      | EmptyString => if ci a "B" then Some (String a "", rest) else None
      end
  | EmptyString => None
  end.

Definition starts_with_word (s : string) : bool :=
  match s with String c _ => is_word c | EmptyString => false end.

(** [/\b(KB|MB|B)\b/i.test(txt)]; [prev_word] tells whether the character
    before the current position is a word character. *)
Fixpoint has_unit_word (prev_word : bool) (s : string) : bool :=
  match s with
  | EmptyString => false
  | String c rest =>
      (negb prev_word
       && match unit_at s with
          | Some (_, after) => negb (starts_with_word after)
          | None => false
          end)
      || has_unit_word (is_word c) rest
  end.

Fixpoint digits_value (acc : Z) (s : string) : Z :=
  match s with
  | EmptyString => acc
  | String c rest => digits_value (10 * acc + Z.of_nat (nat_of_ascii c - 48)) rest
  end.

Fixpoint pow10 (n : nat) : positive :=
  match n with
  | O => 1%positive
  | S n' => (10 * pow10 n')%positive
  end.

(** The number the decimal figure [int.frac] stands for. *)
Definition decimal (int frac : string) : Q :=
  Qmake (digits_value 0 (int +:+ frac)) (pow10 (String.length frac)).

(** What follows the [.] the text begins with, if it begins with one. *)
Definition after_dot (s : string) : option string :=
  match s with
  | String c rest => if Ascii.eqb c "." then Some rest else None
  | EmptyString => None
  end.

(** [parseFloat] of a figure [digits] or [digits.digits], the only
    arguments the script calls it with: the double nearest to the number
    the figure stands for. *)
Definition parseFloat (figure : string) : Q :=
  let (int, rest) := Text.span is_digit figure in
  match after_dot rest with
  | Some after =>
      let (frac, _) := Text.span is_digit after in Double.round (decimal int frac)
  | None => Double.round (decimal int "")
  end.

(** [\s*] at the head of the text: what follows the white space. *)
Definition skip_spaces (s : string) : string := Text.trim_start s.

(** A match of [([0-9]+(?:\.[0-9]+)?)\s*(KB|MB|B)] anchored at the head of
    the text, by its two groups: the greedy reading with the fraction
    first, then without. *)
Definition size_at (s : string) : option (string * string) :=
  let (int, r1) := Text.span is_digit s in
  if String.eqb int "" then None
  else
    let without_fraction :=
      match unit_at (skip_spaces r1) with
      | Some (u, _) => Some (int, u)
      | None => None
      end in
    match after_dot r1 with
    | Some r2 =>
        let (frac, r3) := Text.span is_digit r2 in
        if String.eqb frac "" then without_fraction
        else
          match unit_at (skip_spaces r3) with
          | Some (u, _) => Some (int +:+ "." +:+ frac, u)
          | None => without_fraction
          end
    | None => without_fraction
    end.

(** [String(text).match(...)]: the groups of the leftmost match. *)
Fixpoint first_size (s : string) : option (string * string) :=
  match s with
  | EmptyString => None
  | String _ rest =>
      match size_at s with
      | Some m => Some m
      | None => first_size rest
      end
  end.

(** What a figure in the unit [unit] comes to in MB. *)
Definition to_MB (value : Q) (unit : string) : Q :=
  if String.eqb unit "B" then Double.div value (1024 * 1024)
  else if String.eqb unit "KB" then Double.div value 1024
  else value.

Definition parseSizeToMb (text : string) : Q :=
  if String.eqb text "" then 0%Q
  else
    match first_size text with
    | None => 0%Q
    | Some (m1, m2) => to_MB (parseFloat m1) (Text.toUpperCase m2)
    end.

(** [el.getAttribute('aria-label') || el.innerText || el.textContent || ''] *)
Definition text_of (el : Element) : string :=
  match aria_label el with
  | Some l => if String.eqb l "" then
                if String.eqb (innerText el) "" then textContent el else innerText el
              else l
  | None => if String.eqb (innerText el) "" then textContent el else innerText el
  end.

(** [q > 0] *)
Definition Qpositive (q : Q) : bool := negb (Qle_bool q 0).

(** The body of the [for (const el of candidates)] loop, on the running
    total. *)
Definition scan_step (totalMb : Q) (el : Element) : Q :=
  let txt := text_of el in
  if String.eqb txt "" then totalMb
  else if has_unit_word false txt then
    let mb := parseSizeToMb txt in
    if Qpositive mb then Double.add totalMb mb else totalMb
  else totalMb.

Definition computeAttachmentTotalMb (composeRoot : option ComposeRoot) : Q :=
  match composeRoot with
  | None => 0%Q
  | Some root => fold_left scan_step (candidates root) 0%Q
  end.

(** [Math.round]: the nearest integer, a tie going up. *)
Definition Math_round (q : Q) : Z := Qfloor (q + (1 # 2))%Q.

Definition is_separator (c : ascii) : bool :=
  Ascii.eqb c "," || Ascii.eqb c ";" || (nat_of_ascii c =? 10)%nat.

(** [rawValue.split(/[,;\n]+/)] *)
Fixpoint split (cur : string) (s : string) : list string :=
  match s with
  | EmptyString => [Text.rev cur]
  | String c rest =>
      if is_separator c then
        match rest with
        | String c' _ => if is_separator c' then split cur rest
                         else Text.rev cur :: split EmptyString rest
        | EmptyString => [Text.rev cur; EmptyString]
        end
      else split (String c cur) rest
  end.

Definition normalizeRecipientList (rawValue : string) : list Js.value :=
  if String.eqb rawValue "" then []
  else
    map Js.Str
      (List.filter (fun entry => negb (String.eqb entry ""))
         (map Text.trim (split EmptyString rawValue))).

Fixpoint take (n : nat) (s : string) : string :=
  match n, s with
  | S n', String c rest => String c (take n' rest)
  | _, _ => EmptyString
  end.

Definition nullable (o : option string) : Js.value :=
  match o with Some s => Js.Str s | None => Js.Null end.

Definition field (f : Element -> string) (o : option Element) : string :=
  match o with Some el => f el | None => "" end.

(** The object both extractors build; they differ in the provider tag, in
    the [source] recorded in [metadata] and in how the recipients field is
    read. *)
Definition activity (provider source recipients : string)
    (page : Page) (composeRoot : option ComposeRoot) : Js.value :=
  let root_field (f : ComposeRoot -> option Element) :=
    match composeRoot with Some r => f r | None => None end in
  let subject := field value (root_field subjectField) in
  let bodyPreview := take 280 (field innerText (root_field bodyField)) in
  let attachmentCount :=
    match composeRoot with
    | Some r => default O (attachmentItems r)
    | None => O
    end in
  let totalMb := computeAttachmentTotalMb composeRoot in
  let attachmentBytes := Math_round (Double.mul totalMb 1000000) in
  let accountEmail := nullable (accountEmail page) in
  Js.Obj [ ("activityType", Js.Str "email");
           ("timestamp", Js.Str (nowISO page));
           ("provider", Js.Str provider);
           ("subject", Js.Str subject);
           ("recipients", Js.Arr (normalizeRecipientList recipients));
           ("bodyPreview", Js.Str bodyPreview);
           ("attachmentCount", Js.Num (Z.of_nat attachmentCount));
           ("attachmentBytes", Js.Num attachmentBytes);
           ("attachment_bytes", Js.Num attachmentBytes);
           ("direction", Js.Str "outbound");
           ("sender", accountEmail);
           ("user_email", accountEmail);
           ("metadata", Js.Obj [ ("source", Js.Str source);
                                 ("location", Js.Str (href page));
                                 ("account_email", accountEmail);
                                 ("direction", Js.Str "outbound") ]) ].

Definition extractGmailEmailData (page : Page) (composeRoot : option ComposeRoot)
  : Js.value :=
  let toField := match composeRoot with Some r => toField r | None => None end in
  let recipients :=
    if String.eqb (field innerText toField) "" then field value toField
    else field innerText toField in
  activity "gmail" "gmail_web" recipients page composeRoot.

Definition extractOutlookEmailData (page : Page) (composeRoot : option ComposeRoot)
  : Js.value :=
  let toField := match composeRoot with Some r => toField r | None => None end in
  activity "outlook" "outlook_web" (field value toField) page composeRoot.



End Extractor.

(** ** The content script: dispatch client *)

Module Dispatch.

Inductive PLATFORM : Type := GMAIL | OUTLOOK.

Definition platform_name (p : PLATFORM) : string :=
  match p with GMAIL => "gmail" | OUTLOOK => "outlook" end.

(** How one call of [chrome.runtime.sendMessage] ends: it throws, its
    callback runs with [chrome.runtime.lastError] set, or its callback
    receives a response (possibly [undefined]). *)
Inductive channel_outcome : Type :=
| SendThrows
| LastError
| Responded (response : Js.value).

Inductive action : Type :=
| SendMessage (message : Js.value) (outcome : channel_outcome)
| SetTimeout (delay : Z)
| StorageSet (items : list (string * Js.value)).

(** The content script's context: its module-level variables, the Durable
    State Store it shares with the coordinator, and the trace of what it
    did. *)
Record Ctx : Type := {
  currentPlatform : PLATFORM;
  mode : Js.value;
  _lastDispatchAt : Z;
  storage : gmap string Js.value;
  trace : list action
}.

Definition log (a : action) (c : Ctx) : Ctx :=
  {| currentPlatform := currentPlatform c; mode := mode c;
     _lastDispatchAt := _lastDispatchAt c; storage := storage c;
     trace := trace c ++ [a] |}.

Definition set_lastDispatchAt (now : Z) (c : Ctx) : Ctx :=
  {| currentPlatform := currentPlatform c; mode := mode c;
     _lastDispatchAt := now; storage := storage c; trace := trace c |}.

Definition maxRetries : nat := 3.
Definition retryDelayBase : Z := 300.

(** [retryDelayBase * Math.pow(2, attempt - 1)] *)
Definition delay (attempt : nat) : Z := retryDelayBase * 2 ^ (Z.of_nat attempt - 1).

(** The fallback of the [lastError] branch: read [pendingActivities]
    (default [[]]), push the item, write the list back. A stored value
    that is truthy but not an array has no [push]; the callback then
    throws and nothing is written. *)
Definition enqueue (payload : Js.value) (ts : string) (c : Ctx) : Ctx :=
  let item := Js.Obj [("payload", payload);
                      ("platform", Js.Str (platform_name (currentPlatform c)));
                      ("ts", Js.Str ts)] in
  match Js.or (default (Js.Arr []) (storage c !! "pendingActivities")) (Js.Arr []) with
  | Js.Arr list =>
      let items := [("pendingActivities", Js.Arr (list ++ [item]))] in
      log (StorageSet items)
        {| currentPlatform := currentPlatform c; mode := mode c;
           _lastDispatchAt := _lastDispatchAt c;
           storage := <["pendingActivities" := Js.Arr (list ++ [item])]> (storage c);
           trace := trace c |}
  | _ => c
  end.

(** [sendWithRetry(attempt)], with every timer run to its end. [channel n]
    is how the [n]-th attempt ends and [ts] the clock reading taken if the
    event is queued. *)
Equations? sendWithRetry (channel : nat -> channel_outcome) (ts : string)
    (message payload : Js.value) (attempt : nat) (c : Ctx) : Ctx
    by wf (maxRetries - attempt)%nat lt :=
  sendWithRetry channel ts message payload attempt c
    with channel attempt, lt_dec attempt maxRetries := {
    | SendThrows, left _ =>
        sendWithRetry channel ts message payload (S attempt)
          (log (SetTimeout (delay attempt)) (log (SendMessage message SendThrows) c))
    | SendThrows, right _ => log (SendMessage message SendThrows) c
    | LastError, left _ =>
        sendWithRetry channel ts message payload (S attempt)
          (log (SetTimeout (delay attempt)) (log (SendMessage message LastError) c))
    | LastError, right _ =>
        enqueue payload ts (log (SendMessage message LastError) c)
    | Responded response, _ => log (SendMessage message (Responded response)) c
    }.
Proof.
  all: unfold maxRetries in *; lia.
Qed.

Definition dispatchActivity (channel : nat -> channel_outcome) (ts : string)
    (payload : Js.value) (c : Ctx) : Ctx :=
  if negb (Js.truthy payload) then c
  else
    let message := Js.Obj [("source", Js.Str "carbonlens-content");
                           ("type", Js.Str "ACTIVITY_DETECTED");
                           ("platform", Js.Str (platform_name (currentPlatform c)));
                           ("mode", mode c);
                           ("payload", payload)] in
    sendWithRetry channel ts message payload 1 c.

Definition extract (p : PLATFORM) : Extractor.Page -> option Extractor.ComposeRoot -> Js.value :=
  match p with
  | GMAIL => Extractor.extractGmailEmailData
  | OUTLOOK => Extractor.extractOutlookEmailData
  end.

(** A [keydown] event as [handleGlobalKeydown] reads it; [composeRoot] is
    the compose region found from the focused element or, failing that,
    anywhere in the document. *)
Record KeyEvent : Type := {
  isEnter : bool;
  ctrlKey : bool;
  metaKey : bool;
  now : Z;
  composeRoot : option Extractor.ComposeRoot
}.

Definition handleGlobalKeydown (channel : nat -> channel_outcome) (ts : string)
    (page : Extractor.Page) (e : KeyEvent) (c : Ctx) : Ctx :=
  if negb (isEnter e && (ctrlKey e || metaKey e)) then c
  else if now e - _lastDispatchAt c <? 1000 then c
  else
    match composeRoot e with
    | None => c
    | Some root =>
        let activity := extract (currentPlatform c) page (Some root) in
        if Js.truthy activity && Js.truthy (member_opt activity "activityType")
        then dispatchActivity channel ts activity (set_lastDispatchAt (now e) c)
        else c
    end.

(** The click handler attached to a Gmail send button; [compose] is what
    [findComposeRoot] returns. *)
Definition gmailSendClicked (channel : nat -> channel_outcome) (ts : string)
    (page : Extractor.Page) (compose : option Extractor.ComposeRoot) (c : Ctx) : Ctx :=
  match compose with
  | None => c
  | Some root =>
      let activity := Extractor.extractGmailEmailData page (Some root) in
      if negb (Js.truthy activity) || negb (Js.truthy (member_opt activity "activityType"))
      then c
      else dispatchActivity channel ts activity c
  end.

(** The click handler attached to an Outlook send button; [compose] is
    [button.closest(...)]. *)
Definition outlookSendClicked (channel : nat -> channel_outcome) (ts : string)
    (page : Extractor.Page) (compose : option Extractor.ComposeRoot) (c : Ctx) : Ctx :=
  dispatchActivity channel ts (Extractor.extractOutlookEmailData page compose) c.

(** The messages of a trace that reached the coordinator's listener: the
    calls whose callback received a response. *)
Definition forwarded (t : list action) : list Js.value :=
  omap (fun a => match a with
                 | SendMessage message (Responded _) => Some message
                 | _ => None
                 end) t.

Definition fresh (p : PLATFORM) (store : gmap string Js.value) : Ctx :=
  {| currentPlatform := p; mode := Js.Str "awareness"; _lastDispatchAt := 0;
     storage := store; trace := [] |}.

End Dispatch.

(** ** The content script: message listener *)

Module ContentScript.

(** [a ?? b] *)
Definition coalesce (a b : Js.value) : Js.value :=
  match a with
  | Js.Undefined | Js.Null => b
  | _ => a
  end.

(** The [chrome.runtime.onMessage] listener of the content script: the
    response handed to [sendResponse], if any, and the context
    afterwards. *)
Definition onMessage (message : Js.value) (c : Dispatch.Ctx)
  : option Js.value * Dispatch.Ctx :=
  if negb (Js.truthy message)
     || negb (Js.is_str (member_opt message "source") "carbonlens-background")
  then (None, c)
  else if Js.is_str (member_opt message "type") "PING" then
    (Some (Js.Obj [("source", Js.Str "carbonlens-content"); ("type", Js.Str "PONG")]), c)
  else if Js.is_str (member_opt message "type") "UPDATE_MODE" then
    let mode := coalesce (member_opt (member_opt message "payload") "mode")
                         (Dispatch.mode c) in
    (Some (Js.Obj [("source", Js.Str "carbonlens-content");
                   ("type", Js.Str "MODE_UPDATED");
                   ("mode", mode)]),
     {| Dispatch.currentPlatform := Dispatch.currentPlatform c;
        Dispatch.mode := mode;
        Dispatch._lastDispatchAt := Dispatch._lastDispatchAt c;
        Dispatch.storage := Dispatch.storage c;
        Dispatch.trace := Dispatch.trace c |})
  else (None, c).

End ContentScript.

(** ** The popup

    The part of the popup script that talks to the coordinator and turns
    its state into the status label. Every element the script looks up is
    taken to be present in the popup document. *)

Module Popup.

(** [{ source: 'carbonlens-popup', ...message }] *)
Definition envelope (message : list (string * Js.value)) : Js.value :=
  Js.Obj (foldl (fun acc kv => Js.set_field kv.1 kv.2 acc)
                [("source", Js.Str "carbonlens-popup")] message).

Definition requestState : Js.value := envelope [("type", Js.Str "GET_STATE")].

(** [setMode(mode)]: the message sent, if one is. *)
Definition setMode (mode : Js.value) : option Js.value :=
  if Js.is_str mode "awareness" || Js.is_str mode "silent"
  then Some (envelope [("type", Js.Str "SET_MODE");
                       ("payload", Js.Obj [("mode", mode)])])
  else None.

(** The click on the save button, for the text of the input field: the
    message sent, or the feedback shown instead. *)
Definition saveBackendClicked (input : string) : Js.value + string :=
  let backendUrl := Text.trim input in
  if String.eqb backendUrl "" then inr "Please enter a backend URL."
  else inl (envelope [("type", Js.Str "SET_BACKEND_URL");
                      ("payload", Js.Obj [("backendBaseUrl", Js.Str backendUrl)])]).

(** The callback of [sendMessage] on a response: [latestState] afterwards. *)
Definition received (response latestState : Js.value) : Js.value :=
  if Js.truthy (member_opt response "state") then member_opt response "state"
  else latestState.

(** [renderState] returns at once while [latestState] is falsy; what
    follows are the texts it writes otherwise. The text [updateLastSync]
    writes into the status label: *)
Definition updateLastSync (lastSyncAt lastSyncStatus : Js.value) : string :=
  if negb (Js.truthy lastSyncAt) then
    if Js.is_str lastSyncStatus "success" then "Synced"
    else if Js.is_str lastSyncStatus "error" then "Sync error"
    else if Js.is_str lastSyncStatus "syncing" then "Syncing..."
    else "Synced"
  else
    if Js.is_str lastSyncStatus "success" then "Synced"
    else if Js.is_str lastSyncStatus "error" then "Sync error"
    else "Synced".

(** The text of the status label after [updateStats], given the text it
    had before. *)
Definition updateStats (before : string) (lastSyncAt lastSyncStatus : Js.value)
  : string :=
  let after_first := if negb (Js.truthy lastSyncAt) then "Synced" else before in
  if Js.truthy lastSyncAt then
    if Js.is_str lastSyncStatus "success" then "Synced"
    else if Js.is_str lastSyncStatus "error" then "Sync error"
    else "Synced"
  else after_first.

(** The status label once [renderState] has run on [latestState]. *)
Definition renderState_lastStatus (latestState : Js.value) : string :=
  let lastSyncAt := member_opt latestState "lastSyncAt" in
  let lastSyncStatus := member_opt latestState "lastSyncStatus" in
  updateStats (updateLastSync lastSyncAt lastSyncStatus) lastSyncAt lastSyncStatus.

(** The counter shown by [updateStats]: [totalActivities ?? 0]. *)
Definition renderState_totalActivities (latestState : Js.value) : Js.value :=
  ContentScript.coalesce (member_opt latestState "totalActivitiesTracked") (Js.Num 0).

(** The text of the mode pill. *)
Definition renderState_modePill (latestState : Js.value) : string :=
  if Js.is_str (member_opt latestState "mode") "silent"
  then "Silent Mode" else "Awareness Mode".

End Popup.

(** ** Sequences of coordinator operations *)

Inductive operation : Type :=
| OnActivity (payload platform mode' : Js.value) (env : ActivityEnv)
| DrainPendingQueue (envs : nat -> ActivityEnv)
| SetMode (next : Js.value) (showNotification : bool)
| SetBackendBaseUrl (rawUrl : Js.value)
| ClearStats
| CheckHealth (force : bool) (env : ProbeEnv).

Definition run `{Host} (op : operation) : M unit :=
  match op with
  | OnActivity payload platform mode' env => handleActivityEvent payload platform mode' env
  | DrainPendingQueue envs => processPendingActivities envs
  | SetMode next showNotification => setMode next showNotification
  | SetBackendBaseUrl rawUrl => setBackendBaseUrl rawUrl
  | ClearStats => clearStats
  | CheckHealth force env => performHealthCheck force env;; mret tt
  end.

(** The operations one after the other; an operation that throws leaves
    the world it reached and the next one starts from there. *)
Definition run_all `{Host} (ops : list operation) (w : World) : World :=
  foldl (fun w op => exec (run op) w) w ops.

(** ** Sample inputs

    Concrete payloads, environments and compose regions on which the
    properties below are exercised. *)

Module Sample.

(** The event of the specification's dedupe example. *)
Definition event : Js.value :=
  Js.Obj [("provider", Js.Str "a"); ("subject", Js.Str "x");
          ("sender", Js.Str "s"); ("recipients", Js.Arr [Js.Str "r"])].

Definition probe_ok : ProbeEnv := {| probe_now := 1000100; probe_reply := Some true |}.
Definition probe_down : ProbeEnv := {| probe_now := 1000100; probe_reply := None |}.

(** A run in which the backend accepts the POST. *)
Definition env_ok (now : Z) : ActivityEnv :=
  {| now_detect := now; iso_attempt := "2025-01-01T00:00:00.000Z";
     now_send := now + 1; probe := probe_ok;
     post := PostJson true 200 "OK" (Js.Obj [("success", Js.Bool true)]);
     iso_done := "2025-01-01T00:00:01.000Z" |}.

(** A run in which the POST is rejected by the network. *)
Definition env_fail (now : Z) : ActivityEnv :=
  {| now_detect := now; iso_attempt := "2025-01-01T00:00:00.000Z";
     now_send := now + 1; probe := probe_down;
     post := PostRejects;
     iso_done := "2025-01-01T00:00:01.000Z" |}.

Definition item (payload : Js.value) : Js.value :=
  Js.Obj [("payload", payload); ("platform", Js.Str "gmail");
          ("ts", Js.Str "2025-01-01T00:00:00.000Z")].

(** A compose region with one attached file whose chip shows the file
    name and no size. *)
Definition chip (text : string) : Extractor.Element :=
  {| Extractor.tag := Extractor.DIV;
     Extractor.aria_label := None; Extractor.innerText := text;
     Extractor.textContent := text; Extractor.value := "" |}.

Definition compose_unsized : Extractor.ComposeRoot :=
  {| Extractor.toField := Some {| Extractor.tag := Extractor.OTHER;
                                  Extractor.aria_label := None;
                                  Extractor.innerText := "";
                                  Extractor.textContent := "";
                                  Extractor.value := "r@example.com" |};
     Extractor.subjectField := None;
     Extractor.bodyField := None;
     Extractor.attachmentItems := Some 1%nat;
     Extractor.candidates := [chip "report.pdf"; chip "report.pdf"] |}.

(** The same region when the chip also shows a size. *)
Definition compose_sized : Extractor.ComposeRoot :=
  {| Extractor.toField := None;
     Extractor.subjectField := None;
     Extractor.bodyField := None;
     Extractor.attachmentItems := Some 1%nat;
     Extractor.candidates := [chip "report.pdf (1.5 MB)"] |}.

Definition page : Extractor.Page :=
  {| Extractor.accountEmail := Some "s@example.com";
     Extractor.href := "https://mail.google.com/mail/u/0/";
     Extractor.nowISO := "2025-01-01T00:00:00.000Z" |}.

Definition acknowledged : Js.value := Js.Obj [("acknowledged", Js.Bool true)].

End Sample.

(** Further inputs, for the properties of the second part. *)

Module Scenario.

(** A second event, with another subject. *)
Definition other_event : Js.value :=
  Js.Obj [("provider", Js.Str "a"); ("subject", Js.Str "y");
          ("sender", Js.Str "s"); ("recipients", Js.Arr [Js.Str "r"])].

(** A coordinator that has finished rehydrating an empty store. *)
Definition ready : World := with_stateReady (cold_start ∅).

(** The [ACTIVITY_DETECTED] message of a Gmail tab for the sample event. *)
Definition detected : Js.value :=
  Js.Obj [("source", Js.Str "carbonlens-content");
          ("type", Js.Str "ACTIVITY_DETECTED");
          ("platform", Js.Str "gmail");
          ("mode", Js.Str "awareness");
          ("payload", Sample.event)].

Definition popup_request (type : string) (payload : list (string * Js.value))
  : Js.value :=
  Js.Obj [("source", Js.Str "carbonlens-popup"); ("type", Js.Str type);
          ("payload", Js.Obj payload)].

(** The two endpoints under the compiled-in backend address. *)
Definition endpoint (path : string) : RefHost.url :=
  {| RefHost.scheme := "http"; RefHost.host := "127.0.0.1:5000";
     RefHost.path := path; RefHost.fragment := None |}.

(** The sample compose region sent again: same To field and subject,
    another body and another attachment chip. *)
Definition compose_resent : Extractor.ComposeRoot :=
  {| Extractor.toField := Extractor.toField Sample.compose_unsized;
     Extractor.subjectField := None;
     Extractor.bodyField := Some (Sample.chip "Second thoughts.");
     Extractor.attachmentItems := Some 2%nat;
     Extractor.candidates := [Sample.chip "notes.txt (12 KB)"] |}.

Definition page_later : Extractor.Page :=
  {| Extractor.accountEmail := Some "s@example.com";
     Extractor.href := "https://mail.google.com/mail/u/0/#sent";
     Extractor.nowISO := "2025-01-01T00:00:00.700Z" |}.

Definition shortcut (now : Z) : Dispatch.KeyEvent :=
  {| Dispatch.isEnter := true; Dispatch.ctrlKey := true; Dispatch.metaKey := false;
     Dispatch.now := now; Dispatch.composeRoot := Some Sample.compose_sized |}.





(** The sample event as a second extraction builds it: the same headers,
    a later time stamp. *)
Definition event_later : Js.value :=
  Js.Obj [("provider", Js.Str "a"); ("subject", Js.Str "x");
          ("sender", Js.Str "s"); ("recipients", Js.Arr [Js.Str "r"]);
          ("timestamp", Js.Str "2025-01-01T00:00:00.700Z")].

End Scenario.

(** * Properties *)

(** ** Reasoning about the coordinator's monad *)

Section Preservation.
Context {A : Type}.

(** [c] keeps [I] true, whether it returns or throws. *)
Definition preserves (I : World -> Prop) (c : M A) : Prop :=
  forall w, I w -> I (exec c w).

(** [c] always returns. *)
Definition returns (c : M A) : Prop :=
  forall w, exists a, fst (c w) = Ok a.

End Preservation.

Lemma preserves_ret {A} (I : World -> Prop) (a : A) : preserves I (mret a).
Proof. intros w Hw. exact Hw. Qed.

Lemma preserves_throw {A} (I : World -> Prop) (e : string) : preserves I (@throw A e).
Proof. intros w Hw. exact Hw. Qed.

Lemma preserves_get (I : World -> Prop) : preserves I get.
Proof. intros w Hw. exact Hw. Qed.

Lemma preserves_gets {A} (I : World -> Prop) (f : World -> A) : preserves I (gets f).
Proof. intros w Hw. exact Hw. Qed.

Lemma preserves_lift {A} (I : World -> Prop) (r : result A) : preserves I (lift r).
Proof. destruct r; intros w Hw; exact Hw. Qed.

Lemma preserves_modify (I : World -> Prop) (f : World -> World) :
  (forall w, I w -> I (f w)) -> preserves I (modify f).
Proof. intros Hf w Hw. apply Hf, Hw. Qed.

Lemma preserves_bind {A B} (I : World -> Prop) (c : M A) (f : A -> M B) :
  preserves I c -> (forall a, preserves I (f a)) -> preserves I (c ≫= f).
Proof.
  intros Hc Hf w Hw. specialize (Hc w Hw).
  unfold exec, mbind, M_bind in *.
  destruct (c w) as [[a | e] w']; simpl in *.
  - apply (Hf a w' Hc).
  - exact Hc.
Qed.

Lemma preserves_try_catch {A} (I : World -> Prop) (c : M A) (h : string -> M A) :
  preserves I c -> (forall e, preserves I (h e)) -> preserves I (try_catch c h).
Proof.
  intros Hc Hh w Hw. specialize (Hc w Hw).
  unfold exec, try_catch in *.
  destruct (c w) as [[a | e] w']; simpl in *.
  - exact Hc.
  - apply (Hh e w' Hc).
Qed.

(** A property established by [c] and kept by what follows holds after
    the sequence, also when [c] throws and what follows is skipped. *)
Lemma established_bind {A B} (Q : World -> Prop) (c : M A) (f : A -> M B) (w : World) :
  Q (exec c w) -> (forall a, preserves Q (f a)) -> Q (exec (c ≫= f) w).
Proof.
  intros Hc Hf. unfold exec, mbind, M_bind in *.
  destruct (c w) as [[a | e] w1]; simpl in *.
  - apply (Hf a w1 Hc).
  - exact Hc.
Qed.


Lemma returns_ret {A} (a : A) : returns (mret a).
Proof. intros w. exists a. reflexivity. Qed.

Lemma returns_gets {A} (f : World -> A) : returns (gets f).
Proof. intros w. exists (f w). reflexivity. Qed.

Lemma returns_modify (f : World -> World) : returns (modify f).
Proof. intros w. exists tt. reflexivity. Qed.

Lemma returns_bind {A B} (c : M A) (f : A -> M B) :
  returns c -> (forall a, returns (f a)) -> returns (c ≫= f).
Proof.
  intros Hc Hf w. destruct (Hc w) as [a Ha].
  unfold mbind, M_bind. destruct (c w) as [[a' | e] w']; simpl in Ha; [| discriminate].
  apply Hf.
Qed.

Lemma returns_try_catch {A} (c : M A) (h : string -> M A) :
  (forall e, returns (h e)) -> returns (try_catch c h).
Proof.
  intros Hh w. unfold try_catch.
  destruct (c w) as [[a | e] w']; simpl; [exists a; reflexivity | apply Hh].
Qed.

(** Sequencing after an operation that returns. *)
Lemma exec_bind {A B} (c : M A) (f : A -> M B) (w : World) (a : A) :
  fst (c w) = Ok a -> (c ≫= f) w = f a (exec c w).
Proof.
  unfold exec, mbind, M_bind. destruct (c w) as [[a' | e] w']; simpl; congruence.
Qed.

(** Membership in, and inclusion between, literal lists of keys. *)
Ltac in_list :=
  repeat first [ apply list_elem_of_here | apply list_elem_of_further ].
Ltac keys_included :=
  let k := fresh "k" in
  let Hk := fresh "Hk" in
  intros k Hk;
  repeat (apply elem_of_cons in Hk as [-> | Hk]; [in_list |]);
  inversion Hk.

(** One step of a preservation proof: peel the outermost construct. *)
Ltac preserve_step :=
  first
    [ apply preserves_ret | apply preserves_throw | apply preserves_get
    | apply preserves_gets | apply preserves_lift
    | (apply preserves_bind; [| intros ?])
    | (apply preserves_try_catch; [| intros ?])
    | match goal with
      | |- preserves _ (if ?b then _ else _) => destruct b
      | |- preserves _ (match ?x with _ => _ end) => destruct x
      | |- preserves _ (let _ := _ in _) => cbv zeta
      end ].

Ltac returns_step :=
  first
    [ apply returns_ret | apply returns_gets | apply returns_modify
    | (apply returns_bind; [| intros ?])
    | (apply returns_try_catch; intros ?)
    | match goal with
      | |- returns (if ?b then _ else _) => destruct b
      | |- returns (match ?x with _ => _ end) => destruct x
      | |- returns (let _ := _ in _) => cbv zeta
      end ].

(** ** Frame lemmas of the coordinator *)

Section CoordinatorFacts.
Context `{Host}.

(** Invariants that speak of [STATE] only are untouched by storage
    writes, effects and the dedupe variables. *)
Definition on_STATE (J : State -> Prop) : World -> Prop := fun w => J (STATE w).

Lemma preserves_emit (J : State -> Prop) (e : effect) :
  preserves (on_STATE J) (emit e).
Proof. apply preserves_modify. intros w Hw. exact Hw. Qed.

Lemma preserves_assign (J : State -> Prop) (f : State -> State) :
  (forall s, J s -> J (f s)) -> preserves (on_STATE J) (assign f).
Proof. intros Hf. apply preserves_modify. intros w Hw. apply Hf, Hw. Qed.

Lemma preserves_persistState (J : State -> Prop) (fields : list string) :
  preserves (on_STATE J) (persistState fields).
Proof.
  unfold persistState. repeat preserve_step.
Qed.

Lemma preserves_broadcast (J : State -> Prop) :
  preserves (on_STATE J) broadcast_STATE_UPDATED.
Proof. unfold broadcast_STATE_UPDATED. repeat preserve_step. Qed.

Lemma returns_emit (e : effect) : returns (emit e).
Proof. apply returns_modify. Qed.

Lemma returns_assign (f : State -> State) : returns (assign f).
Proof. apply returns_modify. Qed.

Lemma returns_persistState (fields : list string) : returns (persistState fields).
Proof.
  unfold persistState. repeat returns_step.
Qed.

Lemma returns_broadcast : returns broadcast_STATE_UPDATED.
Proof. unfold broadcast_STATE_UPDATED. repeat returns_step. Qed.

(** *** What a storage write can touch *)

Lemma set_field_keys (k : string) (v : Js.value) (fs : list (string * Js.value)) :
  forall k', k' ∈ (Js.set_field k v fs).*1 -> k' = k \/ k' ∈ fs.*1.
Proof.
  induction fs as [| [k0 v0] fs IH]; simpl; intros k' Hin.
  - apply list_elem_of_singleton in Hin. left. exact Hin.
  - destruct (String.eqb k k0) eqn:E; simpl in Hin.
    + apply String.eqb_eq in E. subst k0.
      apply elem_of_cons in Hin as [-> | Hin]; [left; reflexivity |].
      right. apply elem_of_cons. right. exact Hin.
    + apply elem_of_cons in Hin as [-> | Hin].
      * right. apply elem_of_cons. left. reflexivity.
      * destruct (IH _ Hin) as [-> | Hfs]; [left; reflexivity |].
        right. apply elem_of_cons. right. exact Hfs.
Qed.

Lemma persist_payload_keys (s : State) (fields : list string) :
  forall k, k ∈ (persist_payload s fields).*1 -> k ∈ fields.
Proof.
  unfold persist_payload.
  assert (G : forall acc k,
             k ∈ (foldl (fun acc key =>
                           match STATE_get s key with
                           | Js.Undefined => acc
                           | v => Js.set_field key v acc
                           end) acc fields).*1 ->
             k ∈ acc.*1 \/ k ∈ fields).
  { induction fields as [| f fields IH]; simpl; intros acc k Hin.
    - left. exact Hin.
    - apply IH in Hin. destruct Hin as [Hacc | Hfields].
      + assert (K : k = f \/ k ∈ acc.*1).
        { destruct (STATE_get s f); try (apply set_field_keys in Hacc; exact Hacc);
            right; exact Hacc. }
        destruct K as [-> | K]; [right; apply elem_of_cons; left; reflexivity |].
        left. exact K.
      + right. apply elem_of_cons. right. exact Hfields. }
  intros k Hin. destruct (G [] k Hin) as [Hnil | Hf]; [| exact Hf].
  simpl in Hnil. inversion Hnil.
Qed.

Lemma storage_set_lookup_ne (items : list (string * Js.value))
    (store : gmap string Js.value) (k : string) :
  k ∉ items.*1 -> storage_set items store !! k = store !! k.
Proof.
  unfold storage_set. revert store.
  induction items as [| [k0 v0] items IH]; simpl; intros store Hk; [reflexivity |].
  rewrite IH.
  - apply lookup_insert_ne. intros ->. apply Hk. apply elem_of_cons. left. reflexivity.
  - intros Hin. apply Hk. apply elem_of_cons. right. exact Hin.
Qed.

(** *** Frames

    [I] is framed by [keys] when effects leave it alone and so do storage
    writes confined to [keys]. *)
Record framed_by (keys : list string) (I : World -> Prop) : Prop := {
  frame_effect : forall e w, I w -> I (with_effect e w);
  frame_storage : forall items w,
      (forall k, k ∈ items.*1 -> k ∈ keys) -> I w ->
      I (with_storage (storage_set items) w)
}.

(** [f] is an assignment to [STATE] that [I] survives. *)
Definition respects (I : World -> Prop) (f : State -> State) : Prop :=
  forall w, I w -> I (with_STATE f w).

Lemma framed_on_STATE (keys : list string) (J : State -> Prop) :
  framed_by keys (on_STATE J).
Proof. split; intros; assumption. Qed.

Lemma preserves_emit_framed keys I e : framed_by keys I -> preserves I (emit e).
Proof. intros F. apply preserves_modify. apply (frame_effect _ _ F). Qed.

Lemma preserves_persistState_framed keys I fields :
  framed_by keys I -> fields <> [] -> (forall k, k ∈ fields -> k ∈ keys) ->
  preserves I (persistState fields).
Proof.
  intros F Hne Hsub. unfold persistState.
  apply preserves_bind; [apply preserves_gets | intros s].
  destruct fields as [| f fields]; [congruence |]. cbv zeta.
  assert (K : forall k, k ∈ (persist_payload s (f :: fields)).*1 -> k ∈ keys).
  { intros k Hk. apply Hsub. eapply persist_payload_keys, Hk. }
  destruct (persist_payload s (f :: fields)) as [| p l]; [apply preserves_ret |].
  apply preserves_bind; [| intros _; eapply preserves_emit_framed, F].
  apply preserves_modify. intros w Hw. apply (frame_storage _ _ F); assumption.
Qed.

Lemma preserves_broadcast_framed keys I :
  framed_by keys I -> preserves I broadcast_STATE_UPDATED.
Proof.
  intros F. unfold broadcast_STATE_UPDATED.
  apply preserves_bind; [apply preserves_gets | intros s].
  eapply preserves_emit_framed, F.
Qed.

Lemma respects_compose I (f g : State -> State) :
  respects I g -> respects I f -> respects I (fun s => f (g s)).
Proof. intros Hg Hf w Hw. apply (Hf _ (Hg _ Hw)). Qed.

Lemma preserves_assign_respects I (f : State -> State) :
  respects I f -> preserves I (assign f).
Proof. intros Hf. apply preserves_modify. exact Hf. Qed.

(** The keys the sync bookkeeping persists. *)
Definition sync_keys : list string :=
  ["lastSyncStatus"; "lastSyncAt"; "lastSyncAttemptAt"].

(** What an invariant must tolerate to survive the sync bookkeeping of
    [handleActivityEvent] and a health probe. *)
Record sync_frame (I : World -> Prop) : Prop := {
  sf_framed : framed_by sync_keys I;
  sf_status : forall v, v ∈ ["syncing"; "success"; "error"] ->
                        respects I (set_lastSyncStatus (Js.Str v));
  sf_lastSyncAt : forall v, respects I (set_lastSyncAt v);
  sf_lastSyncAttemptAt : forall t, respects I (set_lastSyncAttemptAt t);
  sf_isBackendReachable : forall b, respects I (set_isBackendReachable b);
  sf_lastHealthCheck : forall t, respects I (set_lastHealthCheck t)
}.

Ltac sync_assignment F :=
  first [ apply (sf_lastSyncAt _ F) | apply (sf_lastSyncAttemptAt _ F)
        | apply (sf_isBackendReachable _ F) | apply (sf_lastHealthCheck _ F)
        | (apply (sf_status _ F); in_list) ].

Ltac sync_step F :=
  lazymatch goal with
  | |- preserves _ (emit _) => eapply preserves_emit_framed; apply (sf_framed _ F)
  | |- preserves _ broadcast_STATE_UPDATED =>
      eapply preserves_broadcast_framed; apply (sf_framed _ F)
  | |- preserves _ (persistState _) =>
      eapply preserves_persistState_framed;
      [apply (sf_framed _ F) | discriminate | unfold sync_keys; keys_included]
  | |- preserves _ (assign _) =>
      apply preserves_assign_respects;
      first [ sync_assignment F
            | (apply respects_compose; sync_assignment F) ]
  | |- _ => preserve_step
  end.

Lemma preserves_performHealthCheck I force env :
  sync_frame I -> preserves I (performHealthCheck force env).
Proof. intros F. unfold performHealthCheck. repeat sync_step F. Qed.

Lemma preserves_sendActivityToBackend I activityPayload env :
  sync_frame I -> preserves I (sendActivityToBackend activityPayload env).
Proof.
  intros F. unfold sendActivityToBackend.
  repeat first [ apply preserves_performHealthCheck, F | sync_step F ].
Qed.

Lemma preserves_mark_syncing I payload platform env :
  sync_frame I -> preserves I (mark_syncing payload platform env).
Proof. intros F. unfold mark_syncing. repeat sync_step F. Qed.

Lemma preserves_deliver I activityPayload env :
  sync_frame I -> preserves I (deliver activityPayload env).
Proof.
  intros F. unfold deliver.
  repeat first [ apply preserves_sendActivityToBackend, F | sync_step F ].
Qed.

(** What an invariant must tolerate to survive a whole
    [handleActivityEvent]: besides the sync bookkeeping, the counter, its
    persistence and the dedupe variables. *)
Record activity_frame (I : World -> Prop) : Prop := {
  af_sync : sync_frame I;
  af_counter_stored : framed_by ["totalActivitiesTracked"] I;
  af_counter : forall v, respects I (set_totalActivitiesTracked v);
  af_dedupe : forall fp t w, I w -> I (with_dedupe fp t w)
}.

Lemma preserves_count_detected I :
  activity_frame I -> preserves I count_detected.
Proof.
  intros F. unfold count_detected.
  apply preserves_bind; [| intros _].
  - apply preserves_assign_respects. intros w Hw. apply (af_counter _ F), Hw.
  - eapply preserves_persistState_framed;
      [apply (af_counter_stored _ F) | discriminate | keys_included].
Qed.

Lemma preserves_handleActivityEvent I payload platform mode' env :
  activity_frame I -> preserves I (handleActivityEvent payload platform mode' env).
Proof.
  intros F. unfold handleActivityEvent.
  destruct (negb (Js.truthy payload)); [apply preserves_ret |]. cbv zeta.
  apply preserves_bind; [apply preserves_get | intros w0].
  destruct (is_duplicate _ _ _); [apply preserves_ret |].
  apply preserves_bind; [apply preserves_modify; intros w Hw; apply (af_dedupe _ F), Hw |].
  intros _. apply preserves_bind; [apply preserves_count_detected, F | intros _].
  apply preserves_bind; [apply preserves_mark_syncing, (af_sync _ F) | intros _].
  apply preserves_deliver, (af_sync _ F).
Qed.

(** [handleActivityEvent] never rejects: a failed sync is recorded in
    [STATE], not raised. *)
Lemma returns_count_detected : returns count_detected.
Proof. unfold count_detected. repeat first [apply returns_persistState | returns_step]. Qed.

Lemma returns_mark_syncing payload platform env :
  returns (mark_syncing payload platform env).
Proof.
  unfold mark_syncing.
  repeat first [ apply returns_persistState | apply returns_broadcast
               | apply returns_emit | returns_step ].
Qed.

Lemma returns_deliver activityPayload env : returns (deliver activityPayload env).
Proof.
  unfold deliver. apply returns_try_catch. intros e.
  repeat first [ apply returns_persistState | apply returns_broadcast
               | apply returns_emit | returns_step ].
Qed.

Lemma returns_handleActivityEvent payload platform mode' env :
  returns (handleActivityEvent payload platform mode' env).
Proof.
  unfold handleActivityEvent.
  destruct (negb (Js.truthy payload)); [apply returns_ret |]. cbv zeta.
  apply returns_bind; [intros w; exists w; reflexivity | intros w0].
  destruct (is_duplicate _ _ _); [apply returns_ret |].
  apply returns_bind; [apply returns_modify | intros _].
  apply returns_bind; [apply returns_count_detected | intros _].
  apply returns_bind; [apply returns_mark_syncing | intros _].
  apply returns_deliver.
Qed.

End CoordinatorFacts.

(** ** Detected activities are counted once *)

Section Counting.
Context `{Host}.

Lemma exec_then {B} (c : M unit) (k : M B) (w : World) :
  returns c -> exec (c ≫= fun _ => k) w = exec k (exec c w).
Proof.
  intros Hc. destruct (Hc w) as [[] Ha].
  unfold exec at 1. rewrite (exec_bind c _ w tt Ha). reflexivity.
Qed.

Lemma handleActivityEvent_empty w payload platform mode' env :
  Js.truthy payload = false ->
  handleActivityEvent payload platform mode' env w = (Ok tt, w).
Proof. intros Hp. unfold handleActivityEvent. rewrite Hp. reflexivity. Qed.

Lemma handleActivityEvent_duplicate w payload platform mode' env :
  Js.truthy payload = true ->
  is_duplicate w (fingerprint_of (activityPayload_of payload platform mode'))
               (now_detect env) = true ->
  handleActivityEvent payload platform mode' env w = (Ok tt, w).
Proof.
  intros Hp Hd. unfold handleActivityEvent. rewrite Hp. simpl.
  unfold mbind at 1, M_bind at 1, get. rewrite Hd. reflexivity.
Qed.

Lemma handleActivityEvent_fresh w payload platform mode' env :
  Js.truthy payload = true ->
  is_duplicate w (fingerprint_of (activityPayload_of payload platform mode'))
               (now_detect env) = false ->
  exec (handleActivityEvent payload platform mode' env) w =
  exec (deliver (activityPayload_of payload platform mode') env)
    (exec (mark_syncing payload platform env)
       (exec count_detected
          (with_dedupe (fingerprint_of (activityPayload_of payload platform mode'))
                       (now_detect env) w))).
Proof.
  intros Hp Hd. unfold handleActivityEvent. rewrite Hp. simpl negb. cbv iota zeta.
  unfold exec at 1. unfold mbind at 1, M_bind at 1, get. rewrite Hd.
  fold (exec (modify (with_dedupe (fingerprint_of (activityPayload_of payload platform mode'))
                        (now_detect env)) ≫= fun _ =>
              count_detected ≫= fun _ =>
              mark_syncing payload platform env ≫= fun _ =>
              deliver (activityPayload_of payload platform mode') env) w).
  rewrite exec_then by apply returns_modify.
  rewrite exec_then by apply returns_count_detected.
  rewrite exec_then by apply returns_mark_syncing.
  reflexivity.
Qed.

(** A fingerprint always contains its separators. *)
Lemma fingerprint_nonempty activityPayload :
  String.eqb (fingerprint_of activityPayload) "" = false.
Proof.
  unfold fingerprint_of.
  destruct (Js.ToString (Js.lookup_field "provider" activityPayload)); reflexivity.
Qed.

(** The state of the counter and of the dedupe variables once an activity
    has been counted. *)
Definition counted (v : Js.value) (fp : string) (now : Z) : World -> Prop :=
  fun w => totalActivitiesTracked (STATE w) = v
           /\ storage w !! "totalActivitiesTracked" = Some v
           /\ _lastActivityFingerprint w = Some fp
           /\ _lastActivityAt w = now.

Lemma counted_sync_frame v fp now : sync_frame (counted v fp now).
Proof.
  split; [split | ..]; unfold respects, counted; intros; simpl; try assumption.
  destruct H1 as (Ht & Hs & Hf & Ha). repeat split; try assumption.
  rewrite storage_set_lookup_ne; [exact Hs |].
  intros Hin. apply H0 in Hin. unfold sync_keys in Hin.
  repeat (apply elem_of_cons in Hin as [Hin | Hin]; [discriminate |]).
  inversion Hin.
Qed.

Lemma count_detected_run w :
  exec count_detected w =
  let v := Js.add_one (totalActivitiesTracked (STATE w)) in
  with_effect (StorageSet [("totalActivitiesTracked", v)])
    (with_storage (storage_set [("totalActivitiesTracked", v)])
       (with_STATE (set_totalActivitiesTracked v) w)).
Proof.
  unfold count_detected, exec, assign, modify, persistState, gets, emit,
    mbind, M_bind, persist_payload, STATE_get.
  destruct w as [[m b r h ss sa t at_] lf la rdy st eff]. simpl.
  destruct t as [| | | [] | | | |]; reflexivity.
Qed.

Lemma count_detected_counts w n fp now :
  totalActivitiesTracked (STATE w) = Js.Num n ->
  counted (Js.Num (n + 1)) fp now (exec count_detected (with_dedupe fp now w)).
Proof.
  intros Hn. rewrite count_detected_run. simpl. rewrite Hn.
  unfold counted. simpl. repeat split.
  unfold storage_set. simpl. apply lookup_insert_eq.
Qed.

(** A fresh activity is counted, and the dedupe variables then hold its
    fingerprint and detection time, whatever the delivery does. *)
Lemma fresh_activity_counted w payload platform mode' env n :
  Js.truthy payload = true ->
  totalActivitiesTracked (STATE w) = Js.Num n ->
  is_duplicate w (fingerprint_of (activityPayload_of payload platform mode'))
               (now_detect env) = false ->
  counted (Js.Num (n + 1)) (fingerprint_of (activityPayload_of payload platform mode'))
          (now_detect env) (exec (handleActivityEvent payload platform mode' env) w).
Proof.
  intros Hp Hn Hfresh. rewrite handleActivityEvent_fresh by assumption.
  apply preserves_deliver; [apply counted_sync_frame |].
  apply preserves_mark_syncing; [apply counted_sync_frame |].
  apply count_detected_counts, Hn.
Qed.

(** Right after an activity was counted, the same activity arriving less
    than 2000 ms later is absorbed. *)
Lemma repeated_activity_absorbed w payload platform mode' env v now :
  Js.truthy payload = true ->
  counted v (fingerprint_of (activityPayload_of payload platform mode')) now w ->
  now_detect env - now < 2000 ->
  handleActivityEvent payload platform mode' env w = (Ok tt, w).
Proof.
  intros Hp (_ & _ & Hf & Ha) Hwin.
  apply handleActivityEvent_duplicate; [exact Hp |].
  unfold is_duplicate. rewrite Hf, Ha.
  rewrite fingerprint_nonempty, String.eqb_refl. simpl.
  apply Z.ltb_lt. exact Hwin.
Qed.


(** C10. [handleActivityEvent] called with a missing or empty payload
    (a payload that [!payload] rejects) returns at once: [STATE], the
    dedupe variables, the store and the trace of storage writes and
    broadcasts are those of before the call. *)
Theorem C10_empty_payload_changes_nothing
    (w : World) (payload platform mode' : Js.value) (env : ActivityEnv) :
  Js.truthy payload = false ->
  handleActivityEvent payload platform mode' env w = (Ok tt, w).
Proof. apply handleActivityEvent_empty. Qed.

End Counting.

(** ** Draining the offline queue *)

Section Drain.
Context `{Host}.

(** [null] and [undefined] are the items whose handling throws: reading
    [item.payload] raises a [TypeError] inside the [try]. *)
Definition nullish (item : Js.value) : bool :=
  match item with
  | Js.Undefined | Js.Null => true
  | _ => false
  end.

Definition throws {A : Type} (c : M A) (w : World) : Prop :=
  exists e w', c w = (Throw e, w').

Lemma handle_item_throws item env w :
  nullish item = true -> exists e, handle_item item env w = (Throw e, w).
Proof. destruct item; try discriminate; intros _; eexists; reflexivity. Qed.

Lemma handle_item_returns item env :
  nullish item = false -> returns (handle_item item env).
Proof.
  intros Hn. unfold handle_item.
  destruct item; try discriminate; simpl;
    (apply returns_bind; [apply returns_ret | intros ?]);
    (apply returns_bind; [apply returns_ret | intros ?]);
    (apply returns_bind; [apply returns_gets | intros ?]);
    apply returns_handleActivityEvent.
Qed.

(** Handling an item throws exactly when the item is [null] or
    [undefined]; a failed delivery does not throw. *)
Lemma throws_iff_nullish item env w :
  throws (handle_item item env) w <-> nullish item = true.
Proof.
  split.
  - intros (e & w' & Hthrow). destruct (nullish item) eqn:Hn; [reflexivity |].
    destruct (handle_item_returns item env Hn w) as [a Ha].
    rewrite Hthrow in Ha. discriminate.
  - intros Hn. destruct (handle_item_throws item env w Hn) as [e He].
    exists e, w. exact He.
Qed.

Lemma setPendingActivities_returns items : returns (setPendingActivities items).
Proof. unfold setPendingActivities. repeat returns_step. Qed.

Lemma drain_halts envs bad post w :
  throws (handle_item bad (envs O)) w ->
  drain envs (bad :: post) w = (Ok tt, w).
Proof.
  intros Hthrow. apply throws_iff_nullish in Hthrow.
  destruct (handle_item_throws bad (envs O) w Hthrow) as [e He].
  simpl. unfold mbind at 1, M_bind at 1, try_catch.
  unfold mbind at 1, M_bind at 1. rewrite He. reflexivity.
Qed.

Lemma drain_continues envs item rest w :
  nullish item = false ->
  drain envs (item :: rest) w =
  drain (fun i => envs (S i)) rest
    (exec (setPendingActivities rest) (exec (handle_item item (envs O)) w)).
Proof.
  intros Hn. destruct (handle_item_returns item (envs O) Hn w) as [[] Ha].
  simpl. unfold mbind at 1, M_bind at 1, try_catch.
  rewrite (exec_bind (handle_item item (envs O)) _ w tt Ha).
  destruct (setPendingActivities_returns rest (exec (handle_item item (envs O)) w))
    as [[] Hb].
  rewrite (exec_bind (setPendingActivities rest) _ _ tt Hb). reflexivity.
Qed.

(** Handling the items of [done] in list order, each one struck from the
    persisted queue right after its own handling; [rest] is what stays
    behind them in the queue. *)
Fixpoint handled_in_order (envs : nat -> ActivityEnv) (done rest : list Js.value)
    (w : World) : World :=
  match done with
  | [] => w
  | item :: done' =>
      handled_in_order (fun i => envs (S i)) done' rest
        (exec (setPendingActivities (done' ++ rest))
           (exec (handle_item item (envs O)) w))
  end.

Lemma drain_prefix envs done bad post :
  forall w,
    Forall (fun item => nullish item = false) done ->
    nullish bad = true ->
    drain envs (done ++ bad :: post) w =
    (Ok tt, handled_in_order envs done (bad :: post) w).
Proof.
  revert envs. induction done as [| item done IH]; intros envs w Hdone Hbad.
  - simpl app. apply drain_halts, throws_iff_nullish, Hbad.
  - inversion Hdone as [| ? ? Hitem Hrest]; subst.
    change ((item :: done) ++ bad :: post) with (item :: (done ++ bad :: post)).
    rewrite drain_continues by exact Hitem.
    rewrite IH by assumption. reflexivity.
Qed.

Lemma setPendingActivities_stored items w :
  storage (exec (setPendingActivities items) w) !! "pendingActivities"
  = Some (Js.Arr items).
Proof.
  unfold setPendingActivities, exec, mbind, M_bind, modify, emit. simpl.
  unfold storage_set. simpl. apply lookup_insert_eq.
Qed.

Lemma handled_in_order_stored envs done rest :
  forall w,
    storage w !! "pendingActivities" = Some (Js.Arr (done ++ rest)) ->
    storage (handled_in_order envs done rest w) !! "pendingActivities"
    = Some (Js.Arr rest).
Proof.
  revert envs. induction done as [| item done IH]; intros envs w Hw; simpl.
  - exact Hw.
  - apply IH. apply setPendingActivities_stored.
Qed.

(** C4. The drain handles the persisted queue from its head; an item is
    struck from the persisted queue right after its own handling returned;
    at the first item whose handling throws the drain stops, and the
    persisted queue is then that item followed by everything behind it, in
    the original order. In particular a queue [[A; B; C]] where handling
    [B] throws ends as [[B; C]]. *)
Theorem C4_drain_is_fifo_and_halts_at_first_failure
    (w : World) (envs : nat -> ActivityEnv) (done post : list Js.value)
    (bad : Js.value) :
  storage w !! "pendingActivities" = Some (Js.Arr (done ++ bad :: post)) ->
  Forall (fun item => forall env w0, ~ throws (handle_item item env) w0) done ->
  (forall env w0, throws (handle_item bad env) w0) ->
  let w' := exec (processPendingActivities envs) w in
  w' = handled_in_order envs done (bad :: post) w
  /\ storage w' !! "pendingActivities" = Some (Js.Arr (bad :: post)).
Proof.
  intros Hq Hdone Hbad w'.
  assert (Hbad' : nullish bad = true).
  { apply (throws_iff_nullish bad (envs O) w), Hbad. }
  assert (Hdone' : Forall (fun item => nullish item = false) done).
  { eapply Forall_impl; [exact Hdone |]. intros item Hitem. simpl in Hitem.
    destruct (nullish item) eqn:E; [| reflexivity].
    exfalso. apply (Hitem (envs O) w). apply throws_iff_nullish, E. }
  assert (Hrun : w' = handled_in_order envs done (bad :: post) w).
  { unfold w', processPendingActivities, exec.
    unfold mbind, M_bind, get. unfold getPendingActivities. rewrite Hq.
    rewrite drain_prefix by assumption. reflexivity. }
  split; [exact Hrun |].
  rewrite Hrun. apply handled_in_order_stored, Hq.
Qed.

End Drain.

(** ** Validated mutators and rehydration *)

Section Mutators.
Context `{Host}.









(** *** The mode and the backend address stay well formed *)





Lemma preserves_drain I envs items :
  activity_frame I -> framed_by ["pendingActivities"] I ->
  preserves I (drain envs items).
Proof.
  intros F P. revert envs. induction items as [| item items IH]; intros envs.
  - apply preserves_ret.
  - simpl. apply preserves_bind.
    + apply preserves_try_catch; [| intros e; apply preserves_ret].
      apply preserves_bind; [| intros _].
      * unfold handle_item. repeat first [ apply preserves_handleActivityEvent, F | preserve_step ].
      * apply preserves_bind; [| intros _; apply preserves_ret].
        unfold setPendingActivities.
        apply preserves_bind; [| intros _; eapply preserves_emit_framed, P].
        apply preserves_modify. intros w Hw. apply (frame_storage _ _ P); [| exact Hw].
        keys_included.
    + intros [|]; [apply IH | apply preserves_ret].
Qed.





(** The part of [initializeState] that follows the two configuration
    assignments. *)
Lemma initializeState_unfold boot envs w :
  initializeState boot envs w =
  (let data := stored (storage w) in
   assign (set_mode (if Js.is_str (data "mode") "silent" then "silent" else "awareness"));;
   sanitized ← lift (sanitizeBaseUrl (data "backendBaseUrl"));
   assign (set_backendBaseUrl (default DEFAULT_BACKEND_BASE_URL (usable sanitized)));;
   assign (set_totalActivitiesTracked (Js.or (data "totalActivitiesTracked") (Js.Num 0)));;
   assign (set_lastSyncStatus (Js.or (data "lastSyncStatus") (Js.Str "idle")));;
   assign (set_lastSyncAt (Js.or (data "lastSyncAt") Js.Null));;
   performHealthCheck false boot;;
   updateExtensionIcon;;
   broadcastMode;;
   modify with_stateReady;;
   processPendingActivities envs) w.
Proof. reflexivity. Qed.


(** *** The sync status *)

(** The values the declaration of [STATE] documents for
    [lastSyncStatus]. *)
Definition documented_status : list Js.value :=
  [Js.Str "idle"; Js.Str "syncing"; Js.Str "success"; Js.Str "error"].

Lemma clearStats_run w :
  exec clearStats w =
  with_effect (StorageSet [("totalActivitiesTracked", Js.Num 0);
                           ("lastSyncStatus", Js.Str "synced");
                           ("lastSyncAt", Js.Null)])
    (with_storage (storage_set [("totalActivitiesTracked", Js.Num 0);
                                ("lastSyncStatus", Js.Str "synced");
                                ("lastSyncAt", Js.Null)])
       (with_STATE (fun s => set_lastSyncAt Js.Null
                               (set_lastSyncStatus (Js.Str "synced")
                                  (set_totalActivitiesTracked (Js.Num 0) s))) w)).
Proof.
  destruct w as [[m b r h ss sa t at_] lf la rdy st eff]. reflexivity.
Qed.

(** C6. [clearStats] sets [lastSyncStatus] to ['synced'], a value outside
    the four the declaration of [STATE] documents (['idle'], ['syncing'],
    ['success'], ['error']); it does so from every state, the initial one
    included. *)
Theorem C6_clearStats_leaves_documented_status (w : World) :
  lastSyncStatus (STATE (exec clearStats w)) = Js.Str "synced"
  /\ lastSyncStatus (STATE (exec clearStats w)) ∉ documented_status.
Proof.
  rewrite clearStats_run. simpl. split; [reflexivity |].
  unfold documented_status. intros Hin.
  repeat (apply elem_of_cons in Hin as [Hin | Hin]; [discriminate |]).
  inversion Hin.
Qed.

(** C9. Once the coordinator is ready to answer, [clearStats()] followed
    by a [GET_STATE] query answers with a state whose
    [totalActivitiesTracked] is [0], whose [lastSyncStatus] is ["idle"] or
    ["synced"] (the code writes ["synced"]) and whose [lastSyncAt] is
    [null]. *)
Theorem C9_clearStats_then_GET_STATE
    (w : World) (message : Js.value) (env : ProbeEnv) :
  stateReady w = true ->
  member_opt message "type" = Js.Str "GET_STATE" ->
  exists (response : Js.value) (w' : World),
    handlePopupMessage message env (exec clearStats w) = Some (Ok response, w')
    /\ member_opt response "success" = Js.Bool true
    /\ let state := member_opt response "state" in
       member_opt state "totalActivitiesTracked" = Js.Num 0
       /\ (member_opt state "lastSyncStatus" = Js.Str "idle"
           \/ member_opt state "lastSyncStatus" = Js.Str "synced")
       /\ member_opt state "lastSyncAt" = Js.Null.
Proof.
  intros Hready Htype. rewrite clearStats_run.
  unfold handlePopupMessage. simpl stateReady. rewrite Hready.
  unfold popup_switch. rewrite Htype. simpl Js.is_str. cbv iota.
  destruct w as [[m b r h ss sa t [at_ |]] lf la rdy st eff];
    eexists; eexists; (split; [reflexivity |]); simpl;
    (split; [reflexivity |]); (split; [reflexivity |]);
    (split; [right; reflexivity | reflexivity]).
Qed.

(** The values [lastSyncStatus] really takes: the documented four and
    the ['synced'] of [clearStats]. *)
Definition reachable_status : list Js.value :=
  documented_status ++ [Js.Str "synced"].

Definition status_ok (s : State) : Prop := lastSyncStatus s ∈ reachable_status.

Lemma status_ok_activity_frame : activity_frame (on_STATE status_ok).
Proof.
  split; [split | ..]; try apply framed_on_STATE;
    try (intros; intros w Hw; exact Hw).
  - intros v Hv w Hw.
    unfold on_STATE, status_ok, reachable_status, documented_status. simpl.
    repeat (apply elem_of_cons in Hv as [-> | Hv]; [in_list |]).
    inversion Hv.
  - intros fp t w Hw. exact Hw.
Qed.

(** From the initial state, every sequence of coordinator operations
    keeps [lastSyncStatus] among the five reachable values. *)
Lemma lastSyncStatus_stays_reachable (ops : list operation) (w : World) :
  status_ok (STATE w) -> status_ok (STATE (run_all ops w)).
Proof.
  revert w. induction ops as [| op ops IH]; intros w Hw; [exact Hw |].
  simpl. apply IH. clear IH.
  assert (P : preserves (on_STATE status_ok) (run op)).
  { destruct op; simpl.
    - apply preserves_handleActivityEvent, status_ok_activity_frame.
    - unfold processPendingActivities.
      apply preserves_bind; [apply preserves_get | intros w0].
      apply preserves_drain; [apply status_ok_activity_frame | apply framed_on_STATE].
    - unfold setMode. cbv zeta.
      repeat first [ apply preserves_persistState | apply preserves_emit
                   | (apply preserves_assign; intros s0 Hs0; exact Hs0)
                   | preserve_step ].
    - unfold setBackendBaseUrl.
      repeat first [ apply preserves_persistState
                   | (apply preserves_assign; intros s0 Hs0; exact Hs0)
                   | preserve_step ].
    - intros w0 _. rewrite clearStats_run. unfold on_STATE, status_ok. simpl.
      unfold reachable_status, documented_status. in_list.
    - apply preserves_bind; [| intros _; apply preserves_ret].
      apply preserves_performHealthCheck, (af_sync _ status_ok_activity_frame). }
  apply P, Hw.
Qed.

End Mutators.

(** ** The dispatch client *)

Section Dispatching.
Import Dispatch.

Definition responded (o : channel_outcome) : bool :=
  match o with Responded _ => true | _ => false end.

(** The message [dispatchActivity] sends for a payload. *)
Definition message_for (c : Ctx) (payload : Js.value) : Js.value :=
  Js.Obj [("source", Js.Str "carbonlens-content");
          ("type", Js.Str "ACTIVITY_DETECTED");
          ("platform", Js.Str (platform_name (currentPlatform c)));
          ("mode", mode c);
          ("payload", payload)].

(** The context after two failed attempts and their timers. *)
Definition after_two_failures (channel : nat -> channel_outcome)
    (message : Js.value) (c : Ctx) : Ctx :=
  log (SetTimeout 600)
    (log (SendMessage message (channel 2%nat))
       (log (SetTimeout 300)
          (log (SendMessage message (channel 1%nat)) c))).

(** The retry schedule: an attempt that gets a response ends the
    exchange; a failed first attempt is retried after 300 ms, a failed
    second one after 600 ms; the third attempt is the last, and only when
    it ends with [lastError] is the event queued. *)
Lemma sendWithRetry_schedule channel ts message payload c :
  sendWithRetry channel ts message payload 1 c =
  if responded (channel 1%nat)
  then log (SendMessage message (channel 1%nat)) c
  else if responded (channel 2%nat)
  then log (SendMessage message (channel 2%nat))
         (log (SetTimeout 300) (log (SendMessage message (channel 1%nat)) c))
  else
    match channel 3%nat with
    | LastError =>
        enqueue payload ts
          (log (SendMessage message LastError) (after_two_failures channel message c))
    | outcome => log (SendMessage message outcome) (after_two_failures channel message c)
    end.
Proof.
  unfold after_two_failures.
  simp sendWithRetry. destruct (channel 1%nat) eqn:E1; simpl; try reflexivity;
    (simp sendWithRetry; destruct (channel 2%nat) eqn:E2; simpl; try reflexivity;
     (simp sendWithRetry; destruct (channel 3%nat) eqn:E3; simpl; reflexivity)).
Qed.

Lemma forwarded_app t1 t2 : forwarded (t1 ++ t2) = forwarded t1 ++ forwarded t2.
Proof. unfold forwarded. apply omap_app. Qed.

(** A call whose first attempt gets a response forwards its message and
    does nothing else. *)
Lemma dispatchActivity_delivered channel ts payload c response :
  Js.truthy payload = true ->
  channel 1%nat = Responded response ->
  dispatchActivity channel ts payload c
  = log (SendMessage (message_for c payload) (Responded response)) c.
Proof.
  intros Hp Hc. unfold dispatchActivity. rewrite Hp. simpl negb. cbv iota zeta.
  fold (message_for c payload). rewrite sendWithRetry_schedule, Hc. reflexivity.
Qed.

(** When all three attempts end with [lastError], the event is appended
    once to the persisted queue, behind what the queue held. *)
Lemma dispatchActivity_queued ts payload c queue :
  Js.truthy payload = true ->
  getPendingActivities (storage c) = queue ->
  (storage c !! "pendingActivities" = None
   \/ exists v, storage c !! "pendingActivities" = Some v
                /\ (Js.truthy v = false \/ v = Js.Arr queue)) ->
  let c' := dispatchActivity (fun _ => LastError) ts payload c in
  storage c' !! "pendingActivities"
  = Some (Js.Arr (queue ++ [Js.Obj [("payload", payload);
                                    ("platform", Js.Str (platform_name (currentPlatform c)));
                                    ("ts", Js.Str ts)]]))
  /\ forwarded (trace c') = forwarded (trace c).
Proof.
  intros Hp Hq Hstored c'. unfold c', dispatchActivity. rewrite Hp. simpl negb.
  cbv iota zeta. rewrite sendWithRetry_schedule. simpl responded. cbv iota.
  unfold enqueue, after_two_failures, getPendingActivities in *. simpl.
  assert (E : Js.or (default (Js.Arr []) (storage c !! "pendingActivities")) (Js.Arr [])
              = Js.Arr queue).
  { destruct Hstored as [Hnone | (v & Hv & [Hfalsy | ->])].
    - rewrite Hnone in *. simpl. subst queue. reflexivity.
    - rewrite Hv in *. simpl. unfold Js.or. rewrite Hfalsy.
      destruct v; try discriminate Hfalsy; subst queue; reflexivity.
    - rewrite Hv. reflexivity. }
  rewrite E. simpl. split; [apply lookup_insert_eq |].
  rewrite !forwarded_app. simpl. rewrite !app_nil_r. reflexivity.
Qed.

(** When all three attempts end with a thrown exception, nothing is
    queued and nothing was forwarded: the event is lost. *)
Lemma dispatchActivity_dropped ts payload c :
  Js.truthy payload = true ->
  let c' := dispatchActivity (fun _ => SendThrows) ts payload c in
  storage c' = storage c
  /\ forwarded (trace c') = forwarded (trace c)
  /\ trace c' = trace c ++ [SendMessage (message_for c payload) SendThrows;
                            SetTimeout 300;
                            SendMessage (message_for c payload) SendThrows;
                            SetTimeout 600;
                            SendMessage (message_for c payload) SendThrows].
Proof.
  intros Hp c'. unfold c', dispatchActivity. rewrite Hp. simpl negb.
  cbv iota zeta. rewrite sendWithRetry_schedule. simpl.
  fold (message_for c payload). split; [reflexivity |].
  rewrite <- !app_assoc. simpl. split; [| reflexivity].
  rewrite forwarded_app. simpl. apply app_nil_r.
Qed.

(** A dispatch leaves [_lastDispatchAt] as it is: only the keyboard
    handler writes that variable. *)
Lemma dispatchActivity_lastDispatchAt channel ts payload c :
  _lastDispatchAt (dispatchActivity channel ts payload c) = _lastDispatchAt c.
Proof.
  unfold dispatchActivity. destruct (negb (Js.truthy payload)); [reflexivity |].
  cbv zeta. rewrite sendWithRetry_schedule.
  destruct (responded (channel 1%nat)); [reflexivity |].
  destruct (responded (channel 2%nat)); [reflexivity |].
  destruct (channel 3%nat); try reflexivity.
  unfold enqueue. destruct (Js.or _ _); reflexivity.
Qed.

(** The keyboard guard: a send shortcut pressed less than 1000 ms after a
    keyboard send was dispatched does nothing. *)
Lemma handleGlobalKeydown_guard channel ts page e c :
  now e - _lastDispatchAt c < 1000 ->
  handleGlobalKeydown channel ts page e c = c.
Proof.
  intros Hwin. unfold handleGlobalKeydown.
  destruct (negb (isEnter e && (ctrlKey e || metaKey e))); [reflexivity |].
  apply Z.ltb_lt in Hwin. rewrite Hwin. reflexivity.
Qed.

(** A click on the send button does not arm that guard. *)
Lemma click_leaves_guard channel ts page compose c :
  _lastDispatchAt (gmailSendClicked channel ts page compose c) = _lastDispatchAt c
  /\ _lastDispatchAt (outlookSendClicked channel ts page compose c) = _lastDispatchAt c.
Proof.
  unfold gmailSendClicked, outlookSendClicked. split.
  - destruct compose; [| reflexivity].
    destruct (negb _ || negb _); [reflexivity | apply dispatchActivity_lastDispatchAt].
  - apply dispatchActivity_lastDispatchAt.
Qed.

(** Whether one of the three attempts of a call gets a response. *)
Definition answered (channel : nat -> channel_outcome) : bool :=
  responded (channel 1%nat) || responded (channel 2%nat) || responded (channel 3%nat).

(** A call leaves the platform and the mode as they are, so the message
    of a later call is formed as that of an earlier one. *)
Lemma dispatchActivity_message channel ts payload c payload' :
  message_for (dispatchActivity channel ts payload c) payload' = message_for c payload'.
Proof.
  unfold dispatchActivity. destruct (negb (Js.truthy payload)); [reflexivity |].
  cbv zeta. rewrite sendWithRetry_schedule.
  destruct (responded (channel 1%nat)); [reflexivity |].
  destruct (responded (channel 2%nat)); [reflexivity |].
  destruct (channel 3%nat); try reflexivity.
  unfold enqueue. destruct (Js.or _ _); reflexivity.
Qed.

(** What a call adds to the messages that reached the coordinator: its
    own message when one of its attempts gets a response, nothing
    otherwise. What was dispatched before plays no part. *)
Lemma dispatchActivity_forwards channel ts payload c :
  Js.truthy payload = true ->
  forwarded (trace (dispatchActivity channel ts payload c))
  = forwarded (trace c) ++ (if answered channel then [message_for c payload] else []).
Proof.
  intros Hp. unfold dispatchActivity, answered. rewrite Hp. simpl negb. cbv iota zeta.
  fold (message_for c payload). rewrite sendWithRetry_schedule.
  unfold after_two_failures.
  destruct (channel 1%nat) as [| | r1], (channel 2%nat) as [| | r2],
    (channel 3%nat) as [| | r3]; simpl responded; simpl orb; cbv iota;
    try (unfold enqueue; destruct (Js.or _ _)); simpl trace;
    rewrite ?forwarded_app; simpl; rewrite ?app_nil_r; reflexivity.
Qed.

End Dispatching.

(** C3. A dispatch whose three attempts all end with
    [chrome.runtime.sendMessage] throwing is retried after 300 ms and
    after 600 ms and then given up: the persisted queue is not written and
    no attempt reached the coordinator, so the event is neither
    acknowledged nor queued. *)
Theorem C3_thrown_sends_lose_the_event :
  let c := Dispatch.fresh Dispatch.GMAIL ∅ in
  let c' := Dispatch.dispatchActivity (fun _ => Dispatch.SendThrows)
              "2025-01-01T00:00:02.000Z" Sample.event c in
  Dispatch.storage c' !! "pendingActivities" = None
  /\ Dispatch.forwarded (Dispatch.trace c') = []
  /\ Dispatch.trace c'
     = [Dispatch.SendMessage (message_for c Sample.event) Dispatch.SendThrows;
        Dispatch.SetTimeout 300;
        Dispatch.SendMessage (message_for c Sample.event) Dispatch.SendThrows;
        Dispatch.SetTimeout 600;
        Dispatch.SendMessage (message_for c Sample.event) Dispatch.SendThrows].
Proof.
  intros c c'.
  destruct (dispatchActivity_dropped "2025-01-01T00:00:02.000Z" Sample.event c eq_refl)
    as (Hs & Hf & Ht).
  fold c' in Hs, Hf, Ht. rewrite Hs, Hf, Ht. repeat split.
Qed.

(** C2. Counterexample: two dispatches of the event
    [{provider: "a", subject: "x", sender: "s", recipients: ["r"]}] over a
    working channel. The second call is not a no-op: it sends the message
    again, and two messages reach the coordinator's listener. *)
Lemma C2_counterexample :
  let deliver := fun _ : nat => Dispatch.Responded Sample.acknowledged in
  let c0 := Dispatch.fresh Dispatch.GMAIL ∅ in
  let c1 := Dispatch.dispatchActivity deliver "2025-01-01T00:00:00.000Z" Sample.event c0 in
  let c2 := Dispatch.dispatchActivity deliver "2025-01-01T00:00:00.400Z" Sample.event c1 in
  c2 <> c1
  /\ Dispatch.forwarded (Dispatch.trace c2)
     = [message_for c0 Sample.event; message_for c0 Sample.event].
Proof.
  intros deliver c0 c1 c2. split; [| reflexivity].
  intros E. apply (f_equal (fun c => length (Dispatch.trace c))) in E.
  vm_compute in E. discriminate.
Qed.

Section DuplicateDispatch.
Context `{Host}.
Import Dispatch.

(** The listener hands an [ACTIVITY_DETECTED] message to
    [handleActivityEvent] and acknowledges it. *)
Lemma onMessage_activity c payload env w :
  onMessage (message_for c payload) env w
  = (Some (Js.Obj [("acknowledged", Js.Bool true)]),
     exec (handleActivityEvent payload (Js.Str (platform_name (currentPlatform c)))
             (mode c) env) w).
Proof.
  unfold onMessage, message_for, exec. simpl.
  destruct (returns_handleActivityEvent payload
              (Js.Str (platform_name (currentPlatform c))) (mode c) env w) as [[] Ha].
  destruct (handleActivityEvent _ _ _ _ _) as [[[] | e] w']; simpl in *;
    [reflexivity | discriminate].
Qed.

(** The fingerprint the coordinator forms for a payload dispatched from
    the context [c]. *)
Definition fingerprint_for (c : Ctx) (payload : Js.value) : string :=
  fingerprint_of (activityPayload_of payload
                    (Js.Str (platform_name (currentPlatform c))) (mode c)).

(** C2 (as the code has it). [dispatchActivity] performs no dedupe of its
    own. Of two calls with non-empty payloads, each sends its message
    whatever the other dispatched, and the message reaches the
    coordinator when one of its three attempts gets a response: over a
    working channel two [onActivity] calls result, also when the two
    payloads yield one fingerprint. Such a duplicate is absorbed by the
    coordinator: when the second message arrives less than 2000 ms after
    the first was accepted, the coordinator acknowledges it and changes
    nothing, so the event is counted once. The two payloads may differ in
    all that the fingerprint does not read. *)
Theorem C2_duplicate_dispatch_absorbed_by_coordinator
    (c : Ctx) (channel1 channel2 : nat -> channel_outcome) (ts1 ts2 : string)
    (payload1 payload2 : Js.value) (w : World) (env1 env2 : ActivityEnv) (n : Z) :
  Js.truthy payload1 = true ->
  Js.truthy payload2 = true ->
  fingerprint_for c payload1 = fingerprint_for c payload2 ->
  totalActivitiesTracked (STATE w) = Js.Num n ->
  is_duplicate w (fingerprint_for c payload1) (now_detect env1) = false ->
  now_detect env2 - now_detect env1 < 2000 ->
  let c2 := dispatchActivity channel2 ts2 payload2
              (dispatchActivity channel1 ts1 payload1 c) in
  let message1 := message_for c payload1 in
  let message2 := message_for c payload2 in
  forwarded (trace c2)
  = forwarded (trace c) ++ (if answered channel1 then [message1] else [])
                        ++ (if answered channel2 then [message2] else [])
  /\ let first := onMessage message1 env1 w in
     let second := onMessage message2 env2 (snd first) in
     totalActivitiesTracked (STATE (snd first)) = Js.Num (n + 1)
     /\ second = (Some (Js.Obj [("acknowledged", Js.Bool true)]), snd first).
Proof.
  intros Hp1 Hp2 Hfp Hn Hfresh Hwin c2 message1 message2. split.
  - unfold c2, message1, message2.
    rewrite (dispatchActivity_forwards channel2 ts2 payload2 _ Hp2).
    rewrite (dispatchActivity_forwards channel1 ts1 payload1 c Hp1).
    rewrite dispatchActivity_message, <- app_assoc. reflexivity.
  - cbv zeta. unfold message1, message2. rewrite !onMessage_activity. simpl snd.
    pose proof (fresh_activity_counted w payload1 _ _ env1 n Hp1 Hn Hfresh) as C.
    split; [apply C |].
    f_equal. unfold exec at 1.
    fold (fingerprint_for c payload1) in C. rewrite Hfp in C.
    rewrite (repeated_activity_absorbed _ payload2 _ _ env2 _ _ Hp2 C Hwin). reflexivity.
Qed.

End DuplicateDispatch.

(** ** Attachment sizes *)

(** *** Texts and their ends *)

Section Texts.
#[local] Arguments String.append !s1 s2.

Fixpoint all_chars (p : ascii -> bool) (s : string) : bool :=
  match s with
  | EmptyString => true
  | String c rest => p c && all_chars p rest
  end.

Definition first_char (s : string) : option ascii :=
  match s with
  | EmptyString => None
  | String c _ => Some c
  end.

Fixpoint last_char (s : string) : option ascii :=
  match s with
  | EmptyString => None
  | String c rest =>
      match rest with
      | EmptyString => Some c
      | String _ _ => last_char rest
      end
  end.


Lemma last_char_cons c s :
  last_char (String c s) = match last_char s with Some l => Some l | None => Some c end.
Proof.
  destruct s as [| c' s']; [reflexivity |].
  change (last_char (String c (String c' s'))) with (last_char (String c' s')).
  destruct (last_char (String c' s')) eqn:E; [reflexivity |].
  exfalso. revert c' E. induction s' as [| c'' s'' IH]; intros c' E; [discriminate |].
  apply (IH c''). exact E.
Qed.






End Texts.

Section Attachments.
Import Extractor.
#[local] Arguments String.append !s1 s2.

(** *** The two patterns of the scan, read as sets of texts

    What [/([0-9]+(?:\.[0-9]+)?)\s*(KB|MB|B)/i] and [/\b(KB|MB|B)\b/i]
    accept, said without reference to a matching procedure. *)

Definition digits (s : string) : Prop := s <> "" /\ all_chars is_digit s = true.



(** [digits] or [digits.digits] *)
Definition figure (s : string) : Prop :=
  digits s \/ exists int frac, s = int +:+ "." +:+ frac /\ digits int /\ digits frac.





























(** *** The arithmetic of sizes *)





(** *** What the scan adds up *)























End Attachments.


(** * Further properties of the code *)

(** ** The endings of an activity *)

Section ActivityEndings.
Context `{Host}.

(** The sync fields as the last assignment of a delivery leaves them. *)
Definition ended (status : string) (env : ActivityEnv) (s : State) : Prop :=
  lastSyncStatus s = Js.Str status /\ lastSyncAt s = Js.Str (iso_done env).

Lemma stamp_then_publish (status : string) (env : ActivityEnv) (w : World) :
  let c := assign (fun s => set_lastSyncAt (Js.Str (iso_done env))
                              (set_lastSyncStatus (Js.Str status) s));;
           persistState ["lastSyncStatus"; "lastSyncAt"];;
           broadcast_STATE_UPDATED in
  fst (c w) = Ok tt
  /\ STATE (exec c w)
     = set_lastSyncAt (Js.Str (iso_done env))
         (set_lastSyncStatus (Js.Str status) (STATE w)).
Proof.
  intros c. split.
  - assert (R : returns c).
    { unfold c. repeat first [ apply returns_persistState | apply returns_broadcast
                             | apply returns_assign | returns_step ]. }
    destruct (R w) as [[] Ha]. exact Ha.
  - unfold c. rewrite exec_then by apply returns_assign.
    assert (P : preserves
                  (on_STATE (fun s => s = set_lastSyncAt (Js.Str (iso_done env))
                                            (set_lastSyncStatus (Js.Str status) (STATE w))))
                  (persistState ["lastSyncStatus"; "lastSyncAt"];;
                   broadcast_STATE_UPDATED)).
    { apply preserves_bind; [apply preserves_persistState | intros _].
      apply preserves_broadcast. }
    apply (P (exec (assign (fun s => set_lastSyncAt (Js.Str (iso_done env))
                                       (set_lastSyncStatus (Js.Str status) s))) w)).
    reflexivity.
Qed.

End ActivityEndings.

Section DeliveryEndings.
Context `{Host}.

Lemma mark_syncing_STATE payload platform env w :
  STATE (exec (mark_syncing payload platform env) w)
  = set_lastSyncAttemptAt (Some (iso_attempt env))
      (set_lastSyncStatus (Js.Str "syncing") (STATE w)).
Proof.
  unfold mark_syncing.
  apply (established_bind
           (on_STATE (fun s => s = set_lastSyncAttemptAt (Some (iso_attempt env))
                                     (set_lastSyncStatus (Js.Str "syncing") (STATE w))))).
  - reflexivity.
  - intros _.
    repeat first [ apply preserves_persistState | apply preserves_broadcast
                 | apply preserves_emit | preserve_step ].
Qed.

Lemma deliver_returned activityPayload env w data w1 :
  sendActivityToBackend activityPayload env w = (Ok data, w1) ->
  STATE (exec (deliver activityPayload env) w)
  = set_lastSyncAt (Js.Str (iso_done env))
      (set_lastSyncStatus (Js.Str "success") (STATE w1)).
Proof.
  intros Hsend. unfold deliver, exec, try_catch.
  unfold mbind at 1, M_bind at 1. rewrite Hsend.
  destruct (stamp_then_publish "success" env w1) as [Hret Hstate].
  cbv zeta in Hret, Hstate. unfold exec in Hstate.
  destruct ((assign _ ≫= _) w1) as [[[] | e] w2]; simpl in *; [exact Hstate | discriminate].
Qed.

Lemma deliver_thrown activityPayload env w e w1 :
  sendActivityToBackend activityPayload env w = (Throw e, w1) ->
  STATE (exec (deliver activityPayload env) w)
  = set_lastSyncAt (Js.Str (iso_done env))
      (set_lastSyncStatus (Js.Str "error") (STATE w1)).
Proof.
  intros Hsend. unfold deliver, exec, try_catch.
  unfold mbind at 1, M_bind at 1. rewrite Hsend.
  match goal with |- STATE (snd (?c w1)) = _ => change (STATE (exec c w1) = 
     set_lastSyncAt (Js.Str (iso_done env))
      (set_lastSyncStatus (Js.Str "error") (STATE w1))) end.
  apply (established_bind
           (on_STATE (fun s => s = set_lastSyncAt (Js.Str (iso_done env))
                                     (set_lastSyncStatus (Js.Str "error") (STATE w1))))).
  - reflexivity.
  - intros _.
    repeat first [ apply preserves_persistState | apply preserves_broadcast
                 | apply preserves_emit | preserve_step ].
Qed.

End DeliveryEndings.

(** ** What an operation emits *)

Section Emissions.
Context `{Host}.

(** Every effect [c] adds to the trace satisfies [P]. *)
Definition emits_only {A : Type} (P : effect -> Prop) (c : M A) : Prop :=
  forall w, exists added, effects (exec c w) = effects w ++ added /\ Forall P added.

Lemma emits_only_silent {A} P (c : M A) :
  (forall w, effects (exec c w) = effects w) -> emits_only P c.
Proof. intros Hc w. exists []. rewrite Hc, app_nil_r. split; [reflexivity | constructor]. Qed.

Lemma emits_only_emit P e : P e -> emits_only P (emit e).
Proof. intros He w. exists [e]. split; [reflexivity | repeat constructor; exact He]. Qed.

Lemma emits_only_bind {A B} P (c : M A) (f : A -> M B) :
  emits_only P c -> (forall a, emits_only P (f a)) -> emits_only P (c ≫= f).
Proof.
  intros Hc Hf w. destruct (Hc w) as (l1 & E1 & F1).
  unfold exec, mbind, M_bind in *. destruct (c w) as [[a | e] w1]; simpl in *.
  - destruct (Hf a w1) as (l2 & E2 & F2). unfold exec in E2.
    exists (l1 ++ l2). rewrite E2, E1, app_assoc. split; [reflexivity |].
    apply Forall_app. split; assumption.
  - exists l1. split; assumption.
Qed.

Lemma emits_only_try_catch {A} P (c : M A) (h : string -> M A) :
  emits_only P c -> (forall e, emits_only P (h e)) -> emits_only P (try_catch c h).
Proof.
  intros Hc Hh w. destruct (Hc w) as (l1 & E1 & F1).
  unfold exec, try_catch in *. destruct (c w) as [[a | e] w1]; simpl in *.
  - exists l1. split; assumption.
  - destruct (Hh e w1) as (l2 & E2 & F2). unfold exec in E2.
    exists (l1 ++ l2). rewrite E2, E1, app_assoc. split; [reflexivity |].
    apply Forall_app. split; assumption.
Qed.

Lemma emits_only_persistState P fields :
  (forall items, P (StorageSet items)) -> emits_only P (persistState fields).
Proof.
  intros HP. unfold persistState.
  apply emits_only_bind; [apply emits_only_silent; reflexivity | intros s].
  cbv zeta. destruct (persist_payload s _); [apply emits_only_silent; reflexivity |].
  apply emits_only_bind; [apply emits_only_silent; reflexivity | intros _].
  apply emits_only_emit, HP.
Qed.

Lemma emits_only_broadcast P :
  (forall m, P (SendMessage m)) -> emits_only P broadcast_STATE_UPDATED.
Proof.
  intros HP. unfold broadcast_STATE_UPDATED.
  apply emits_only_bind; [apply emits_only_silent; reflexivity | intros s].
  apply emits_only_emit, HP.
Qed.

End Emissions.

Section UnreachableBackend.
Context `{Host}.

Definition not_POST (e : effect) : Prop :=
  forall url body, e <> Fetch "POST" url body.

Lemma preserves_send_fields (J : State -> Prop) activityPayload env :
  (forall s b, J s -> J (set_isBackendReachable b s)) ->
  (forall s t, J s -> J (set_lastHealthCheck t s)) ->
  preserves (on_STATE J) (sendActivityToBackend activityPayload env).
Proof.
  intros Hr Ht. unfold sendActivityToBackend, performHealthCheck.
  repeat first [ apply preserves_emit
               | (apply preserves_assign; intros s Hs; first [apply Hr | apply Ht]; exact Hs)
               | preserve_step ].
Qed.

Lemma emits_only_count_detected P :
  (forall items, P (StorageSet items)) -> emits_only P count_detected.
Proof.
  intros HP. unfold count_detected.
  apply emits_only_bind; [apply emits_only_silent; reflexivity | intros _].
  apply emits_only_persistState, HP.
Qed.

Lemma emits_only_mark_syncing P payload platform env :
  (forall items, P (StorageSet items)) -> (forall m, P (SendMessage m)) ->
  (forall t m, P (Notification t m)) ->
  emits_only P (mark_syncing payload platform env).
Proof.
  intros H1 H2 H3. unfold mark_syncing.
  apply emits_only_bind; [apply emits_only_silent; reflexivity | intros _].
  apply emits_only_bind; [apply emits_only_persistState, H1 | intros _].
  apply emits_only_bind; [apply emits_only_broadcast, H2 | intros _].
  apply emits_only_bind; [apply emits_only_silent; reflexivity | intros s].
  destruct (String.eqb (mode s) "awareness"); [| apply emits_only_silent; reflexivity].
  destruct platform; try (apply emits_only_silent; reflexivity).
  apply emits_only_emit, H3.
Qed.

(** The [catch] of the delivery. *)
Definition on_delivery_error (env : ActivityEnv) : M unit :=
  assign (fun s => set_lastSyncAt (Js.Str (iso_done env))
                     (set_lastSyncStatus (Js.Str "error") s));;
  persistState ["lastSyncStatus"; "lastSyncAt"];;
  broadcast_STATE_UPDATED;;
  emit (Notification "CarbonLens Sync Error"
          "We could not sync the latest activity with CarbonLens backend.").

Lemma deliver_thrown_run activityPayload env w e w1 :
  sendActivityToBackend activityPayload env w = (Throw e, w1) ->
  exec (deliver activityPayload env) w = exec (on_delivery_error env) w1.
Proof.
  intros Hsend. unfold deliver, exec, try_catch.
  unfold mbind at 1, M_bind at 1. rewrite Hsend. reflexivity.
Qed.

Lemma on_delivery_error_emits P env :
  (forall items, P (StorageSet items)) -> (forall m, P (SendMessage m)) ->
  (forall t m, P (Notification t m)) ->
  emits_only P (on_delivery_error env).
Proof.
  intros H1 H2 H3. unfold on_delivery_error.
  apply emits_only_bind; [apply emits_only_silent; reflexivity | intros _].
  apply emits_only_bind; [apply emits_only_persistState, H1 | intros _].
  apply emits_only_bind; [apply emits_only_broadcast, H2 | intros _].
  apply emits_only_emit, H3.
Qed.

Lemma on_delivery_error_ends_with_notification env w :
  exists before,
    effects (exec (on_delivery_error env) w)
    = before ++ [Notification "CarbonLens Sync Error"
                   "We could not sync the latest activity with CarbonLens backend."].
Proof.
  unfold on_delivery_error.
  rewrite exec_then by apply returns_assign.
  rewrite exec_then by apply returns_persistState.
  rewrite exec_then by apply returns_broadcast.
  eexists. reflexivity.
Qed.

(** With the backend marked unreachable and a probe that does not answer
    [ok], the delivery throws after at most the probe. *)
Lemma send_unreachable activityPayload env w :
  isBackendReachable (STATE w) = false ->
  probe_reply (probe env) <> Some true ->
  exists e w1,
    sendActivityToBackend activityPayload env w = (Throw e, w1)
    /\ isBackendReachable (STATE w1) = false
    /\ exists added, effects w1 = effects w ++ added /\ Forall not_POST added.
Proof.
  intros Hdown Hreply. unfold sendActivityToBackend, performHealthCheck.
  destruct w as [[m b r h ss sa t at_] lf la rdy st eff]. simpl in Hdown. subst r.
  unfold mbind, M_bind, gets, throw, emit, assign, modify, mret, M_ret. simpl.
  destruct (String.eqb b "").
  { eexists; eexists. split; [reflexivity |]. split; [reflexivity |].
    exists []. rewrite app_nil_r. split; [reflexivity | constructor]. }
  simpl. destruct (URL_new_base API_ENDPOINTS.health b) as [url |]; simpl.
  - destruct (probe_reply (probe env)) as [[|] |]; simpl; [congruence | |];
      (eexists; eexists; split; [reflexivity |]; split; [reflexivity |];
       eexists; split; [reflexivity |]; repeat constructor; intros ? ? ?; discriminate).
  - eexists; eexists. split; [reflexivity |]. split; [reflexivity |].
    exists []. rewrite app_nil_r. split; [reflexivity | constructor].
Qed.

End UnreachableBackend.

Section ActivityOutcomes.
Context `{Host}.

(** The world in which the delivery of a fresh activity starts. *)
Definition at_delivery (w : World) (payload platform mode' : Js.value)
    (env : ActivityEnv) : World :=
  exec (mark_syncing payload platform env)
    (exec count_detected
       (with_dedupe (fingerprint_of (activityPayload_of payload platform mode'))
                    (now_detect env) w)).

Lemma at_delivery_STATE w payload platform mode' env :
  STATE (at_delivery w payload platform mode' env)
  = set_lastSyncAttemptAt (Some (iso_attempt env))
      (set_lastSyncStatus (Js.Str "syncing")
         (set_totalActivitiesTracked (Js.add_one (totalActivitiesTracked (STATE w)))
            (STATE w))).
Proof.
  unfold at_delivery. rewrite mark_syncing_STATE, count_detected_run. reflexivity.
Qed.

Lemma fresh_delivery w payload platform mode' env :
  Js.truthy payload = true ->
  is_duplicate w (fingerprint_of (activityPayload_of payload platform mode'))
               (now_detect env) = false ->
  exec (handleActivityEvent payload platform mode' env) w
  = exec (deliver (activityPayload_of payload platform mode') env)
      (at_delivery w payload platform mode' env).
Proof. apply handleActivityEvent_fresh. Qed.

Lemma at_delivery_emits w payload platform mode' env :
  exists added,
    effects (at_delivery w payload platform mode' env) = effects w ++ added
    /\ Forall not_POST added.
Proof.
  unfold at_delivery.
  destruct (emits_only_count_detected not_POST
              (fun items url body => ltac:(discriminate))
              (with_dedupe (fingerprint_of (activityPayload_of payload platform mode'))
                 (now_detect env) w)) as (l1 & E1 & F1).
  destruct (emits_only_mark_syncing not_POST payload platform env
              (fun items url body => ltac:(discriminate))
              (fun m url body => ltac:(discriminate))
              (fun t m url body => ltac:(discriminate))
              (exec count_detected
                 (with_dedupe (fingerprint_of (activityPayload_of payload platform mode'))
                    (now_detect env) w))) as (l2 & E2 & F2).
  exists (l1 ++ l2). rewrite E2, E1, app_assoc. split; [reflexivity |].
  apply Forall_app. split; assumption.
Qed.

(** X1. The coordinator acknowledges every [ACTIVITY_DETECTED] message of
    a content script with [{acknowledged: true}], whatever the probe and
    the backend answer: a failed sync is recorded in [STATE] and never
    reported back as [{acknowledged: false, error}]. *)
Theorem X1_activity_always_acknowledged
    (message : Js.value) (env : ActivityEnv) (w : World) :
  Js.truthy message = true ->
  member_opt message "source" = Js.Str "carbonlens-content" ->
  member_opt message "type" = Js.Str "ACTIVITY_DETECTED" ->
  fst (onMessage message env w) = Some (Js.Obj [("acknowledged", Js.Bool true)]).
Proof.
  intros Ht Hs Hty. unfold onMessage. rewrite Ht, Hs, Hty. simpl.
  destruct (returns_handleActivityEvent (member_opt message "payload")
              (member_opt message "platform") (member_opt message "mode") env w)
    as [[] Ha].
  destruct (handleActivityEvent _ _ _ _ _) as [[[] | e] w']; simpl in *;
    [reflexivity | discriminate].
Qed.

(** X2. An activity that is counted never leaves the status at
    ['syncing']: when [handleActivityEvent] returns, [lastSyncStatus] is
    ['success'] or ['error'], [lastSyncAt] is the time the delivery ended
    and [lastSyncAttemptAt] the time it was started. *)
Theorem X2_counted_activity_ends_in_success_or_error
    (w : World) (payload platform mode' : Js.value) (env : ActivityEnv) :
  Js.truthy payload = true ->
  is_duplicate w (fingerprint_of (activityPayload_of payload platform mode'))
               (now_detect env) = false ->
  let w' := exec (handleActivityEvent payload platform mode' env) w in
  (lastSyncStatus (STATE w') = Js.Str "success"
   \/ lastSyncStatus (STATE w') = Js.Str "error")
  /\ lastSyncAt (STATE w') = Js.Str (iso_done env)
  /\ lastSyncAttemptAt (STATE w') = Some (iso_attempt env).
Proof.
  intros Hp Hfresh w'. unfold w'. rewrite fresh_delivery by assumption.
  set (w2 := at_delivery w payload platform mode' env).
  assert (Hattempt : forall w3,
             w3 = exec (sendActivityToBackend (activityPayload_of payload platform mode') env) w2 ->
             lastSyncAttemptAt (STATE w3) = Some (iso_attempt env)).
  { intros w3 ->.
    apply (preserves_send_fields (fun s => lastSyncAttemptAt s = Some (iso_attempt env))).
    - intros s b Hs. exact Hs.
    - intros s t Hs. exact Hs.
    - unfold on_STATE, w2. rewrite at_delivery_STATE. reflexivity. }
  destruct (sendActivityToBackend (activityPayload_of payload platform mode') env w2)
    as [[data | e] w3] eqn:Hsend.
  - rewrite (deliver_returned _ _ _ _ _ Hsend). simpl.
    split; [left; reflexivity |]. split; [reflexivity |].
    apply Hattempt. unfold exec. rewrite Hsend. reflexivity.
  - rewrite (deliver_thrown _ _ _ _ _ Hsend). simpl.
    split; [right; reflexivity |]. split; [reflexivity |].
    apply Hattempt. unfold exec. rewrite Hsend. reflexivity.
Qed.

(** X3. When the backend is marked unreachable and the probe made for the
    activity does not answer [ok], the activity ends with status ['error']
    and the backend still marked unreachable; no [POST] is issued, and the
    last thing the coordinator does is raise the sync-error
    notification. *)
Theorem X3_unreachable_backend_aborts_delivery
    (w : World) (payload platform mode' : Js.value) (env : ActivityEnv) :
  Js.truthy payload = true ->
  is_duplicate w (fingerprint_of (activityPayload_of payload platform mode'))
               (now_detect env) = false ->
  isBackendReachable (STATE w) = false ->
  probe_reply (probe env) <> Some true ->
  let w' := exec (handleActivityEvent payload platform mode' env) w in
  lastSyncStatus (STATE w') = Js.Str "error"
  /\ isBackendReachable (STATE w') = false
  /\ (exists added, effects w' = effects w ++ added /\ Forall not_POST added)
  /\ (exists before,
        effects w' = before ++ [Notification "CarbonLens Sync Error"
                                  "We could not sync the latest activity with CarbonLens backend."]).
Proof.
  intros Hp Hfresh Hdown Hreply w'. unfold w'.
  rewrite fresh_delivery by assumption.
  set (w2 := at_delivery w payload platform mode' env).
  assert (Hdown2 : isBackendReachable (STATE w2) = false).
  { unfold w2. rewrite at_delivery_STATE. exact Hdown. }
  destruct (send_unreachable (activityPayload_of payload platform mode') env w2
              Hdown2 Hreply) as (e & w3 & Hsend & Hdown3 & l3 & E3 & F3).
  split; [rewrite (deliver_thrown _ _ _ _ _ Hsend); reflexivity |].
  split; [rewrite (deliver_thrown _ _ _ _ _ Hsend); exact Hdown3 |].
  rewrite (deliver_thrown_run _ _ _ _ _ Hsend). split.
  - destruct (at_delivery_emits w payload platform mode' env) as (l2 & E2 & F2).
    fold w2 in E2.
    destruct (on_delivery_error_emits not_POST env
                (fun items url body => ltac:(discriminate))
                (fun m url body => ltac:(discriminate))
                (fun t m url body => ltac:(discriminate)) w3) as (l4 & E4 & F4).
    exists (l2 ++ l3 ++ l4). rewrite E4, E3, E2, <- !app_assoc.
    split; [reflexivity |]. repeat (apply Forall_app; split); assumption.
  - apply on_delivery_error_ends_with_notification.
Qed.

End ActivityOutcomes.

Section AcceptedPost.
Context `{Host}.

Lemma lookup_set_field_eq k v fs : Js.lookup_field k (Js.set_field k v fs) = v.
Proof.
  induction fs as [| [k0 v0] fs IH]; simpl.
  - rewrite String.eqb_refl. reflexivity.
  - destruct (String.eqb k k0) eqn:E; simpl.
    + rewrite String.eqb_refl. reflexivity.
    + rewrite E. exact IH.
Qed.

Lemma lookup_set_field_ne k k' v fs :
  k <> k' -> Js.lookup_field k (Js.set_field k' v fs) = Js.lookup_field k fs.
Proof.
  intros Hne. apply String.eqb_neq in Hne.
  induction fs as [| [k0 v0] fs IH]; simpl.
  - rewrite Hne. reflexivity.
  - destruct (String.eqb k' k0) eqn:E; simpl.
    + apply String.eqb_eq in E. subst k0. rewrite Hne. reflexivity.
    + destruct (String.eqb k k0); [reflexivity | exact IH].
Qed.

(** X4. The object posted to the backend is the event with three
    properties set on top: [platform], [mode] and [extensionVersion] hold
    the handler's arguments and the manifest version, also when the event
    carried properties of those names, and every other property reads as
    in the event. *)
Theorem X4_activityPayload_is_event_plus_three (payload platform mode' : Js.value) :
  let activityPayload := activityPayload_of payload platform mode' in
  Js.lookup_field "platform" activityPayload = platform
  /\ Js.lookup_field "mode" activityPayload = mode'
  /\ Js.lookup_field "extensionVersion" activityPayload = Js.Str manifest_version
  /\ forall k, k <> "platform" -> k <> "mode" -> k <> "extensionVersion" ->
       Js.lookup_field k activityPayload = Js.lookup_field k (Js.own_props payload).
Proof.
  unfold activityPayload_of. cbv zeta. repeat split.
  - rewrite !lookup_set_field_ne by discriminate. apply lookup_set_field_eq.
  - rewrite lookup_set_field_ne by discriminate. apply lookup_set_field_eq.
  - apply lookup_set_field_eq.
  - intros k H1 H2 H3. rewrite !lookup_set_field_ne by assumption. reflexivity.
Qed.

(** A reply of the backend that the coordinator takes as success. *)
Definition accepted (reply : post_reply) : Prop :=
  exists status statusText data,
    reply = PostJson true status statusText data
    /\ member_opt data "success" <> Js.Bool false.

Lemma send_accepted activityPayload env w url :
  isBackendReachable (STATE w) = true ->
  checked_before (lastHealthCheck (STATE w)) (now_send env) (5 * 60 * 1000) = false ->
  backendBaseUrl (STATE w) <> "" ->
  URL_new_base API_ENDPOINTS.activity (backendBaseUrl (STATE w)) = Some url ->
  accepted (post env) ->
  exists data,
    sendActivityToBackend activityPayload env w
    = (Ok data, with_effect (Fetch "POST" (URL_toString url)
                               (Some (Js.Obj activityPayload))) w).
Proof.
  intros Hup Hrecent Hbase Hurl (status & statusText & data & Hpost & Hok).
  exists data. unfold sendActivityToBackend.
  unfold mbind, M_bind, gets, throw, emit, modify, mret, M_ret. simpl.
  apply String.eqb_neq in Hbase. rewrite Hbase, Hup, Hrecent. simpl.
  rewrite Hurl, Hpost. simpl.
  destruct (member_opt data "success") as [| | | [|] | | | |]; try reflexivity.
  congruence.
Qed.

(** X5. With the backend marked reachable and probed less than five
    minutes ago (or never), an accepted reply to the [POST] ends the
    activity with status ['success'], and the one request issued is the
    [POST] of the event plus [platform], [mode] and [extensionVersion] to
    [/api/activities/log] under the configured base; no health probe is
    made. *)
Theorem X5_accepted_post_ends_in_success
    (w : World) (payload platform mode' : Js.value) (env : ActivityEnv) (url : URL) :
  Js.truthy payload = true ->
  is_duplicate w (fingerprint_of (activityPayload_of payload platform mode'))
               (now_detect env) = false ->
  isBackendReachable (STATE w) = true ->
  checked_before (lastHealthCheck (STATE w)) (now_send env) (5 * 60 * 1000) = false ->
  backendBaseUrl (STATE w) <> "" ->
  URL_new_base API_ENDPOINTS.activity (backendBaseUrl (STATE w)) = Some url ->
  accepted (post env) ->
  let w' := exec (handleActivityEvent payload platform mode' env) w in
  lastSyncStatus (STATE w') = Js.Str "success"
  /\ lastHealthCheck (STATE w') = lastHealthCheck (STATE w)
  /\ exists before after,
       effects w' = effects w ++ before
                    ++ [Fetch "POST" (URL_toString url)
                          (Some (Js.Obj (activityPayload_of payload platform mode')))]
                    ++ after
       /\ Forall (fun e => forall m u b, e <> Fetch m u b) (before ++ after).
Proof.
  intros Hp Hfresh Hup Hrecent Hbase Hurl Hacc w'. unfold w'.
  rewrite fresh_delivery by assumption.
  set (w2 := at_delivery w payload platform mode' env).
  assert (E2 : STATE w2 = set_lastSyncAttemptAt (Some (iso_attempt env))
      (set_lastSyncStatus (Js.Str "syncing")
         (set_totalActivitiesTracked (Js.add_one (totalActivitiesTracked (STATE w)))
            (STATE w)))) by apply at_delivery_STATE.
  destruct (send_accepted (activityPayload_of payload platform mode') env w2 url)
    as [data Hsend]; [rewrite E2; exact Hup | rewrite E2; exact Hrecent
                     | rewrite E2; exact Hbase | rewrite E2; exact Hurl | exact Hacc |].
  split; [rewrite (deliver_returned _ _ _ _ _ Hsend); reflexivity |].
  split; [rewrite (deliver_returned _ _ _ _ _ Hsend); simpl; rewrite E2; reflexivity |].
  set (quiet := fun e : effect => forall m u b, e <> Fetch m u b).
  destruct (emits_only_count_detected quiet
              (fun items m u b => ltac:(discriminate))
              (with_dedupe (fingerprint_of (activityPayload_of payload platform mode'))
                 (now_detect env) w)) as (l1 & E1 & F1).
  destruct (emits_only_mark_syncing quiet payload platform env
              (fun items m u b => ltac:(discriminate))
              (fun m0 m u b => ltac:(discriminate))
              (fun t m0 m u b => ltac:(discriminate))
              (exec count_detected
                 (with_dedupe (fingerprint_of (activityPayload_of payload platform mode'))
                    (now_detect env) w))) as (l2 & El2 & F2).
  change (exec (mark_syncing payload platform env) _) with w2 in El2.
  assert (Hrest : emits_only quiet
            (assign (fun s => set_lastSyncAt (Js.Str (iso_done env))
                                (set_lastSyncStatus (Js.Str "success") s));;
             persistState ["lastSyncStatus"; "lastSyncAt"];;
             broadcast_STATE_UPDATED)).
  { apply emits_only_bind; [apply emits_only_silent; reflexivity | intros _].
    apply emits_only_bind; [apply emits_only_persistState | intros _].
    - intros items m u b. discriminate.
    - apply emits_only_broadcast. intros m0 m u b. discriminate. }
  destruct (Hrest (with_effect (Fetch "POST" (URL_toString url)
                     (Some (Js.Obj (activityPayload_of payload platform mode')))) w2))
    as (l3 & E3 & F3).
  exists (l1 ++ l2), l3. split.
  - unfold deliver, exec at 1, try_catch. unfold mbind at 1, M_bind at 1.
    rewrite Hsend.
    destruct (stamp_then_publish "success" env
                (with_effect (Fetch "POST" (URL_toString url)
                   (Some (Js.Obj (activityPayload_of payload platform mode')))) w2))
      as [Hret _]. cbv zeta in Hret.
    unfold exec in E3.
    destruct ((assign _ ≫= _) (with_effect _ w2)) as [[[] | e] w4]; simpl in *;
      [| discriminate].
    rewrite E3, El2, E1, <- !app_assoc. reflexivity.
  - repeat (apply Forall_app; split); assumption.
Qed.

End AcceptedPost.

Section DedupeWindow.
Context `{Host}.

Lemma counted_then_other w payload platform mode' env v fp now n :
  counted v fp now w ->
  v = Js.Num n ->
  Js.truthy payload = true ->
  fingerprint_of (activityPayload_of payload platform mode') <> fp
  \/ 2000 <= now_detect env - now ->
  counted (Js.Num (n + 1)) (fingerprint_of (activityPayload_of payload platform mode'))
          (now_detect env) (exec (handleActivityEvent payload platform mode' env) w).
Proof.
  intros (Ht & _ & Hf & Ha) -> Hp Hother.
  apply fresh_activity_counted; [exact Hp | exact Ht |].
  unfold is_duplicate. rewrite Hf, Ha.
  destruct Hother as [Hne | Hlate].
  - apply String.eqb_neq in Hne. rewrite Hne, andb_false_r. reflexivity.
  - assert (E : (now_detect env - now <? 2000) = false) by (apply Z.ltb_ge; exact Hlate).
    rewrite E. apply andb_false_r.
Qed.

(** X6. The dedupe check remembers one fingerprint only, the last one
    accepted: an activity that returns after a different one was accepted
    in between is counted again, however close in time the three are. *)
Theorem X6_interleaved_duplicate_is_counted
    (w : World) (a b platform_a platform_b mode_a mode_b : Js.value)
    (env1 env2 env3 : ActivityEnv) (n : Z) :
  Js.truthy a = true ->
  Js.truthy b = true ->
  totalActivitiesTracked (STATE w) = Js.Num n ->
  fingerprint_of (activityPayload_of a platform_a mode_a)
  <> fingerprint_of (activityPayload_of b platform_b mode_b) ->
  is_duplicate w (fingerprint_of (activityPayload_of a platform_a mode_a))
               (now_detect env1) = false ->
  let w1 := exec (handleActivityEvent a platform_a mode_a env1) w in
  let w2 := exec (handleActivityEvent b platform_b mode_b env2) w1 in
  let w3 := exec (handleActivityEvent a platform_a mode_a env3) w2 in
  totalActivitiesTracked (STATE w3) = Js.Num (n + 3).
Proof.
  intros Ha Hb Hn Hne Hfresh w1 w2 w3.
  pose proof (fresh_activity_counted w a platform_a mode_a env1 n Ha Hn Hfresh) as C1.
  fold w1 in C1.
  pose proof (counted_then_other w1 b platform_b mode_b env2 _ _ _ (n + 1) C1 eq_refl Hb
                (or_introl (fun E => Hne (eq_sym E)))) as C2.
  fold w2 in C2.
  pose proof (counted_then_other w2 a platform_a mode_a env3 _ _ _ (n + 1 + 1) C2 eq_refl Ha
                (or_introl Hne)) as C3.
  fold w3 in C3. destruct C3 as [C3 _]. rewrite C3. f_equal. lia.
Qed.

(** X7. Outside the window the same activity is accepted as a new one:
    repeated 2000 ms or more after it was accepted, it is counted a second
    time. *)
Theorem X7_repetition_after_window_is_counted
    (w : World) (payload platform mode' : Js.value) (env1 env2 : ActivityEnv) (n : Z) :
  Js.truthy payload = true ->
  totalActivitiesTracked (STATE w) = Js.Num n ->
  is_duplicate w (fingerprint_of (activityPayload_of payload platform mode'))
               (now_detect env1) = false ->
  2000 <= now_detect env2 - now_detect env1 ->
  let w1 := exec (handleActivityEvent payload platform mode' env1) w in
  let w2 := exec (handleActivityEvent payload platform mode' env2) w1 in
  totalActivitiesTracked (STATE w2) = Js.Num (n + 2)
  /\ storage w2 !! "totalActivitiesTracked" = Some (Js.Num (n + 2)).
Proof.
  intros Hp Hn Hfresh Hlate w1 w2.
  pose proof (fresh_activity_counted w payload platform mode' env1 n Hp Hn Hfresh) as C1.
  fold w1 in C1.
  pose proof (counted_then_other w1 payload platform mode' env2 _ _ _ (n + 1) C1 eq_refl Hp
                (or_intror Hlate)) as C2.
  fold w2 in C2. destruct C2 as (C2 & S2 & _).
  replace (n + 2) with (n + 1 + 1) by lia. split; assumption.
Qed.

End DedupeWindow.

(** ** The health probe *)

Section HealthProbe.
Context `{Host}.

Lemma health_probe_run (w : World) (force : bool) (env : ProbeEnv) (url : URL) :
  force = true \/ checked_within (lastHealthCheck (STATE w)) (probe_now env) 60000 = false ->
  URL_new_base API_ENDPOINTS.health (backendBaseUrl (STATE w)) = Some url ->
  performHealthCheck force env w
  = (Ok (default false (probe_reply env)),
     with_STATE (fun s => set_lastHealthCheck (Some (probe_now env))
                            (set_isBackendReachable (default false (probe_reply env)) s))
       (with_effect (Fetch "GET" (URL_toString url) None) w)).
Proof.
  intros Hdue Hurl. unfold performHealthCheck.
  unfold mbind, M_bind, gets, emit, assign, modify. simpl.
  assert (E : negb force && checked_within (lastHealthCheck (STATE w)) (probe_now env) 60000
              = false).
  { destruct Hdue as [-> | ->]; [reflexivity | apply andb_false_r]. }
  rewrite E, Hurl. destruct w as [[m b r h ss sa t at_] lf la rdy st eff]. reflexivity.
Qed.

(** X8. The health check is memoized for 60 s. A check that probes (it is
    forced, or none was made in the last 60 s) requests [/api/health] once
    and records the outcome and the time; an unforced check that follows
    less than 60 s later returns that recorded outcome and does nothing,
    not even a request. *)
Theorem X8_health_check_is_memoized
    (w : World) (force : bool) (env1 env2 : ProbeEnv) (url : URL) :
  force = true \/ checked_within (lastHealthCheck (STATE w)) (probe_now env1) 60000 = false ->
  URL_new_base API_ENDPOINTS.health (backendBaseUrl (STATE w)) = Some url ->
  probe_now env1 <> 0 ->
  probe_now env2 - probe_now env1 < 60000 ->
  let reachable := default false (probe_reply env1) in
  let w1 := exec (performHealthCheck force env1) w in
  fst (performHealthCheck force env1 w) = Ok reachable
  /\ isBackendReachable (STATE w1) = reachable
  /\ lastHealthCheck (STATE w1) = Some (probe_now env1)
  /\ effects w1 = effects w ++ [Fetch "GET" (URL_toString url) None]
  /\ performHealthCheck false env2 w1 = (Ok reachable, w1).
Proof.
  intros Hdue Hurl Hnz Hrecent reachable w1. unfold w1, exec.
  rewrite (health_probe_run w force env1 url Hdue Hurl). simpl.
  repeat split.
  unfold performHealthCheck, mbind, M_bind, gets. simpl.
  apply Z.eqb_neq in Hnz. rewrite Hnz. simpl.
  apply Z.ltb_lt in Hrecent. rewrite Hrecent. reflexivity.
Qed.

End HealthProbe.

(** ** More on the offline queue *)

Section DrainOutcomes.
Context `{Host}.

Lemma processPendingActivities_run envs w :
  processPendingActivities envs w = drain envs (getPendingActivities (storage w)) w.
Proof. reflexivity. Qed.

Lemma drain_all envs items :
  forall w,
    Forall (fun item => nullish item = false) items ->
    drain envs items w = (Ok tt, handled_in_order envs items [] w).
Proof.
  revert envs. induction items as [| item items IH]; intros envs w Hall.
  - reflexivity.
  - inversion Hall as [| ? ? Hitem Hrest]; subst.
    rewrite drain_continues by exact Hitem.
    rewrite IH by exact Hrest. simpl. rewrite app_nil_r. reflexivity.
Qed.

(** X9. A drain over a queue without [null] or [undefined] entries
    empties the persisted queue, whatever the backend answers for each
    item: an item whose delivery fails is struck from the queue like one
    whose delivery succeeds. *)
Theorem X9_drain_empties_queue_also_on_failed_delivery
    (w : World) (envs : nat -> ActivityEnv) (item : Js.value) (items : list Js.value) :
  storage w !! "pendingActivities" = Some (Js.Arr (item :: items)) ->
  Forall (fun i => nullish i = false) (item :: items) ->
  processPendingActivities envs w
  = (Ok tt, handled_in_order envs (item :: items) [] w)
  /\ storage (exec (processPendingActivities envs) w) !! "pendingActivities"
     = Some (Js.Arr []).
Proof.
  intros Hq Hall.
  assert (Hrun : processPendingActivities envs w
                 = (Ok tt, handled_in_order envs (item :: items) [] w)).
  { rewrite processPendingActivities_run.
    unfold getPendingActivities. rewrite Hq. apply drain_all, Hall. }
  split; [exact Hrun |].
  unfold exec. rewrite Hrun.
  apply (handled_in_order_stored envs (item :: items) [] w).
  rewrite app_nil_r. exact Hq.
Qed.

(** The fingerprint reads the event only: the platform and mode the
    handler is called with do not enter it. *)
Lemma fingerprint_of_event payload platform mode' :
  fingerprint_of (activityPayload_of payload platform mode')
  = fingerprint_of (Js.own_props payload).
Proof.
  unfold fingerprint_of, activityPayload_of.
  rewrite !lookup_set_field_ne by discriminate. reflexivity.
Qed.

Lemma handle_item_run item payload platform env w :
  member item "payload" = Ok payload ->
  member item "platform" = Ok platform ->
  handle_item item env w
  = handleActivityEvent payload platform (Js.Str (mode (STATE w))) env w.
Proof.
  intros Hp Hpl. unfold handle_item. rewrite Hp, Hpl. reflexivity.
Qed.

Lemma counted_setPendingActivities v fp now items w :
  counted v fp now w -> counted v fp now (exec (setPendingActivities items) w).
Proof.
  intros (Ht & Hs & Hf & Ha).
  unfold setPendingActivities, exec, mbind, M_bind, modify, emit. simpl.
  repeat split; try assumption.
  unfold storage_set. simpl. rewrite lookup_insert_ne by discriminate. exact Hs.
Qed.

(** X10. Two queued copies of one event are counted once when the drain
    reaches the second less than 2000 ms after the first: the second copy
    is struck from the queue without being counted or sent. *)
Theorem X10_drain_merges_queued_duplicates
    (w : World) (envs : nat -> ActivityEnv) (item payload platform : Js.value) (n : Z) :
  storage w !! "pendingActivities" = Some (Js.Arr [item; item]) ->
  member item "payload" = Ok payload ->
  member item "platform" = Ok platform ->
  Js.truthy payload = true ->
  totalActivitiesTracked (STATE w) = Js.Num n ->
  is_duplicate w (fingerprint_of (Js.own_props payload)) (now_detect (envs 0%nat)) = false ->
  now_detect (envs 1%nat) - now_detect (envs 0%nat) < 2000 ->
  let w' := exec (processPendingActivities envs) w in
  totalActivitiesTracked (STATE w') = Js.Num (n + 1)
  /\ storage w' !! "pendingActivities" = Some (Js.Arr []).
Proof.
  intros Hq Hp Hpl Htruthy Hn Hfresh Hwin w'.
  assert (Hnn : nullish item = false).
  { destruct item; try reflexivity; discriminate. }
  assert (Hrun : processPendingActivities envs w
                 = (Ok tt, handled_in_order envs [item; item] [] w)).
  { rewrite processPendingActivities_run.
    unfold getPendingActivities. rewrite Hq. apply drain_all. repeat constructor; exact Hnn. }
  unfold w', exec. rewrite Hrun.
  change (snd (Ok tt, handled_in_order envs [item; item] [] w))
    with (exec (setPendingActivities [])
            (exec (handle_item item (envs 1%nat))
               (exec (setPendingActivities [item])
                  (exec (handle_item item (envs 0%nat)) w)))).
  unfold exec at 2 4.
  rewrite !(handle_item_run item payload platform) by assumption.
  fold (exec (handleActivityEvent payload platform (Js.Str (mode (STATE w)))
                     (envs 0%nat)) w).
  set (w1 := exec (handleActivityEvent payload platform (Js.Str (mode (STATE w)))
                     (envs 0%nat)) w).
  assert (C1 : counted (Js.Num (n + 1)) (fingerprint_of (Js.own_props payload))
                 (now_detect (envs 0%nat)) w1).
  { rewrite <- (fingerprint_of_event payload platform (Js.Str (mode (STATE w)))).
    apply fresh_activity_counted; [exact Htruthy | exact Hn |].
    rewrite fingerprint_of_event. exact Hfresh. }
  apply (counted_setPendingActivities _ _ _ [item]) in C1.
  set (w2 := exec (setPendingActivities [item]) w1) in *.
  assert (Habsorbed : handleActivityEvent payload platform (Js.Str (mode (STATE w2)))
                        (envs 1%nat) w2 = (Ok tt, w2)).
  { eapply repeated_activity_absorbed; [exact Htruthy | | exact Hwin].
    rewrite fingerprint_of_event. exact C1. }
  rewrite Habsorbed. cbn [snd].
  split; [apply (counted_setPendingActivities _ _ _ []) in C1; apply C1 |].
  apply setPendingActivities_stored.
Qed.

End DrainOutcomes.

(** ** More on the mutators *)

Section MutatorOutcomes.
Context `{Host}.

(** ['silent'] when the request is exactly that string, ['awareness'] for
    anything else. *)
Definition validated (next : Js.value) : string :=
  if Js.is_str next "silent" then "silent" else "awareness".

Lemma setMode_same next showNotification w :
  mode (STATE w) = validated next ->
  setMode next showNotification w = (Ok tt, w).
Proof.
  intros Hsame. unfold setMode. cbv zeta. fold (validated next).
  unfold mbind at 1, M_bind at 1, gets. rewrite Hsame, String.eqb_refl. reflexivity.
Qed.

Lemma effects_only_STATE l w :
  STATE (fold_left (fun w e => with_effect e w) l w) = STATE w.
Proof.
  revert w. induction l as [| e l IH]; intros w; [reflexivity |].
  simpl. rewrite IH. reflexivity.
Qed.

Lemma effects_only_storage l w :
  storage (fold_left (fun w e => with_effect e w) l w) = storage w.
Proof.
  revert w. induction l as [| e l IH]; intros w; [reflexivity |].
  simpl. rewrite IH. reflexivity.
Qed.

Lemma effects_only_effects l w :
  effects (fold_left (fun w e => with_effect e w) l w) = effects w ++ l.
Proof.
  revert w. induction l as [| e l IH]; intros w; [symmetry; apply app_nil_r |].
  simpl. rewrite IH. simpl. rewrite <- app_assoc. reflexivity.
Qed.

Definition mode_notifications (validatedMode : string) (showNotification : bool)
  : list effect :=
  if showNotification
  then [if String.eqb validatedMode "awareness"
        then Notification "CarbonLens Awareness Mode"
                          "Real-time tips and notifications are active."
        else Notification "CarbonLens Silent Mode"
                          "Tracking continues quietly without pop-up nudges."]
  else [].

Lemma setMode_changed next showNotification w :
  mode (STATE w) <> validated next ->
  exec (setMode next showNotification) w
  = fold_left (fun w e => with_effect e w)
      ([StorageSet [("mode", Js.Str (validated next))];
        SetIcon (validated next);
        TabsSendMessage
          (Js.Obj [("source", Js.Str "carbonlens-background");
                   ("type", Js.Str "UPDATE_MODE");
                   ("payload", Js.Obj [("mode", Js.Str (validated next))])])]
       ++ mode_notifications (validated next) showNotification)
      (with_storage (storage_set [("mode", Js.Str (validated next))])
         (with_STATE (set_mode (validated next)) w)).
Proof.
  intros Hdiff. apply String.eqb_neq in Hdiff.
  unfold setMode, exec. cbv zeta. fold (validated next).
  unfold mbind at 1, M_bind at 1, gets. rewrite Hdiff.
  destruct w as [[m b r h ss sa t at_] lf la rdy st eff].
  unfold validated in *.
  destruct (Js.is_str next "silent"), showNotification; reflexivity.
Qed.

(** X11. [setMode] leaves [mode] at ['silent'] when asked for exactly that
    string and at ['awareness'] for any other request. When that is
    already the mode the call does nothing at all; otherwise the new mode
    is persisted under the key [mode] and sent to the open mail tabs as
    [UPDATE_MODE]. *)
Theorem X11_setMode_validates_persists_and_broadcasts
    (w : World) (next : Js.value) (showNotification : bool) :
  let w' := exec (setMode next showNotification) w in
  mode (STATE w') = validated next
  /\ (mode (STATE w) = validated next -> w' = w)
  /\ (mode (STATE w) <> validated next ->
      storage w' !! "mode" = Some (Js.Str (validated next))
      /\ TabsSendMessage
           (Js.Obj [("source", Js.Str "carbonlens-background");
                    ("type", Js.Str "UPDATE_MODE");
                    ("payload", Js.Obj [("mode", Js.Str (validated next))])])
         ∈ effects w').
Proof.
  intros w'. unfold w'.
  destruct (String.eqb (mode (STATE w)) (validated next)) eqn:E.
  - apply String.eqb_eq in E. unfold exec. rewrite (setMode_same _ _ _ E).
    split; [exact E |]. split; [reflexivity | intros Hd; contradiction].
  - apply String.eqb_neq in E.
    rewrite (setMode_changed next showNotification w E).
    split; [| split; [intros Hs; contradiction | intros _; split]].
    + rewrite effects_only_STATE. reflexivity.
    + rewrite effects_only_storage. simpl. apply lookup_insert_eq.
    + rewrite effects_only_effects. apply elem_of_app. right.
      apply elem_of_app. left.
      apply elem_of_cons. right. apply elem_of_cons. right.
      apply elem_of_cons. left. reflexivity.
Qed.

Lemma onClicked_mode w :
  mode (STATE (exec onClicked w))
  = if String.eqb (mode (STATE w)) "awareness" then "silent" else "awareness".
Proof.
  unfold onClicked, exec. unfold mbind at 1, M_bind at 1, gets.
  set (next := Js.Str (if String.eqb (mode (STATE w)) "awareness"
                       then "silent" else "awareness")).
  assert (Hv : validated next
               = if String.eqb (mode (STATE w)) "awareness"
                 then "silent" else "awareness").
  { unfold validated, next.
    destruct (String.eqb (mode (STATE w)) "awareness"); reflexivity. }
  destruct (String.eqb (mode (STATE w)) (validated next)) eqn:E.
  - apply String.eqb_eq in E. rewrite (setMode_same _ _ _ E). simpl.
    rewrite <- Hv. exact E.
  - apply String.eqb_neq in E.
    pose proof (setMode_changed next true w E) as Hrun.
    unfold exec in Hrun. rewrite Hrun, effects_only_STATE. simpl. exact Hv.
Qed.

(** X12. The toolbar button toggles the mode: one click turns
    ['awareness'] into ['silent'] and anything else into ['awareness'];
    from either of the two modes a second click restores the first. *)
Theorem X12_toolbar_click_toggles_mode (w : World) :
  mode (STATE w) = "awareness" \/ mode (STATE w) = "silent" ->
  mode (STATE (exec onClicked w)) <> mode (STATE w)
  /\ mode (STATE (exec onClicked (exec onClicked w))) = mode (STATE w).
Proof.
  intros Hmode. rewrite !onClicked_mode.
  destruct Hmode as [-> | ->]; split; try reflexivity; discriminate.
Qed.

End MutatorOutcomes.

(** ** Restarts of the service worker *)

Section Restart.
Context `{Host}.

(** The ending of a delivery whose [POST] was accepted. *)
Definition on_delivery_success (env : ActivityEnv) : M unit :=
  assign (fun s => set_lastSyncAt (Js.Str (iso_done env))
                     (set_lastSyncStatus (Js.Str "success") s));;
  persistState ["lastSyncStatus"; "lastSyncAt"];;
  broadcast_STATE_UPDATED.

Lemma deliver_returned_run activityPayload env w data w1 :
  sendActivityToBackend activityPayload env w = (Ok data, w1) ->
  exec (deliver activityPayload env) w = exec (on_delivery_success env) w1.
Proof.
  intros Hsend. unfold deliver, exec, try_catch.
  unfold mbind at 1, M_bind at 1. rewrite Hsend.
  destruct (stamp_then_publish "success" env w1) as [Hret _].
  cbv zeta in Hret. unfold on_delivery_success.
  destruct ((assign _ ≫= _) w1) as [[[] | e] w2]; simpl in *;
    [reflexivity | discriminate].
Qed.

(** Both endings persist the status and the time they wrote. *)
Lemma stamp_stored (status : string) (env : ActivityEnv) (w : World) :
  let c := assign (fun s => set_lastSyncAt (Js.Str (iso_done env))
                              (set_lastSyncStatus (Js.Str status) s));;
           persistState ["lastSyncStatus"; "lastSyncAt"];;
           broadcast_STATE_UPDATED in
  storage (exec c w)
  = storage_set [("lastSyncStatus", Js.Str status);
                 ("lastSyncAt", Js.Str (iso_done env))] (storage w).
Proof.
  destruct w as [[m b r h ss sa t at_] lf la rdy st eff]. reflexivity.
Qed.

Lemma stamp_lookups (status iso : string) (store : gmap string Js.value) :
  let store' := storage_set [("lastSyncStatus", Js.Str status);
                             ("lastSyncAt", Js.Str iso)] store in
  store' !! "lastSyncStatus" = Some (Js.Str status)
  /\ store' !! "lastSyncAt" = Some (Js.Str iso).
Proof.
  unfold storage_set. simpl. split.
  - rewrite lookup_insert_ne by discriminate. apply lookup_insert_eq.
  - apply lookup_insert_eq.
Qed.

(** The sync fields in [STATE] and in the store once a delivery is over. *)
Definition sync_persisted (env : ActivityEnv) (w : World) : Prop :=
  (lastSyncStatus (STATE w) = Js.Str "success"
   \/ lastSyncStatus (STATE w) = Js.Str "error")
  /\ storage w !! "lastSyncStatus" = Some (lastSyncStatus (STATE w))
  /\ lastSyncAt (STATE w) = Js.Str (iso_done env)
  /\ storage w !! "lastSyncAt" = Some (Js.Str (iso_done env)).

Lemma deliver_persists activityPayload env w :
  sync_persisted env (exec (deliver activityPayload env) w).
Proof.
  unfold sync_persisted.
  destruct (sendActivityToBackend activityPayload env w) as [[data | e] w1] eqn:Hsend.
  - rewrite (deliver_returned _ _ _ _ _ Hsend).
    rewrite (deliver_returned_run _ _ _ _ _ Hsend). unfold on_delivery_success.
    pose proof (stamp_stored "success" env w1) as Hst. cbv zeta in Hst. rewrite Hst.
    destruct (stamp_lookups "success" (iso_done env) (storage w1)) as [L1 L2].
    simpl. repeat split; [left; reflexivity | exact L1 | exact L2].
  - rewrite (deliver_thrown _ _ _ _ _ Hsend).
    rewrite (deliver_thrown_run _ _ _ _ _ Hsend). unfold on_delivery_error.
    assert (Hst : storage (exec (assign (fun s => set_lastSyncAt (Js.Str (iso_done env))
                              (set_lastSyncStatus (Js.Str "error") s));;
           persistState ["lastSyncStatus"; "lastSyncAt"];;
           broadcast_STATE_UPDATED;;
           emit (Notification "CarbonLens Sync Error"
          "We could not sync the latest activity with CarbonLens backend.")) w1)
         = storage_set [("lastSyncStatus", Js.Str "error");
                 ("lastSyncAt", Js.Str (iso_done env))] (storage w1)).
    { destruct w1 as [[m b r h ss sa t at_] lf la rdy st eff]. reflexivity. }
    rewrite Hst.
    destruct (stamp_lookups "error" (iso_done env) (storage w1)) as [L1 L2].
    simpl. repeat split; [right; reflexivity | exact L1 | exact L2].
Qed.

(** A key of the store that [handleActivityEvent] never writes. *)
Definition untouched_key (key : string) : Prop :=
  key ∉ ["lastSyncStatus"; "lastSyncAt"; "lastSyncAttemptAt"; "totalActivitiesTracked"].

Lemma stored_activity_frame (key : string) (o : option Js.value) :
  untouched_key key -> activity_frame (fun w => storage w !! key = o).
Proof.
  intros Hk.
  assert (F : forall keys, (forall k, k ∈ keys -> k <> key) ->
                           framed_by keys (fun w => storage w !! key = o)).
  { intros keys Hkeys. split; [intros e w Hw; exact Hw |].
    intros items w Hsub Hw. simpl. rewrite storage_set_lookup_ne; [exact Hw |].
    intros Hin. apply (Hkeys key); [apply Hsub, Hin | reflexivity]. }
  assert (Hne : forall k, k ∈ ["lastSyncStatus"; "lastSyncAt"; "lastSyncAttemptAt";
                               "totalActivitiesTracked"] -> k <> key).
  { intros k Hin ->. exact (Hk Hin). }
  split; [split | ..]; try (intros; intros w Hw; exact Hw).
  - apply F. intros k Hin. apply Hne. unfold sync_keys in Hin.
    repeat (apply elem_of_cons in Hin as [-> | Hin]; [in_list |]). inversion Hin.
  - apply F. intros k Hin. apply Hne.
    repeat (apply elem_of_cons in Hin as [-> | Hin]; [in_list |]). inversion Hin.
  - intros fp t w Hw. exact Hw.
Qed.

(** The world [initializeState] reaches, from a cold start, at the point
    where it starts on the pending queue. *)
Definition rehydrated (store : gmap string Js.value) (sanitized : option string)
    (url : URL) (boot : ProbeEnv) : World :=
  let data := stored store in
  let m := if Js.is_str (data "mode") "silent" then "silent" else "awareness" in
  {| STATE :=
       {| mode := m;
          backendBaseUrl := default DEFAULT_BACKEND_BASE_URL (usable sanitized);
          isBackendReachable := default false (probe_reply boot);
          lastHealthCheck := Some (probe_now boot);
          lastSyncStatus := Js.or (data "lastSyncStatus") (Js.Str "idle");
          lastSyncAt := Js.or (data "lastSyncAt") Js.Null;
          totalActivitiesTracked := Js.or (data "totalActivitiesTracked") (Js.Num 0);
          lastSyncAttemptAt := None |};
     _lastActivityFingerprint := None;
     _lastActivityAt := 0;
     stateReady := true;
     storage := store;
     effects := [Fetch "GET" (URL_toString url) None;
                 SetIcon m;
                 TabsSendMessage
                   (Js.Obj [("source", Js.Str "carbonlens-background");
                            ("type", Js.Str "UPDATE_MODE");
                            ("payload", Js.Obj [("mode", Js.Str m)])])] |}.

Lemma initializeState_run store boot envs sanitized url :
  sanitizeBaseUrl (stored store "backendBaseUrl") = Ok sanitized ->
  URL_new_base API_ENDPOINTS.health
    (default DEFAULT_BACKEND_BASE_URL (usable sanitized)) = Some url ->
  initializeState boot envs (cold_start store)
  = processPendingActivities envs (rehydrated store sanitized url boot).
Proof.
  intros Hs Hurl. rewrite initializeState_unfold. cbv zeta.
  change (storage (cold_start store)) with store. rewrite Hs.
  cbv beta iota delta [mbind M_bind assign modify lift mret M_ret].
  erewrite health_probe_run; [| right; reflexivity | exact Hurl].
  cbv beta iota delta [updateExtensionIcon broadcastMode gets emit modify
                        mbind M_bind mret M_ret].
  unfold rehydrated. cbv zeta.
  destruct (Js.is_str (stored store "mode") "silent"); reflexivity.
Qed.

(** X13. What a counted activity persisted survives a restart of the
    service worker: rehydrating a cold worker from the store the activity
    left behind yields the same counter, the same sync status and the same
    sync time, and the worker becomes ready. The stored address must be
    readable and usable as a base for the health URL, and the queue of
    pending activities empty. *)
Theorem X13_counted_activity_survives_restart
    (w : World) (payload platform mode' : Js.value) (env : ActivityEnv)
    (boot : ProbeEnv) (envs : nat -> ActivityEnv)
    (n : Z) (sanitized : option string) (url : URL) :
  Js.truthy payload = true ->
  is_duplicate w (fingerprint_of (activityPayload_of payload platform mode'))
               (now_detect env) = false ->
  totalActivitiesTracked (STATE w) = Js.Num n ->
  iso_done env <> "" ->
  sanitizeBaseUrl (stored (storage w) "backendBaseUrl") = Ok sanitized ->
  URL_new_base API_ENDPOINTS.health
    (default DEFAULT_BACKEND_BASE_URL (usable sanitized)) = Some url ->
  getPendingActivities (storage w) = [] ->
  let w' := exec (handleActivityEvent payload platform mode' env) w in
  let restarted := exec (initializeState boot envs) (cold_start (storage w')) in
  stateReady restarted = true
  /\ totalActivitiesTracked (STATE restarted) = Js.Num (n + 1)
  /\ totalActivitiesTracked (STATE restarted) = totalActivitiesTracked (STATE w')
  /\ lastSyncStatus (STATE restarted) = lastSyncStatus (STATE w')
  /\ lastSyncAt (STATE restarted) = lastSyncAt (STATE w').
Proof.
  intros Hp Hfresh Hn Hiso Hs Hurl Hq w' restarted.
  pose proof (fresh_activity_counted w payload platform mode' env n Hp Hn Hfresh)
    as (Ct & Cs & _). fold w' in Ct, Cs.
  assert (D : sync_persisted env w').
  { unfold w'. rewrite handleActivityEvent_fresh by assumption. apply deliver_persists. }
  destruct D as (Dstatus & Dstored & Dat & Datstored).
  assert (Kb : storage w' !! "backendBaseUrl" = storage w !! "backendBaseUrl").
  { apply (preserves_handleActivityEvent _ payload platform mode' env
             (stored_activity_frame "backendBaseUrl" (storage w !! "backendBaseUrl")
                ltac:(unfold untouched_key; intros Hin;
                      repeat (apply elem_of_cons in Hin as [Hin | Hin]; [discriminate |]);
                      inversion Hin))).
    reflexivity. }
  assert (Kq : storage w' !! "pendingActivities" = storage w !! "pendingActivities").
  { apply (preserves_handleActivityEvent _ payload platform mode' env
             (stored_activity_frame "pendingActivities" (storage w !! "pendingActivities")
                ltac:(unfold untouched_key; intros Hin;
                      repeat (apply elem_of_cons in Hin as [Hin | Hin]; [discriminate |]);
                      inversion Hin))).
    reflexivity. }
  assert (Hs' : sanitizeBaseUrl (stored (storage w') "backendBaseUrl") = Ok sanitized).
  { unfold stored. rewrite Kb. exact Hs. }
  assert (Hq' : getPendingActivities (storage w') = []).
  { unfold getPendingActivities. rewrite Kq. exact Hq. }
  unfold restarted, exec.
  rewrite (initializeState_run _ boot envs sanitized url Hs' Hurl).
  rewrite processPendingActivities_run.
  change (storage (rehydrated (storage w') sanitized url boot)) with (storage w').
  rewrite Hq'. simpl.
  unfold stored. rewrite Cs, Dstored, Datstored. simpl.
  split; [reflexivity |].
  assert (T : Js.or (Js.Num (n + 1)) (Js.Num 0) = Js.Num (n + 1)).
  { unfold Js.or. simpl. destruct (n + 1 =? 0) eqn:E; [| reflexivity].
    apply Z.eqb_eq in E. rewrite E. reflexivity. }
  rewrite T, Ct, Dat. split; [reflexivity |]. split; [reflexivity |].
  split.
  - destruct Dstatus as [-> | ->]; reflexivity.
  - unfold Js.or. simpl.
    destruct (String.eqb (iso_done env) "") eqn:E; [| reflexivity].
    apply String.eqb_eq in E. contradiction.
Qed.

Lemma stateReady_activity_frame (b : bool) :
  activity_frame (fun w => stateReady w = b).
Proof.
  split; [split; [split |..] | split | ..]; intros; try intros w Hw; simpl; assumption.
Qed.

(** X14. The listener does not wait for rehydration before it handles an
    activity. In a service worker that has just started, whatever the
    store holds, a non-empty activity is counted from the compiled-in zero
    and the stored counter is overwritten with [1]; the worker is still
    not ready, so a popup message gets no reply. *)
Theorem X14_activity_before_rehydration_restarts_the_count
    (store : gmap string Js.value) (payload platform mode' : Js.value)
    (env : ActivityEnv) :
  Js.truthy payload = true ->
  let w' := exec (handleActivityEvent payload platform mode' env) (cold_start store) in
  totalActivitiesTracked (STATE w') = Js.Num 1
  /\ storage w' !! "totalActivitiesTracked" = Some (Js.Num 1)
  /\ forall message boot, handlePopupMessage message boot w' = None.
Proof.
  intros Hp w'.
  pose proof (fresh_activity_counted (cold_start store) payload platform mode' env 0
                Hp eq_refl eq_refl) as (Ct & Cs & _).
  fold w' in Ct, Cs. split; [exact Ct |]. split; [exact Cs |].
  intros message boot. unfold handlePopupMessage.
  assert (R : stateReady w' = false).
  { apply (preserves_handleActivityEvent _ payload platform mode' env
             (stateReady_activity_frame false)). reflexivity. }
  rewrite R. reflexivity.
Qed.

Lemma stateReady_pending_frame (b : bool) :
  framed_by ["pendingActivities"] (fun w => stateReady w = b).
Proof. split; intros; simpl; assumption. Qed.

(** X15. From a cold start, rehydration makes the worker ready exactly
    when the stored backend address can be read (it is absent, falsy or a
    string) and the address then in force is accepted as the base of the
    health URL. Otherwise the callback of [initializeState] ends in an
    exception before [stateReady] is resolved, and the worker answers no
    popup message. *)
Theorem X15_rehydration_completes_iff_address_is_readable
    (store : gmap string Js.value) (boot : ProbeEnv) (envs : nat -> ActivityEnv) :
  let w' := exec (initializeState boot envs) (cold_start store) in
  (stateReady w' = true <->
   exists sanitized url,
     sanitizeBaseUrl (stored store "backendBaseUrl") = Ok sanitized
     /\ URL_new_base API_ENDPOINTS.health
          (default DEFAULT_BACKEND_BASE_URL (usable sanitized)) = Some url)
  /\ (stateReady w' = false ->
      forall message env, handlePopupMessage message env w' = None).
Proof.
  intros w'. split; [split |].
  - intros Hready.
    destruct (sanitizeBaseUrl (stored store "backendBaseUrl")) as [sanitized | e] eqn:Hs.
    + destruct (URL_new_base API_ENDPOINTS.health
                  (default DEFAULT_BACKEND_BASE_URL (usable sanitized))) as [url |] eqn:Hurl.
      * exists sanitized, url. split; [reflexivity | exact Hurl].
      * exfalso. revert Hready. unfold w', exec.
        rewrite initializeState_unfold. cbv zeta.
        change (storage (cold_start store)) with store. rewrite Hs.
        cbv beta iota delta [mbind M_bind assign modify lift mret M_ret
                             performHealthCheck gets throw].
        simpl. rewrite Hurl. simpl. discriminate.
    + exfalso. revert Hready. unfold w', exec.
      rewrite initializeState_unfold. cbv zeta.
      change (storage (cold_start store)) with store. rewrite Hs.
      simpl. discriminate.
  - intros (sanitized & url & Hs & Hurl). unfold w', exec.
    rewrite (initializeState_run _ boot envs sanitized url Hs Hurl).
    rewrite processPendingActivities_run.
    apply (preserves_drain _ envs _ (stateReady_activity_frame true)
             (stateReady_pending_frame true)).
    reflexivity.
  - intros Hnot message env. unfold handlePopupMessage. rewrite Hnot. reflexivity.
Qed.

End Restart.

(** ** Popup requests *)

Section PopupRequests.
Context `{Host}.

(** A value [setBackendBaseUrl] refuses. *)
Definition refused (value : Js.value) : Prop :=
  match sanitizeBaseUrl value with
  | Ok sanitized => usable sanitized = None
  | Throw _ => True
  end.

(** X16. A [SET_BACKEND_URL] request whose address is refused (it is
    missing, not a string, blank, or rejected by the URL parser also
    behind [https://]) is answered with [success: false], an error text
    and the unchanged state; nothing is assigned, persisted or probed. *)
Theorem X16_refused_address_is_reported_and_changes_nothing
    (w : World) (message : Js.value) (env : ActivityEnv) :
  stateReady w = true ->
  Js.truthy message = true ->
  member_opt message "source" = Js.Str "carbonlens-popup" ->
  member_opt message "type" = Js.Str "SET_BACKEND_URL" ->
  refused (member_opt (member_opt message "payload") "backendBaseUrl") ->
  exists error,
    onMessage message env w = (Some (reply false (Some error) (STATE w) []), w).
Proof.
  intros Hready Ht Hsrc Hty Href.
  unfold onMessage. rewrite Ht, Hsrc. simpl.
  unfold handlePopupMessage. rewrite Hready.
  unfold popup_switch. rewrite Hty. simpl.
  unfold refused in Href. unfold setBackendBaseUrl.
  destruct (sanitizeBaseUrl _) as [sanitized | e].
  - exists "Please provide a valid backend URL (e.g., https://api.yourdomain.com).".
    unfold mbind, M_bind, lift, mret, M_ret. rewrite Href. reflexivity.
  - exists e. reflexivity.
Qed.

(** X17. The health check that follows an accepted [SET_BACKEND_URL] is
    not forced. When a check was made less than 60 s before, the new
    address is stored and persisted but not probed: no request is issued
    and [isBackendReachable] keeps the value found for the old address. *)
Theorem X17_new_address_is_not_probed_within_a_minute
    (w : World) (message : Js.value) (env : ActivityEnv) (address : string) :
  stateReady w = true ->
  Js.truthy message = true ->
  member_opt message "source" = Js.Str "carbonlens-popup" ->
  member_opt message "type" = Js.Str "SET_BACKEND_URL" ->
  sanitizeBaseUrl (member_opt (member_opt message "payload") "backendBaseUrl")
  = Ok (Some address) ->
  address <> "" ->
  checked_within (lastHealthCheck (STATE w)) (probe_now (probe env)) 60000 = true ->
  let w' := snd (onMessage message env w) in
  fst (onMessage message env w) = Some (reply true None (STATE w') [])
  /\ backendBaseUrl (STATE w') = address
  /\ storage w' !! "backendBaseUrl" = Some (Js.Str address)
  /\ isBackendReachable (STATE w') = isBackendReachable (STATE w)
  /\ effects w' = effects w ++ [StorageSet [("backendBaseUrl", Js.Str address)]].
Proof.
  intros Hready Ht Hsrc Hty Hs Hne Hrecent w'. unfold w'. clear w'.
  unfold onMessage. rewrite Ht, Hsrc. simpl.
  unfold handlePopupMessage. rewrite Hready.
  unfold popup_switch. rewrite Hty. simpl.
  unfold setBackendBaseUrl. rewrite Hs.
  apply String.eqb_neq in Hne.
  destruct w as [[m b r h ss sa t at_] lf la rdy st eff].
  simpl in Hrecent.
  unfold performHealthCheck, mbind, M_bind, gets, assign, modify, lift, mret, M_ret,
    persistState, emit, usable. rewrite Hne. simpl. rewrite Hrecent. simpl.
  repeat split. unfold storage_set. simpl. apply lookup_insert_eq.
Qed.

(** X18. [REFRESH_HEALTH] forces the probe: whatever the time of the last
    check, one [GET] of the health URL is issued, the reply carries the
    outcome as [healthCheck.reachable], and [STATE] records that outcome
    and the time of the probe. A probe that is rejected or not [ok] is an
    outcome ([false]), not an error. *)
Theorem X18_refresh_health_always_probes
    (w : World) (message : Js.value) (env : ActivityEnv) (url : URL) :
  stateReady w = true ->
  Js.truthy message = true ->
  member_opt message "source" = Js.Str "carbonlens-popup" ->
  member_opt message "type" = Js.Str "REFRESH_HEALTH" ->
  URL_new_base API_ENDPOINTS.health (backendBaseUrl (STATE w)) = Some url ->
  let reachable := default false (probe_reply (probe env)) in
  let w' := snd (onMessage message env w) in
  fst (onMessage message env w)
  = Some (reply true None (STATE w')
            [("healthCheck", Js.Obj [("reachable", Js.Bool reachable)])])
  /\ isBackendReachable (STATE w') = reachable
  /\ lastHealthCheck (STATE w') = Some (probe_now (probe env))
  /\ effects w' = effects w ++ [Fetch "GET" (URL_toString url) None].
Proof.
  intros Hready Ht Hsrc Hty Hurl reachable w'.
  assert (E : onMessage message env w
              = (Some (reply true None
                         (set_lastHealthCheck (Some (probe_now (probe env)))
                            (set_isBackendReachable reachable (STATE w)))
                         [("healthCheck", Js.Obj [("reachable", Js.Bool reachable)])]),
                 with_STATE (fun s => set_lastHealthCheck (Some (probe_now (probe env)))
                                        (set_isBackendReachable reachable s))
                   (with_effect (Fetch "GET" (URL_toString url) None) w))).
  { unfold onMessage. rewrite Ht, Hsrc. simpl.
    unfold handlePopupMessage. rewrite Hready.
    unfold popup_switch. rewrite Hty. simpl.
    unfold try_catch. unfold mbind at 1, M_bind at 1.
    rewrite (health_probe_run w true (probe env) url (or_introl eq_refl) Hurl).
    reflexivity. }
  unfold w'. rewrite E. simpl. repeat split.
Qed.

End PopupRequests.

(** ** The dispatch client *)

Section DispatchOutcomes.
Import Dispatch.

(** The calls of [chrome.runtime.sendMessage] in a trace. *)
Definition attempts (t : list action) : list Js.value :=
  omap (fun a => match a with
                 | SendMessage message _ => Some message
                 | _ => None
                 end) t.

(** Whether the trace wrote the store. *)
Definition wrote_store (t : list action) : bool :=
  existsb (fun a => match a with StorageSet _ => true | _ => false end) t.

Lemma enqueue_trace payload ts c :
  enqueue payload ts c = c
  \/ exists items,
       trace (enqueue payload ts c) = trace c ++ [StorageSet items].
Proof.
  unfold enqueue. destruct (Js.or _ _); try (left; reflexivity).
  right. eexists. reflexivity.
Qed.

Ltac outcome :=
  split; [reflexivity |]; simpl;
  split; [lia |];
  split; [repeat constructor |];
  split; [first [left; reflexivity | right; reflexivity] |];
  split;
  [ let F := fresh "F" in
    intros F; first [exfalso; apply F; reflexivity | split; reflexivity]
  | let F := fresh "F" in
    intros F; first [discriminate F | reflexivity] ].

(** X19. One call of [dispatchActivity] makes at most three attempts, all
    with the same message; at most one of them gets a response, and it is
    the last. The store is written only after three attempts without a
    response, so an event is never both delivered and queued by the same
    call. *)
Theorem X19_dispatch_delivers_or_queues_never_both
    (channel : nat -> channel_outcome) (ts : string) (payload : Js.value) (c : Ctx) :
  let c' := dispatchActivity channel ts payload c in
  exists added,
    trace c' = trace c ++ added
    /\ (length (attempts added) <= 3)%nat
    /\ Forall (fun message => message = message_for c payload) (attempts added)
    /\ (forwarded added = [] \/ forwarded added = [message_for c payload])
    /\ (forwarded added <> [] -> wrote_store added = false /\ storage c' = storage c)
    /\ (wrote_store added = true -> length (attempts added) = 3%nat).
Proof.
  intros c'. unfold c', dispatchActivity.
  destruct (negb (Js.truthy payload)).
  { exists []. rewrite app_nil_r. outcome. }
  cbv zeta. fold (message_for c payload). set (message := message_for c payload).
  rewrite sendWithRetry_schedule. unfold after_two_failures.
  destruct (channel 1%nat) as [| | r1] eqn:E1; simpl responded; cbv iota.
  3: { exists [SendMessage message (Responded r1)]. outcome. }
  all: destruct (channel 2%nat) as [| | r2] eqn:E2; simpl responded; cbv iota.
  3, 6: eexists; simpl; rewrite <- !app_assoc; outcome.
  all: destruct (channel 3%nat) as [| | r3] eqn:E3.
  all: try (eexists; simpl; rewrite <- !app_assoc; outcome).
  all: match goal with
       | |- context [enqueue ?p ?t ?c0] =>
           destruct (enqueue_trace p t c0) as [-> | (items & ->)]
       end.
  all: eexists; simpl; rewrite <- !app_assoc; outcome.
Qed.

Lemma extract_is_activity p page root :
  Js.truthy (extract p page root)
  && Js.truthy (member_opt (extract p page root) "activityType") = true.
Proof. destruct p; reflexivity. Qed.

(** X20. The send shortcut is debounced. A [Ctrl]/[Cmd]+[Enter] pressed
    on an open compose region at least 1000 ms after the last keyboard
    dispatch extracts the event of the current platform and dispatches it;
    the same shortcut pressed less than 1000 ms later does nothing,
    whatever the page shows by then. *)
Theorem X20_send_shortcut_is_debounced
    (channel1 channel2 : nat -> channel_outcome) (ts1 ts2 : string)
    (page1 page2 : Extractor.Page) (e1 e2 : KeyEvent)
    (root : Extractor.ComposeRoot) (c : Ctx) :
  isEnter e1 = true ->
  ctrlKey e1 || metaKey e1 = true ->
  composeRoot e1 = Some root ->
  1000 <= now e1 - _lastDispatchAt c ->
  now e2 - now e1 < 1000 ->
  let c1 := handleGlobalKeydown channel1 ts1 page1 e1 c in
  c1 = dispatchActivity channel1 ts1
         (extract (currentPlatform c) page1 (Some root))
         (set_lastDispatchAt (now e1) c)
  /\ handleGlobalKeydown channel2 ts2 page2 e2 c1 = c1.
Proof.
  intros Henter Hmod Hroot Hold Hnew c1.
  assert (E : c1 = dispatchActivity channel1 ts1
                     (extract (currentPlatform c) page1 (Some root))
                     (set_lastDispatchAt (now e1) c)).
  { unfold c1, handleGlobalKeydown. rewrite Henter, Hmod, Hroot. simpl.
    apply Z.ltb_ge in Hold. rewrite Hold.
    rewrite extract_is_activity. reflexivity. }
  split; [exact E |].
  apply handleGlobalKeydown_guard.
  rewrite E, dispatchActivity_lastDispatchAt. exact Hnew.
Qed.

End DispatchOutcomes.

Section QueuedThenDrained.
Context `{Host}.

(** X21. An event the content script could not hand over is not lost
    when every attempt ended with [lastError]: it is appended to the
    persisted queue, and the coordinator's next drain over that store
    counts it once and leaves the queue empty. *)
Theorem X21_queued_event_is_counted_by_the_next_drain
    (c : Dispatch.Ctx) (ts : string) (payload : Js.value)
    (w : World) (envs : nat -> ActivityEnv) (n : Z) :
  Js.truthy payload = true ->
  Dispatch.storage c !! "pendingActivities" = None ->
  storage w
  = Dispatch.storage
      (Dispatch.dispatchActivity (fun _ => Dispatch.LastError) ts payload c) ->
  totalActivitiesTracked (STATE w) = Js.Num n ->
  is_duplicate w (fingerprint_of (Js.own_props payload)) (now_detect (envs 0%nat)) = false ->
  let w' := exec (processPendingActivities envs) w in
  totalActivitiesTracked (STATE w') = Js.Num (n + 1)
  /\ storage w' !! "pendingActivities" = Some (Js.Arr []).
Proof.
  intros Hp Hempty Hshared Hn Hfresh w'.
  set (platform := Js.Str (Dispatch.platform_name (Dispatch.currentPlatform c))).
  set (item := Js.Obj [("payload", payload); ("platform", platform); ("ts", Js.Str ts)]).
  destruct (dispatchActivity_queued ts payload c [] Hp) as [Hq _].
  { unfold getPendingActivities. rewrite Hempty. reflexivity. }
  { left. exact Hempty. }
  rewrite <- Hshared in Hq. simpl in Hq. fold platform item in Hq.
  unfold w', exec. rewrite processPendingActivities_run.
  unfold getPendingActivities. rewrite Hq.
  rewrite drain_continues by reflexivity.
  simpl drain. cbn [snd].
  unfold exec at 2.
  rewrite (handle_item_run item payload platform) by reflexivity.
  fold (exec (handleActivityEvent payload platform
                (Js.Str (mode (STATE w))) (envs 0%nat)) w).
  assert (C : counted (Js.Num (n + 1)) (fingerprint_of (Js.own_props payload))
                (now_detect (envs 0%nat))
                (exec (handleActivityEvent payload platform
                         (Js.Str (mode (STATE w))) (envs 0%nat)) w)).
  { rewrite <- (fingerprint_of_event payload platform (Js.Str (mode (STATE w)))).
    apply fresh_activity_counted; [exact Hp | exact Hn |].
    rewrite fingerprint_of_event. exact Hfresh. }
  split.
  - apply (counted_setPendingActivities _ _ _ []) in C. apply C.
  - apply setPendingActivities_stored.
Qed.

End QueuedThenDrained.

Section ModePropagation.
Context `{Host}.

(** X22. Every [UPDATE_MODE] message that [setMode] sends to the mail
    tabs brings the content script in line with the coordinator: the
    listener of the content script answers [MODE_UPDATED], its [mode]
    becomes the coordinator's new mode, and the events it dispatches from
    then on carry that mode. *)
Theorem X22_mode_change_reaches_the_content_script
    (w : World) (next : Js.value) (showNotification : bool)
    (broadcast : Js.value) (c : Dispatch.Ctx) :
  let w' := exec (setMode next showNotification) w in
  TabsSendMessage broadcast ∈ effects w' ->
  TabsSendMessage broadcast ∉ effects w ->
  let answer := ContentScript.onMessage broadcast c in
  fst answer = Some (Js.Obj [("source", Js.Str "carbonlens-content");
                             ("type", Js.Str "MODE_UPDATED");
                             ("mode", Js.Str (mode (STATE w')))])
  /\ Dispatch.mode (snd answer) = Js.Str (mode (STATE w'))
  /\ forall payload,
       member_opt (message_for (snd answer) payload) "mode"
       = Js.Str (mode (STATE w')).
Proof.
  intros w' Hin Hnew answer.
  destruct (String.eqb (mode (STATE w)) (validated next)) eqn:E.
  { apply String.eqb_eq in E. exfalso. apply Hnew.
    unfold w', exec in Hin. rewrite (setMode_same _ _ _ E) in Hin. exact Hin. }
  apply String.eqb_neq in E.
  assert (Hmode : mode (STATE w') = validated next).
  { unfold w'. rewrite (setMode_changed next showNotification w E).
    rewrite effects_only_STATE. reflexivity. }
  assert (Hb : broadcast
               = Js.Obj [("source", Js.Str "carbonlens-background");
                         ("type", Js.Str "UPDATE_MODE");
                         ("payload", Js.Obj [("mode", Js.Str (validated next))])]).
  { unfold w' in Hin. rewrite (setMode_changed next showNotification w E) in Hin.
    rewrite effects_only_effects in Hin. simpl in Hin.
    apply elem_of_app in Hin as [Hin | Hin]; [contradiction |].
    repeat (apply elem_of_cons in Hin as [Hin | Hin];
            [first [discriminate Hin | injection Hin as ->; reflexivity] |]).
    unfold mode_notifications in Hin.
    destruct showNotification; [| inversion Hin].
    apply elem_of_cons in Hin as [Hin | Hin]; [| inversion Hin].
    destruct (String.eqb (validated next) "awareness"); discriminate Hin. }
  unfold answer. rewrite Hb, Hmode. repeat split.
Qed.

End ModePropagation.

(** ** The extracted event *)

Section Recipients.
Import Extractor.

(** A recipient as the list should hold it: not empty, no separator
    inside, no white space at either end. *)
Definition clean_entry (s : string) : Prop :=
  s <> ""
  /\ all_chars (fun c => negb (is_separator c)) s = true
  /\ (forall c, first_char s = Some c -> Text.is_space c = false)
  /\ (forall c, last_char s = Some c -> Text.is_space c = false).

Lemma all_chars_rev_onto p s acc :
  all_chars p (Text.rev_onto s acc) = all_chars p s && all_chars p acc.
Proof.
  revert acc. induction s as [| c rest IH]; intros acc; simpl; [reflexivity |].
  rewrite IH. simpl. destruct (p c), (all_chars p rest); reflexivity.
Qed.

Lemma all_chars_rev p s : all_chars p (Text.rev s) = all_chars p s.
Proof. unfold Text.rev. rewrite all_chars_rev_onto. simpl. apply andb_true_r. Qed.

Lemma all_chars_trim_start p s :
  all_chars p s = true -> all_chars p (Text.trim_start s) = true.
Proof.
  induction s as [| c rest IH]; simpl; intros Hall; [reflexivity |].
  apply andb_true_iff in Hall as [Hc Hrest].
  destruct (Text.is_space c); [apply IH, Hrest |].
  simpl. rewrite Hc, Hrest. reflexivity.
Qed.

Lemma all_chars_trim p s : all_chars p s = true -> all_chars p (Text.trim s) = true.
Proof.
  intros Hall. unfold Text.trim.
  rewrite all_chars_rev. apply all_chars_trim_start.
  rewrite all_chars_rev. apply all_chars_trim_start, Hall.
Qed.

Lemma split_pieces cur s :
  all_chars (fun c => negb (is_separator c)) cur = true ->
  Forall (fun piece => all_chars (fun c => negb (is_separator c)) piece = true)
         (split cur s).
Proof.
  revert cur. induction s as [| c rest IH]; intros cur Hcur.
  - simpl. constructor; [| constructor]. rewrite all_chars_rev. exact Hcur.
  - simpl. destruct (is_separator c) eqn:Hc.
    + destruct rest as [| c' rest'] eqn:Hrest.
      * constructor; [rewrite all_chars_rev; exact Hcur |].
        constructor; [reflexivity | constructor].
      * destruct (is_separator c').
        -- apply IH, Hcur.
        -- constructor; [rewrite all_chars_rev; exact Hcur |].
           apply IH. reflexivity.
    + apply IH. simpl. rewrite Hc, Hcur. reflexivity.
Qed.

Lemma trim_start_head s c :
  first_char (Text.trim_start s) = Some c -> Text.is_space c = false.
Proof.
  induction s as [| c0 rest IH]; simpl; [discriminate |].
  destruct (Text.is_space c0) eqn:E; [exact IH |].
  simpl. intros [= <-]. exact E.
Qed.

Lemma trim_start_last s :
  Text.trim_start s <> "" -> last_char (Text.trim_start s) = last_char s.
Proof.
  induction s as [| c rest IH]; simpl; [reflexivity |].
  destruct (Text.is_space c).
  - intros Hne. rewrite (IH Hne).
    destruct rest as [| c' rest']; [contradiction Hne; reflexivity | reflexivity].
  - intros _. reflexivity.
Qed.

Lemma first_char_rev_onto s acc :
  first_char (Text.rev_onto s acc)
  = match last_char s with Some l => Some l | None => first_char acc end.
Proof.
  revert acc. induction s as [| c rest IH]; intros acc; [reflexivity |].
  simpl Text.rev_onto. rewrite IH, last_char_cons.
  destruct (last_char rest); reflexivity.
Qed.

Lemma last_char_rev_onto s acc :
  last_char (Text.rev_onto s acc)
  = match last_char acc with Some l => Some l | None => first_char s end.
Proof.
  revert acc. induction s as [| c rest IH]; intros acc.
  - simpl. destruct (last_char acc); reflexivity.
  - simpl Text.rev_onto. rewrite IH, last_char_cons.
    destruct (last_char acc); reflexivity.
Qed.

Lemma first_char_rev s : first_char (Text.rev s) = last_char s.
Proof.
  unfold Text.rev. rewrite first_char_rev_onto. destruct (last_char s); reflexivity.
Qed.

Lemma last_char_rev s : last_char (Text.rev s) = first_char s.
Proof. unfold Text.rev. rewrite last_char_rev_onto. reflexivity. Qed.

Lemma rev_nonempty s : Text.rev s <> "" -> s <> "".
Proof. intros Hne ->. apply Hne. reflexivity. Qed.

Lemma trim_ends s c :
  (first_char (Text.trim s) = Some c -> Text.is_space c = false)
  /\ (last_char (Text.trim s) = Some c -> Text.is_space c = false).
Proof.
  unfold Text.trim. rewrite first_char_rev, last_char_rev. split.
  - intros Hlast.
    assert (Hne : Text.trim_start (Text.rev (Text.trim_start s)) <> "").
    { intros E. rewrite E in Hlast. discriminate. }
    rewrite (trim_start_last _ Hne), last_char_rev in Hlast.
    apply (trim_start_head s), Hlast.
  - apply trim_start_head.
Qed.

(** X23. Every entry of a normalised recipient list is a non-empty
    string without [,], [;] or line feed inside and without white space at
    either end, whatever text the To field holds. *)
Theorem X23_recipient_entries_are_clean (rawValue : string) :
  Forall (fun entry => exists s, entry = Js.Str s /\ clean_entry s)
         (normalizeRecipientList rawValue).
Proof.
  unfold normalizeRecipientList.
  destruct (String.eqb rawValue ""); [constructor |].
  apply Forall_map. apply Forall_forall. intros s Hin.
  apply list_elem_of_In in Hin. apply filter_In in Hin as [Hin Hne].
  apply in_map_iff in Hin as (piece & <- & Hpiece).
  exists (Text.trim piece). split; [reflexivity |].
  split; [| split].
  - intros E. rewrite E in Hne. discriminate.
  - apply all_chars_trim.
    pose proof (split_pieces EmptyString rawValue eq_refl) as Hall.
    rewrite Forall_forall in Hall. apply Hall. apply list_elem_of_In. exact Hpiece.
  - split; intros c; apply trim_ends.
Qed.

End Recipients.

Section ExtractedEvent.
Import Extractor.



End ExtractedEvent.

Section SameMailTwice.
Context `{Host}.
Import Extractor.

Lemma fingerprint_of_extract p page1 page2 root1 root2 :
  accountEmail page1 = accountEmail page2 ->
  toField root1 = toField root2 ->
  subjectField root1 = subjectField root2 ->
  fingerprint_of (Js.own_props (Dispatch.extract p page1 (Some root1)))
  = fingerprint_of (Js.own_props (Dispatch.extract p page2 (Some root2))).
Proof.
  intros Ha Ht Hs.
  destruct p; unfold Dispatch.extract, extractGmailEmailData, extractOutlookEmailData,
    activity, fingerprint_of; simpl; rewrite Ha, Ht, Hs; reflexivity.
Qed.

(** X25. The dedupe fingerprint reads the provider, the subject, the
    sender and the recipients only. Two events extracted on one platform
    from compose regions that agree on the To field, the subject field
    and the account are therefore one event to the coordinator when the
    second arrives less than 2000 ms after the first was counted: it is
    acknowledged and changes nothing, whatever the two differ in (body,
    attachments, time stamp, page address, platform and mode of the
    message). *)
Theorem X25_events_with_equal_headers_are_merged
    (p : Dispatch.PLATFORM) (page1 page2 : Page) (root1 root2 : ComposeRoot)
    (platform1 platform2 mode1 mode2 : Js.value)
    (w : World) (env1 env2 : ActivityEnv) (n : Z) :
  accountEmail page1 = accountEmail page2 ->
  toField root1 = toField root2 ->
  subjectField root1 = subjectField root2 ->
  totalActivitiesTracked (STATE w) = Js.Num n ->
  let first := Dispatch.extract p page1 (Some root1) in
  let second := Dispatch.extract p page2 (Some root2) in
  is_duplicate w (fingerprint_of (Js.own_props first)) (now_detect env1) = false ->
  now_detect env2 - now_detect env1 < 2000 ->
  let w1 := exec (handleActivityEvent first platform1 mode1 env1) w in
  totalActivitiesTracked (STATE w1) = Js.Num (n + 1)
  /\ handleActivityEvent second platform2 mode2 env2 w1 = (Ok tt, w1).
Proof.
  intros Ha Ht Hs Hn first second Hfresh Hwin w1.
  assert (Hp1 : Js.truthy first = true) by (unfold first; destruct p; reflexivity).
  assert (Hp2 : Js.truthy second = true) by (unfold second; destruct p; reflexivity).
  assert (C : counted (Js.Num (n + 1)) (fingerprint_of (Js.own_props first))
                (now_detect env1) w1).
  { rewrite <- (fingerprint_of_event first platform1 mode1).
    apply fresh_activity_counted; [exact Hp1 | exact Hn |].
    rewrite fingerprint_of_event. exact Hfresh. }
  split; [apply C |].
  eapply repeated_activity_absorbed; [exact Hp2 | | exact Hwin].
  rewrite fingerprint_of_event.
  unfold second. rewrite <- (fingerprint_of_extract p page1 page2 root1 root2 Ha Ht Hs).
  exact C.
Qed.

End SameMailTwice.

(** ** What the popup shows *)

Section PopupView.
Context `{Host}.

(** X26. The status label of the popup knows two texts once [renderState]
    has run: [Sync error] when the state has a sync time and its status is
    ['error'], and [Synced] in every other case. The [Syncing...] that
    [updateLastSync] writes for a state without sync time is overwritten
    by [updateStats], and so is its [Sync error]. *)
Theorem X26_status_label_is_synced_or_sync_error (latestState : Js.value) :
  Popup.renderState_lastStatus latestState
  = if Js.truthy (member_opt latestState "lastSyncAt")
       && Js.is_str (member_opt latestState "lastSyncStatus") "error"
    then "Sync error" else "Synced".
Proof.
  unfold Popup.renderState_lastStatus, Popup.updateStats, Popup.updateLastSync.
  destruct (Js.truthy (member_opt latestState "lastSyncAt")); simpl; [| reflexivity].
  destruct (member_opt latestState "lastSyncStatus") as [| | | b | z | s | l | l];
    try reflexivity.
  simpl. destruct (String.eqb s "success") eqn:E1; [| reflexivity].
  apply String.eqb_eq in E1. subst s. reflexivity.
Qed.

Lemma serialized_fields (s : State) :
  let state := getSerializableState s in
  Js.truthy state = true
  /\ member_opt state "mode" = Js.Str (mode s)
  /\ member_opt state "lastSyncStatus" = lastSyncStatus s
  /\ member_opt state "lastSyncAt" = lastSyncAt s
  /\ member_opt state "totalActivitiesTracked" = totalActivitiesTracked s.
Proof.
  destruct s as [m b r h ss sa t [at_ |]]; repeat split.
Qed.

Lemma popup_request_run message env w :
  stateReady w = true ->
  Js.truthy message = true ->
  member_opt message "source" = Js.Str "carbonlens-popup" ->
  onMessage message env w
  = match popup_switch message (probe env) w with
    | (Ok response, w') => (Some response, w')
    | (Throw e, w') => (Some (reply false (Some e) (STATE w') []), w')
    end.
Proof.
  intros Hready Ht Hsrc. unfold onMessage. rewrite Ht, Hsrc. simpl.
  unfold handlePopupMessage. rewrite Hready. reflexivity.
Qed.

Lemma received_state s extra latestState :
  Popup.received (reply true None s extra) latestState = getSerializableState s.
Proof. reflexivity. Qed.

(** X27. The mode buttons of the popup send a request for ['awareness']
    and ['silent'] only. Once the coordinator is ready it answers such a
    request with a state in the requested mode, which the popup takes as
    its [latestState]: the coordinator's [mode] and the mode pill of the
    popup then agree with the button pressed. *)
Theorem X27_popup_mode_request_round_trip
    (w : World) (env : ActivityEnv) (requested : string) (latestState : Js.value) :
  stateReady w = true ->
  requested = "awareness" \/ requested = "silent" ->
  (forall other : Js.value,
     Popup.setMode other <> None ->
     other = Js.Str "awareness" \/ other = Js.Str "silent")
  /\ exists message response w',
       Popup.setMode (Js.Str requested) = Some message
       /\ onMessage message env w = (Some response, w')
       /\ mode (STATE w') = requested
       /\ Popup.received response latestState = getSerializableState (STATE w')
       /\ Popup.renderState_modePill (Popup.received response latestState)
          = if String.eqb requested "silent" then "Silent Mode" else "Awareness Mode".
Proof.
  intros Hready Hreq. split.
  - intros other Hsent. unfold Popup.setMode in Hsent.
    destruct other as [| | | b | z | s | l | l]; try (contradiction Hsent; reflexivity).
    simpl in Hsent.
    destruct (String.eqb s "awareness") eqn:E1.
    { apply String.eqb_eq in E1. left. congruence. }
    destruct (String.eqb s "silent") eqn:E2.
    { apply String.eqb_eq in E2. right. congruence. }
    contradiction Hsent. reflexivity.
  - assert (Hv : validated (Js.Str requested) = requested).
    { destruct Hreq as [-> | ->]; reflexivity. }
    assert (Hm : mode (STATE (exec (setMode (Js.Str requested) false) w)) = requested).
    { destruct (String.eqb (mode (STATE w)) (validated (Js.Str requested))) eqn:E.
      - apply String.eqb_eq in E. unfold exec. rewrite (setMode_same _ _ _ E).
        simpl. congruence.
      - apply String.eqb_neq in E. rewrite (setMode_changed _ _ _ E).
        rewrite effects_only_STATE. simpl. exact Hv. }
    assert (Hret : returns (setMode (Js.Str requested) false)).
    { unfold setMode. cbv zeta.
      repeat first [ apply returns_persistState | apply returns_emit
                   | apply returns_assign | returns_step
                   | (unfold updateExtensionIcon, broadcastMode) ]. }
    destruct (Hret w) as [[] Hok].
    set (message := Js.Obj [("source", Js.Str "carbonlens-popup");
                            ("type", Js.Str "SET_MODE");
                            ("payload", Js.Obj [("mode", Js.Str requested)])]).
    exists message,
      (reply true None (STATE (exec (setMode (Js.Str requested) false) w)) []),
      (exec (setMode (Js.Str requested) false) w).
    split; [destruct Hreq as [-> | ->]; reflexivity |].
    split.
    { rewrite popup_request_run by (assumption || reflexivity).
      unfold popup_switch. simpl.
      change (member_opt (member_opt message "payload") "mode") with (Js.Str requested).
      unfold mbind at 1, M_bind at 1. unfold exec.
      destruct (setMode (Js.Str requested) false w) as [[[] | e] w1]; simpl in *;
        [reflexivity | discriminate]. }
    split; [exact Hm |]. split; [apply received_state |].
    rewrite received_state. unfold Popup.renderState_modePill.
    destruct (serialized_fields (STATE (exec (setMode (Js.Str requested) false) w)))
      as (_ & -> & _).
    rewrite Hm. reflexivity.
Qed.

(** X28. What the popup shows after a counted activity: asked for the
    state, the coordinator answers with the new counter and the ending of
    the delivery, and the popup renders the counter raised by one and the
    label [Synced] when the delivery succeeded, [Sync error] when it
    failed. *)
Theorem X28_popup_shows_the_outcome_of_an_activity
    (w : World) (payload platform mode' : Js.value) (env : ActivityEnv) (n : Z)
    (message latestState : Js.value) (asked : ActivityEnv) :
  Js.truthy payload = true ->
  is_duplicate w (fingerprint_of (activityPayload_of payload platform mode'))
               (now_detect env) = false ->
  totalActivitiesTracked (STATE w) = Js.Num n ->
  iso_done env <> "" ->
  stateReady w = true ->
  Js.truthy message = true ->
  member_opt message "source" = Js.Str "carbonlens-popup" ->
  member_opt message "type" = Js.Str "GET_STATE" ->
  let w' := exec (handleActivityEvent payload platform mode' env) w in
  exists response,
    onMessage message asked w' = (Some response, w')
    /\ let shown := Popup.received response latestState in
       Popup.renderState_totalActivities shown = Js.Num (n + 1)
       /\ ((lastSyncStatus (STATE w') = Js.Str "success"
            /\ Popup.renderState_lastStatus shown = "Synced")
           \/ (lastSyncStatus (STATE w') = Js.Str "error"
               /\ Popup.renderState_lastStatus shown = "Sync error")).
Proof.
  intros Hp Hfresh Hn Hiso Hready Ht Hsrc Hty w'.
  pose proof (fresh_activity_counted w payload platform mode' env n Hp Hn Hfresh)
    as (Ct & _). fold w' in Ct.
  assert (D : sync_persisted env w').
  { unfold w'. rewrite handleActivityEvent_fresh by assumption. apply deliver_persists. }
  destruct D as (Dstatus & _ & Dat & _).
  assert (R : stateReady w' = true).
  { apply (preserves_handleActivityEvent _ payload platform mode' env
             (stateReady_activity_frame true)). exact Hready. }
  exists (reply true None (STATE w') []). split.
  { rewrite popup_request_run by assumption.
    unfold popup_switch. rewrite Hty. reflexivity. }
  cbv zeta. rewrite received_state.
  destruct (serialized_fields (STATE w')) as (_ & _ & Es & Ea & Ec).
  unfold Popup.renderState_totalActivities. rewrite Ec, Ct.
  split; [reflexivity |].
  unfold Popup.renderState_lastStatus, Popup.updateStats, Popup.updateLastSync.
  rewrite Es, Ea, Dat.
  assert (Htruthy : Js.truthy (Js.Str (iso_done env)) = true).
  { simpl. apply negb_true_iff. apply String.eqb_neq. exact Hiso. }
  rewrite Htruthy.
  destruct Dstatus as [E | E]; rewrite E; [left | right]; split; reflexivity.
Qed.

End PopupView.

(** ** Invariants of the coordinator *)

Section CoordinatorInvariants.
Context `{Host}.

(** The counter is a whole number that is not negative. *)
Definition counter_ok (s : State) : Prop :=
  exists n, totalActivitiesTracked s = Js.Num n /\ 0 <= n.

Lemma counter_only (f : State -> State) :
  (forall s, totalActivitiesTracked (f s) = totalActivitiesTracked s) ->
  preserves (on_STATE counter_ok) (assign f).
Proof.
  intros Hf. apply preserves_assign. intros s (n & Hn & Hpos).
  exists n. rewrite Hf. split; assumption.
Qed.

Lemma counter_ok_handleActivityEvent payload platform mode' env :
  preserves (on_STATE counter_ok) (handleActivityEvent payload platform mode' env).
Proof.
  intros w (n & Hn & Hpos).
  destruct (Js.truthy payload) eqn:Hp.
  - destruct (is_duplicate w (fingerprint_of (activityPayload_of payload platform mode'))
                (now_detect env)) eqn:Hd.
    + unfold exec. rewrite handleActivityEvent_duplicate by assumption.
      exists n. split; assumption.
    + destruct (fresh_activity_counted w payload platform mode' env n Hp Hn Hd)
        as (Ct & _).
      exists (n + 1). split; [exact Ct | lia].
  - unfold exec. rewrite handleActivityEvent_empty by assumption.
    exists n. split; assumption.
Qed.

Lemma counter_ok_drain envs items :
  preserves (on_STATE counter_ok) (drain envs items).
Proof.
  revert envs. induction items as [| item items IH]; intros envs.
  - apply preserves_ret.
  - simpl. apply preserves_bind.
    + apply preserves_try_catch; [| intros e; apply preserves_ret].
      apply preserves_bind; [| intros _].
      * unfold handle_item.
        apply preserves_bind; [apply preserves_lift | intros payload].
        apply preserves_bind; [apply preserves_lift | intros platform].
        apply preserves_bind; [apply preserves_gets | intros s].
        apply counter_ok_handleActivityEvent.
      * apply preserves_bind; [| intros _; apply preserves_ret].
        unfold setPendingActivities.
        apply preserves_bind; [| intros _; apply preserves_emit].
        apply preserves_modify. intros w Hw. exact Hw.
    + intros [|]; [apply IH | apply preserves_ret].
Qed.

Lemma counter_ok_run op : preserves (on_STATE counter_ok) (run op).
Proof.
  destruct op; simpl.
  - apply counter_ok_handleActivityEvent.
  - unfold processPendingActivities.
    apply preserves_bind; [apply preserves_get | intros w0]. apply counter_ok_drain.
  - unfold setMode. cbv zeta.
    repeat first [ apply preserves_persistState | apply preserves_emit
                 | (apply counter_only; intros s0; reflexivity)
                 | preserve_step ].
  - unfold setBackendBaseUrl.
    repeat first [ apply preserves_persistState
                 | (apply counter_only; intros s0; reflexivity)
                 | preserve_step ].
  - intros w0 _. rewrite clearStats_run. exists 0. split; [reflexivity | lia].
  - apply preserves_bind; [| intros _; apply preserves_ret].
    unfold performHealthCheck.
    repeat first [ apply preserves_emit
                 | (apply counter_only; intros s0; reflexivity)
                 | preserve_step ].
Qed.

(** X29. [lastSyncStatus] never leaves the five values the code writes:
    started from one of ['idle'], ['syncing'], ['success'], ['error'] and
    ['synced'], every sequence of activities, drains, mode and address
    changes, resets and health checks ends in one of them, whatever the
    backend answers and whichever calls throw. *)
Theorem X29_lastSyncStatus_stays_among_five_values
    (ops : list operation) (w : World) :
  lastSyncStatus (STATE w) ∈ reachable_status ->
  lastSyncStatus (STATE (run_all ops w)) ∈ reachable_status.
Proof. apply lastSyncStatus_stays_reachable. Qed.

(** X30. [totalActivitiesTracked] stays a whole number that is not
    negative over every sequence of coordinator operations: no operation
    turns the counter into a string or [NaN], and none lowers it below
    zero. *)
Theorem X30_counter_stays_a_natural_number
    (ops : list operation) (w : World) :
  counter_ok (STATE w) -> counter_ok (STATE (run_all ops w)).
Proof.
  revert w. induction ops as [| op ops IH]; intros w Hw; [exact Hw |].
  simpl. apply IH. apply (counter_ok_run op w Hw).
Qed.

End CoordinatorInvariants.

(** ** The properties on sample inputs *)


Lemma C10_witness :
  handleActivityEvent Js.Undefined (Js.Str "gmail") (Js.Str "awareness")
    (Sample.env_ok 1000000) (cold_start ∅) = (Ok tt, cold_start ∅).
Proof. apply C10_empty_payload_changes_nothing. reflexivity. Defined.

Lemma C2_witness :
  let c0 := Dispatch.fresh Dispatch.GMAIL ∅ in
  let at_once := fun _ : nat => Dispatch.Responded Sample.acknowledged in
  let at_second := fun k : nat => match k with
                                  | 1%nat => Dispatch.LastError
                                  | _ => Dispatch.Responded Sample.acknowledged
                                  end in
  let c2 := Dispatch.dispatchActivity at_second "2025-01-01T00:00:00.700Z"
              Scenario.event_later
              (Dispatch.dispatchActivity at_once "2025-01-01T00:00:00.000Z"
                 Sample.event c0) in
  let first := onMessage (message_for c0 Sample.event) (Sample.env_ok 1000000)
                 (cold_start ∅) in
  Sample.event <> Scenario.event_later
  /\ Dispatch.forwarded (Dispatch.trace c2)
     = [message_for c0 Sample.event; message_for c0 Scenario.event_later]
  /\ totalActivitiesTracked (STATE (snd first)) = Js.Num 1
  /\ onMessage (message_for c0 Scenario.event_later) (Sample.env_ok 1000700) (snd first)
     = (Some (Js.Obj [("acknowledged", Js.Bool true)]), snd first).
Proof.
  intros c0 at_once at_second c2 first.
  split; [discriminate |].
  exact (C2_duplicate_dispatch_absorbed_by_coordinator
           c0 at_once at_second
           "2025-01-01T00:00:00.000Z" "2025-01-01T00:00:00.700Z"
           Sample.event Scenario.event_later
           (cold_start ∅) (Sample.env_ok 1000000) (Sample.env_ok 1000700) 0
           eq_refl eq_refl eq_refl eq_refl eq_refl eq_refl).
Defined.

Lemma C4_witness :
  let queue := [Sample.item Sample.event; Js.Null; Sample.item Sample.event] in
  let w := cold_start {["pendingActivities" := Js.Arr queue]} in
  storage (exec (processPendingActivities (fun _ => Sample.env_fail 1000000)) w)
    !! "pendingActivities"
  = Some (Js.Arr [Js.Null; Sample.item Sample.event]).
Proof.
  intros queue w.
  apply (C4_drain_is_fifo_and_halts_at_first_failure w
           (fun _ => Sample.env_fail 1000000)
           [Sample.item Sample.event] [Sample.item Sample.event] Js.Null).
  - reflexivity.
  - constructor; [| constructor].
    intros env w0 Hthrow. apply throws_iff_nullish in Hthrow. discriminate.
  - intros env w0. apply throws_iff_nullish. reflexivity.
Defined.




Lemma C9_witness :
  exists (response : Js.value) (w' : World),
    handlePopupMessage (Js.Obj [("type", Js.Str "GET_STATE")]) Sample.probe_ok
      (exec clearStats (with_stateReady (cold_start ∅))) = Some (Ok response, w')
    /\ member_opt (member_opt response "state") "totalActivitiesTracked" = Js.Num 0
    /\ member_opt (member_opt response "state") "lastSyncStatus" = Js.Str "synced".
Proof.
  destruct (C9_clearStats_then_GET_STATE (with_stateReady (cold_start ∅))
              (Js.Obj [("type", Js.Str "GET_STATE")]) Sample.probe_ok eq_refl eq_refl)
    as (response & w' & Hr & _ & Ht & Hs & _).
  exists response, w'. split; [exact Hr |]. split; [exact Ht |].
  destruct Hs as [Hidle | Hsynced]; [| exact Hsynced].
  exfalso. revert Hidle Hr. rewrite clearStats_run. 
  intros Hidle Hr. injection Hr as <- _. discriminate Hidle.
Defined.

(** ** The further properties on sample inputs *)

Lemma X1_witness :
  fst (onMessage Scenario.detected (Sample.env_fail 1000000) (cold_start ∅))
  = Some (Js.Obj [("acknowledged", Js.Bool true)]).
Proof.
  apply X1_activity_always_acknowledged; reflexivity.
Defined.

Lemma X2_witness :
  let w' := exec (handleActivityEvent Sample.event (Js.Str "gmail") (Js.Str "awareness")
                    (Sample.env_fail 1000000)) (cold_start ∅) in
  lastSyncAt (STATE w') = Js.Str "2025-01-01T00:00:01.000Z"
  /\ lastSyncAttemptAt (STATE w') = Some "2025-01-01T00:00:00.000Z".
Proof.
  exact (proj2 (X2_counted_activity_ends_in_success_or_error (cold_start ∅) Sample.event
                  (Js.Str "gmail") (Js.Str "awareness") (Sample.env_fail 1000000)
                  eq_refl eq_refl)).
Defined.

Lemma X3_witness :
  let w := with_STATE (set_isBackendReachable false) (cold_start ∅) in
  let w' := exec (handleActivityEvent Sample.event (Js.Str "gmail") (Js.Str "awareness")
                    (Sample.env_fail 1000000)) w in
  lastSyncStatus (STATE w') = Js.Str "error".
Proof.
  intros w.
  refine (proj1 (X3_unreachable_backend_aborts_delivery w Sample.event
                   (Js.Str "gmail") (Js.Str "awareness") (Sample.env_fail 1000000)
                   eq_refl eq_refl eq_refl _)).
  discriminate.
Defined.

Lemma X5_witness :
  let w' := exec (handleActivityEvent Sample.event (Js.Str "gmail") (Js.Str "awareness")
                    (Sample.env_ok 1000000)) (cold_start ∅) in
  lastSyncStatus (STATE w') = Js.Str "success".
Proof.
  refine (proj1 (X5_accepted_post_ends_in_success (cold_start ∅) Sample.event
                   (Js.Str "gmail") (Js.Str "awareness") (Sample.env_ok 1000000)
                   (Scenario.endpoint "/api/activities/log")
                   eq_refl eq_refl eq_refl eq_refl _ eq_refl _)).
  - discriminate.
  - exists 200, "OK", (Js.Obj [("success", Js.Bool true)]).
    split; [reflexivity | discriminate].
Defined.

Lemma X6_witness :
  let w1 := exec (handleActivityEvent Sample.event (Js.Str "gmail") (Js.Str "awareness")
                    (Sample.env_fail 1000000)) (cold_start ∅) in
  let w2 := exec (handleActivityEvent Scenario.other_event (Js.Str "gmail")
                    (Js.Str "awareness") (Sample.env_fail 1000300)) w1 in
  let w3 := exec (handleActivityEvent Sample.event (Js.Str "gmail") (Js.Str "awareness")
                    (Sample.env_fail 1000600)) w2 in
  totalActivitiesTracked (STATE w3) = Js.Num 3.
Proof.
  refine (X6_interleaved_duplicate_is_counted (cold_start ∅) Sample.event
            Scenario.other_event (Js.Str "gmail") (Js.Str "gmail")
            (Js.Str "awareness") (Js.Str "awareness")
            (Sample.env_fail 1000000) (Sample.env_fail 1000300) (Sample.env_fail 1000600)
            0 eq_refl eq_refl eq_refl _ eq_refl).
  vm_compute. discriminate.
Defined.

Lemma X7_witness :
  let w1 := exec (handleActivityEvent Sample.event (Js.Str "gmail") (Js.Str "awareness")
                    (Sample.env_fail 1000000)) (cold_start ∅) in
  let w2 := exec (handleActivityEvent Sample.event (Js.Str "gmail") (Js.Str "awareness")
                    (Sample.env_fail 1002000)) w1 in
  totalActivitiesTracked (STATE w2) = Js.Num 2.
Proof.
  refine (proj1 (X7_repetition_after_window_is_counted (cold_start ∅) Sample.event
                   (Js.Str "gmail") (Js.Str "awareness")
                   (Sample.env_fail 1000000) (Sample.env_fail 1002000)
                   0 eq_refl eq_refl eq_refl _)).
  simpl. lia.
Defined.

Lemma X8_witness :
  let later := {| probe_now := 1030000; probe_reply := None |} in
  let w1 := exec (performHealthCheck false Sample.probe_ok) (cold_start ∅) in
  performHealthCheck false later w1 = (Ok true, w1).
Proof.
  intros later.
  refine (proj2 (proj2 (proj2 (proj2
            (X8_health_check_is_memoized (cold_start ∅) false Sample.probe_ok later
               (Scenario.endpoint "/api/health") (or_intror eq_refl) eq_refl _ _))))).
  - discriminate.
  - reflexivity.
Defined.

Lemma X9_witness :
  let queue := [Sample.item Sample.event; Sample.item Scenario.other_event] in
  let w := cold_start {["pendingActivities" := Js.Arr queue]} in
  storage (exec (processPendingActivities (fun _ => Sample.env_fail 1000000)) w)
    !! "pendingActivities"
  = Some (Js.Arr []).
Proof.
  intros queue w.
  refine (proj2 (X9_drain_empties_queue_also_on_failed_delivery w
                   (fun _ => Sample.env_fail 1000000)
                   (Sample.item Sample.event) [Sample.item Scenario.other_event]
                   eq_refl _)).
  repeat constructor.
Defined.

Lemma X10_witness :
  let queue := [Sample.item Sample.event; Sample.item Sample.event] in
  let w := cold_start {["pendingActivities" := Js.Arr queue]} in
  let w' := exec (processPendingActivities (fun _ => Sample.env_fail 1000000)) w in
  totalActivitiesTracked (STATE w') = Js.Num 1
  /\ storage w' !! "pendingActivities" = Some (Js.Arr []).
Proof.
  intros queue w.
  refine (X10_drain_merges_queued_duplicates w (fun _ => Sample.env_fail 1000000)
            (Sample.item Sample.event) Sample.event (Js.Str "gmail") 0
            eq_refl eq_refl eq_refl eq_refl eq_refl eq_refl _).
  reflexivity.
Defined.

Lemma X12_witness :
  mode (STATE (exec onClicked (cold_start ∅))) <> "awareness"
  /\ mode (STATE (exec onClicked (exec onClicked (cold_start ∅)))) = "awareness".
Proof.
  exact (X12_toolbar_click_toggles_mode (cold_start ∅) (or_introl eq_refl)).
Defined.

Lemma X13_witness :
  let w' := exec (handleActivityEvent Sample.event (Js.Str "gmail") (Js.Str "awareness")
                    (Sample.env_fail 1000000)) (cold_start ∅) in
  let restarted := exec (initializeState Sample.probe_ok (fun _ => Sample.env_ok 2000000))
                     (cold_start (storage w')) in
  stateReady restarted = true
  /\ totalActivitiesTracked (STATE restarted) = Js.Num 1.
Proof.
  intros w' restarted.
  destruct (X13_counted_activity_survives_restart (H := RefHost.ref_host) (cold_start ∅) Sample.event
              (Js.Str "gmail") (Js.Str "awareness") (Sample.env_fail 1000000)
              Sample.probe_ok (fun _ => Sample.env_ok 2000000) 0 None
              (Scenario.endpoint "/api/health")
              eq_refl eq_refl eq_refl ltac:(discriminate) eq_refl eq_refl eq_refl)
    as (Hready & Hcount & _).
  split; [exact Hready | exact Hcount].
Defined.

Lemma X14_witness :
  let store : gmap string Js.value := {["totalActivitiesTracked" := Js.Num 41]} in
  let w' := exec (handleActivityEvent Sample.event (Js.Str "gmail") (Js.Str "awareness")
                    (Sample.env_ok 1000000)) (cold_start store) in
  storage w' !! "totalActivitiesTracked" = Some (Js.Num 1).
Proof.
  intros store.
  exact (proj1 (proj2 (X14_activity_before_rehydration_restarts_the_count store
                         Sample.event (Js.Str "gmail") (Js.Str "awareness")
                         (Sample.env_ok 1000000) eq_refl))).
Defined.

Lemma X16_witness :
  exists error,
    onMessage (Scenario.popup_request "SET_BACKEND_URL"
                 [("backendBaseUrl", Js.Str "   ")])
      (Sample.env_ok 1000000) Scenario.ready
    = (Some (reply false (Some error) (STATE Scenario.ready) []), Scenario.ready).
Proof.
  apply X16_refused_address_is_reported_and_changes_nothing; reflexivity.
Defined.

Lemma X17_witness :
  let w := with_STATE (set_lastHealthCheck (Some 1000000)) Scenario.ready in
  let message := Scenario.popup_request "SET_BACKEND_URL"
                   [("backendBaseUrl", Js.Str "https://api.example.com/")] in
  let w' := snd (onMessage message (Sample.env_ok 1000000) w) in
  backendBaseUrl (STATE w') = "https://api.example.com"
  /\ effects w' = [StorageSet [("backendBaseUrl", Js.Str "https://api.example.com")]].
Proof.
  intros w message.
  destruct (X17_new_address_is_not_probed_within_a_minute (H := RefHost.ref_host) w message
              (Sample.env_ok 1000000) "https://api.example.com"
              eq_refl eq_refl eq_refl eq_refl eq_refl ltac:(discriminate) eq_refl)
    as (_ & Haddress & _ & _ & Heffects).
  split; [exact Haddress | exact Heffects].
Defined.

Lemma X18_witness :
  let message := Scenario.popup_request "REFRESH_HEALTH" [] in
  let w' := snd (onMessage message (Sample.env_fail 1000000) Scenario.ready) in
  isBackendReachable (STATE w') = false
  /\ effects w' = [Fetch "GET" "http://127.0.0.1:5000/api/health" None].
Proof.
  intros message.
  destruct (X18_refresh_health_always_probes (H := RefHost.ref_host) Scenario.ready message
              (Sample.env_fail 1000000) (Scenario.endpoint "/api/health")
              eq_refl eq_refl eq_refl eq_refl eq_refl)
    as (_ & Hreachable & _ & Heffects).
  split; [exact Hreachable | exact Heffects].
Defined.

Lemma X20_witness :
  let channel := fun _ : nat => Dispatch.Responded Sample.acknowledged in
  let c1 := Dispatch.handleGlobalKeydown channel "2025-01-01T00:00:05.000Z" Sample.page
              (Scenario.shortcut 5000) (Dispatch.fresh Dispatch.GMAIL ∅) in
  Dispatch.handleGlobalKeydown channel "2025-01-01T00:00:05.400Z" Scenario.page_later
    (Scenario.shortcut 5400) c1 = c1.
Proof.
  intros channel.
  refine (proj2 (X20_send_shortcut_is_debounced channel channel
                   "2025-01-01T00:00:05.000Z" "2025-01-01T00:00:05.400Z"
                   Sample.page Scenario.page_later
                   (Scenario.shortcut 5000) (Scenario.shortcut 5400)
                   Sample.compose_sized (Dispatch.fresh Dispatch.GMAIL ∅)
                   eq_refl eq_refl eq_refl _ _)).
  - simpl. lia.
  - reflexivity.
Defined.

Lemma X21_witness :
  let c' := Dispatch.dispatchActivity (fun _ => Dispatch.LastError)
              "2025-01-01T00:00:02.000Z" Sample.event (Dispatch.fresh Dispatch.GMAIL ∅) in
  let w := cold_start (Dispatch.storage c') in
  let w' := exec (processPendingActivities (fun _ => Sample.env_ok 1000000)) w in
  totalActivitiesTracked (STATE w') = Js.Num 1
  /\ storage w' !! "pendingActivities" = Some (Js.Arr []).
Proof.
  intros c' w.
  exact (X21_queued_event_is_counted_by_the_next_drain
           (Dispatch.fresh Dispatch.GMAIL ∅) "2025-01-01T00:00:02.000Z" Sample.event
           w (fun _ => Sample.env_ok 1000000) 0
           eq_refl eq_refl eq_refl eq_refl eq_refl).
Defined.

Lemma X22_witness :
  let broadcast :=
    Js.Obj [("source", Js.Str "carbonlens-background"); ("type", Js.Str "UPDATE_MODE");
            ("payload", Js.Obj [("mode", Js.Str "silent")])] in
  Dispatch.mode (snd (ContentScript.onMessage broadcast (Dispatch.fresh Dispatch.GMAIL ∅)))
  = Js.Str "silent".
Proof.
  intros broadcast.
  refine (proj1 (proj2 (X22_mode_change_reaches_the_content_script (cold_start ∅)
                          (Js.Str "silent") true broadcast
                          (Dispatch.fresh Dispatch.GMAIL ∅) _ _))).
  - apply list_elem_of_further, list_elem_of_further, list_elem_of_here.
  - apply not_elem_of_nil.
Defined.

Lemma X25_witness :
  let first := Extractor.extractGmailEmailData Sample.page (Some Sample.compose_unsized) in
  let second := Extractor.extractGmailEmailData Scenario.page_later
                  (Some Scenario.compose_resent) in
  let w1 := exec (handleActivityEvent first (Js.Str "gmail") (Js.Str "awareness")
                    (Sample.env_ok 1000000)) (cold_start ∅) in
  totalActivitiesTracked (STATE w1) = Js.Num 1
  /\ handleActivityEvent second (Js.Str "gmail") (Js.Str "awareness")
       (Sample.env_ok 1000700) w1 = (Ok tt, w1).
Proof.
  refine (X25_events_with_equal_headers_are_merged Dispatch.GMAIL
            Sample.page Scenario.page_later Sample.compose_unsized Scenario.compose_resent
            (Js.Str "gmail") (Js.Str "gmail") (Js.Str "awareness") (Js.Str "awareness")
            (cold_start ∅) (Sample.env_ok 1000000) (Sample.env_ok 1000700) 0
            eq_refl eq_refl eq_refl eq_refl eq_refl _).
  reflexivity.
Defined.

Lemma X27_witness :
  exists message response w',
    Popup.setMode (Js.Str "silent") = Some message
    /\ onMessage message (Sample.env_ok 1000000) Scenario.ready = (Some response, w')
    /\ mode (STATE w') = "silent"
    /\ Popup.received response Js.Undefined = getSerializableState (STATE w')
    /\ Popup.renderState_modePill (Popup.received response Js.Undefined) = "Silent Mode".
Proof.
  exact (proj2 (X27_popup_mode_request_round_trip Scenario.ready (Sample.env_ok 1000000)
                  "silent" Js.Undefined eq_refl (or_intror eq_refl))).
Defined.

Lemma X28_witness :
  let w' := exec (handleActivityEvent Sample.event (Js.Str "gmail") (Js.Str "awareness")
                    (Sample.env_fail 1000000)) Scenario.ready in
  exists response,
    onMessage Popup.requestState (Sample.env_ok 1000900) w' = (Some response, w')
    /\ Popup.renderState_totalActivities (Popup.received response Js.Undefined) = Js.Num 1.
Proof.
  intros w'.
  destruct (X28_popup_shows_the_outcome_of_an_activity (H := RefHost.ref_host) Scenario.ready Sample.event
              (Js.Str "gmail") (Js.Str "awareness") (Sample.env_fail 1000000) 0
              Popup.requestState Js.Undefined (Sample.env_ok 1000900)
              eq_refl eq_refl eq_refl ltac:(discriminate) eq_refl eq_refl eq_refl eq_refl)
    as (response & Hreply & Hcount & _).
  exists response. split; [exact Hreply | exact Hcount].
Defined.

Lemma X29_witness :
  lastSyncStatus
    (STATE (run_all [OnActivity Sample.event (Js.Str "gmail") (Js.Str "awareness")
                       (Sample.env_fail 1000000);
                     ClearStats;
                     SetMode (Js.Str "silent") true]
              (cold_start ∅)))
  ∈ reachable_status.
Proof.
  apply X29_lastSyncStatus_stays_among_five_values.
  apply list_elem_of_here.
Defined.

Lemma X30_witness :
  counter_ok
    (STATE (run_all [OnActivity Sample.event (Js.Str "gmail") (Js.Str "awareness")
                       (Sample.env_fail 1000000);
                     SetBackendBaseUrl Js.Null;
                     ClearStats]
              (cold_start ∅))).
Proof.
  apply X30_counter_stays_a_natural_number.
  exists 0. split; [reflexivity | lia].
Defined.
